(** * Take-home test generator: quality gates and generation pipeline

    A shallow embedding of [backend/api/schemas.py],
    [backend/core/quality_gates.py], [backend/core/generator.py],
    [backend/api/routes.py] and [backend/clients/gemini_client.py], and the
    properties of the quality gates, of the four-phase pipeline, of the two
    routes and of the client.

    Conventions of the embedding.
    - A Python [int] is a [Z]; [len] is [length] (a [nat]).
    - A Python [float] is an IEEE-754 binary64 value: [spec_float] with
      precision 53 and maximal exponent 1024, with the operations of
      [SpecFloat] (round to nearest, ties to even).
    - A Python [str] is a [string], one character per code point; the
      embedding covers text whose code points are below 256.
    - A message built by an f-string is a constructor of [message] holding
      the interpolated values; the rendering to text is left out.
    - A Python exception is a constructor of [exn]; a function that may
      raise returns a [result], and a coroutine of the generator runs in a
      state-and-exception monad whose state records the calls made to the
      generation capability.
    - A [dict] is a [gmap] with [string] keys.
    - A pydantic model is built from values of the declared types; what
      pydantic does to values of other types is outside the embedding.
    - A route handler returns an [outcome]: the body it hands to the
      framework, or the [HTTPException] it raises, with its status code and
      its detail.
    - The [retry] decorator of tenacity is the function [retry] over the
      body of the decorated method; the waiting between attempts is left
      out. The model behind the client and the JSON parser are parameters. *)

From Stdlib Require Import ZArith List String Ascii Bool Lia SpecFloat.
From stdpp Require Import base option gmap strings.
Import ListNotations.
Local Open Scope Z_scope.

(** ** Python floats *)

Module PyFloat.

Definition float := spec_float.

Definition prec : Z := 53.
Definition emax : Z := 1024.

Definition mul : float -> float -> float := SFmul prec emax.
Definition add : float -> float -> float := SFadd prec emax.
Definition sub : float -> float -> float := SFsub prec emax.
Definition abs : float -> float := SFabs.
Definition leb : float -> float -> bool := SFleb.
Definition ltb : float -> float -> bool := SFltb.
Definition eqb : float -> float -> bool := SFeqb.

Definition is_zero (x : float) : bool :=
  match x with S754_zero _ => true | _ => false end.

Definition is_nan (x : float) : bool :=
  match x with S754_nan => true | _ => false end.

Definition is_infinity (x : float) : bool :=
  match x with S754_infinity _ => true | _ => false end.

(** [float(n)] for an [int]: the nearest binary64 value, [None] when the
    integer is too large (Python raises [OverflowError]). *)
Definition of_int (n : Z) : option float :=
  let x := binary_normalize prec emax n 0 false in
  if is_infinity x then None else Some x.

(** The IEEE quotient; the caller checks the divisor for zero first, as
    Python's [float.__truediv__] does. *)
Definition div : float -> float -> float := SFdiv prec emax.

(** The quotient of two integers rounded once to binary64, which is what
    [int / int] returns. The sign of a zero result follows CPython. *)
Definition div_int (a b : Z) : float :=
  match a, b with
  | Z0, _ => S754_zero (b <? 0)
  | _, Z0 => S754_nan
  | _, _ =>
      let '(mz, ez, lz) :=
        SFdiv_core_binary prec emax (Z.abs a) 0 (Z.abs b) 0 in
      binary_round_aux prec emax (xorb (a <? 0) (b <? 0)) mz ez lz
  end.

(** A decimal literal [n / 10^k] of the source, for [0 < n < 2^53] and
    [10^k < 2^53]: both are binary64 values and the division rounds once,
    so this is the binary64 value nearest to the decimal. *)
Definition decimal (n : Z) (k : Z) : float :=
  div (binary_normalize prec emax n 0 false)
      (binary_normalize prec emax (10 ^ k) 0 false).

(** [int(x)]: truncation towards zero. *)
Definition trunc (x : float) : option Z :=
  match x with
  | S754_zero _ => Some 0
  | S754_finite s m e =>
      Some (cond_Zopp s
              (match e with
               | Zneg p => Z.shiftr (Zpos m) (Zpos p)
               | _ => Z.shiftl (Zpos m) e
               end))
  | _ => None
  end.

(** [x == n] for a float [x] and an int [n]: Python compares the exact
    values. *)
Definition eqb_int (x : float) (n : Z) : bool :=
  match x with
  | S754_zero _ => n =? 0
  | S754_finite s m e =>
      match e with
      | Zneg p =>
          (Z.land (Zpos m) (Z.ones (Zpos p)) =? 0)
          && (cond_Zopp s (Z.shiftr (Zpos m) (Zpos p)) =? n)
      | _ => cond_Zopp s (Z.shiftl (Zpos m) e) =? n
      end
  | _ => false
  end.

Definition c0 : float := S754_zero false.
Definition c2 : float := Eval vm_compute in decimal 2 0.
Definition c8 : float := Eval vm_compute in decimal 8 0.
Definition c1 : float := Eval vm_compute in decimal 1 0.
Definition c60 : float := Eval vm_compute in decimal 60 0.
Definition c0_75 : float := Eval vm_compute in decimal 75 2.
Definition c1_25 : float := Eval vm_compute in decimal 125 2.
Definition c0_01 : float := Eval vm_compute in decimal 1 2.
Definition c0_05 : float := Eval vm_compute in decimal 5 2.
Definition c0_5 : float := Eval vm_compute in decimal 5 1.
Definition c0_7499 : float := Eval vm_compute in decimal 7499 4.
Definition c1_2501 : float := Eval vm_compute in decimal 12501 4.

End PyFloat.

(** ** Python strings *)

Module PyStr.
Local Open Scope string_scope.

(** [str.isspace] on one character, for the code points below 256:
    U+0009..U+000D, U+001C..U+001F, U+0020, U+0085 and U+00A0. *)
Definition is_whitespace (c : ascii) : bool :=
  let n := nat_of_ascii c in
  ((9 <=? n) && (n <=? 13) || (28 <=? n) && (n <=? 32)
   || (n =? 133) || (n =? 160))%nat.

Fixpoint lstrip (s : string) : string :=
  match s with
  | EmptyString => EmptyString
  | String c s' => if is_whitespace c then lstrip s' else s
  end.

Fixpoint rstrip (s : string) : string :=
  match s with
  | EmptyString => EmptyString
  | String c s' =>
      match rstrip s' with
      | EmptyString => if is_whitespace c then EmptyString else String c EmptyString
      | r => String c r
      end
  end.

(** [s.strip()] *)
Definition strip (s : string) : string := rstrip (lstrip s).

(** Truth value of a string: [not s] holds of the empty string only. *)
Definition truthy (s : string) : bool :=
  match s with EmptyString => false | _ => true end.

(** The test [not s or not s.strip()] of the rubric gate. *)
Definition blank (s : string) : bool :=
  negb (truthy s) || negb (truthy (strip s)).

Fixpoint all_whitespace (s : string) : bool :=
  match s with
  | EmptyString => true
  | String c s' => is_whitespace c && all_whitespace s'
  end.

(** [str.lower] on one character, for the code points below 256: the
    letters A..Z and the Latin-1 capitals U+00C0..U+00DE, except the
    multiplication sign U+00D7, move up by 32. *)
Definition lower_char (c : ascii) : ascii :=
  let n := nat_of_ascii c in
  if ((65 <=? n) && (n <=? 90)
      || (192 <=? n) && (n <=? 222) && negb (n =? 215))%nat
  then ascii_of_nat (n + 32) else c.

Fixpoint lower (s : string) : string :=
  match s with
  | EmptyString => EmptyString
  | String c s' => String (lower_char c) (lower s')
  end.

Fixpoint starts_with (p s : string) : bool :=
  match p, s with
  | EmptyString, _ => true
  | String a p', String b s' => Ascii.eqb a b && starts_with p' s'
  | String _ _, EmptyString => false
  end.

(** [p in s] for strings. *)
Fixpoint contains (p s : string) : bool :=
  starts_with p s
  || match s with
     | EmptyString => false
     | String _ s' => contains p s'
     end.

(** ["A" * n] *)
Fixpoint repeat (c : ascii) (n : nat) : string :=
  match n with
  | O => EmptyString
  | S n' => String c (repeat c n')
  end.

End PyStr.

(** ** Messages and exceptions *)

Abbreviation float := PyFloat.float.

(** The issue and warning texts of the quality gates, one constructor per
    f-string, with the values the f-string interpolates. *)
Inductive message : Type :=
  (* validate_context_extraction *)
  | InsufficientResponsibilities
  | BusinessDomainNotIdentified
  | DailyTechnologiesNotSpecified
  | CollaborationPatternsNotIdentified
  (* validate_scope *)
  | TimeMismatch (total_time : Z) (expected_minutes time_ratio : float)
  | BusinessContextTooBrief (chars : nat)
  | BusinessContextQuiteLong (chars : nat)
  | TooFewMustHave (count : nat)
  | ManyMustHave (count : nat)
  | FewConstraints (count : nat)
  | BusinessContextGeneric (term : string)
  (* validate_rubric *)
  | TooFewRubricItems (count : nat)
  | ManyRubricItems (count : nat)
  | WeightSumMismatch (weight_sum : float)
  | InvalidWeight (area : string) (weight : float)
  | VerySmallWeight (area : string) (weight : float)
  | EmptyJuniorExpectation (area : string)
  | EmptyMidExpectation (area : string)
  | EmptySeniorExpectation (area : string)
  | EmptyScoringGuide (area : string)
  (* generate_scope_warnings *)
  | ComplexityMayNotMatch (seniority_level : string)
  | ManyMustHaveForBudget (count : nat)
  | NoNiceToHave
  | MustHaveShareLow (must_have_ratio : float).

(** The phases of [AssignmentGenerator], used to tag wrapped failures. *)
Inductive phase : Type :=
  | ExtractContext | DefineScope | GenerateRubric | GenerateTimeBreakdown.

(** The exceptions that reach the pipeline. The four classes of
    [generator.py] carry their message: either the issue list of a failed
    gate (joined with commas in the source) or the exception a phase caught
    and wrapped. *)
Inductive exn : Type :=
  (* raised by the Gemini client *)
  | RateLimitError
  | GeminiAPIError
  (* raised while a response is turned into a model *)
  | ValidationError
  | KeyError
  | TypeError
  (* raised by arithmetic *)
  | ZeroDivisionError
  | OverflowError
  | ValueError
  (* generator.py *)
  | GenerationError (what : failure)
  | ScopeValidationError (what : failure)
  | ContextExtractionError (what : failure)
  | RubricGenerationError (what : failure)
with failure : Type :=
  | ValidationFailed (issues : list message)
  | Failed (during : phase) (cause : exn).

(** [issubclass]: the three dedicated classes derive from
    [GenerationError]; every class derives from [Exception]. *)
Inductive exn_class : Type :=
  | ClsRateLimitError | ClsGeminiAPIError | ClsValidationError | ClsKeyError
  | ClsTypeError | ClsZeroDivisionError | ClsOverflowError | ClsValueError
  | ClsGenerationError | ClsScopeValidationError | ClsContextExtractionError
  | ClsRubricGenerationError.

Definition class_of (e : exn) : exn_class :=
  match e with
  | RateLimitError => ClsRateLimitError
  | GeminiAPIError => ClsGeminiAPIError
  | ValidationError => ClsValidationError
  | KeyError => ClsKeyError
  | TypeError => ClsTypeError
  | ZeroDivisionError => ClsZeroDivisionError
  | OverflowError => ClsOverflowError
  | ValueError => ClsValueError
  | GenerationError _ => ClsGenerationError
  | ScopeValidationError _ => ClsScopeValidationError
  | ContextExtractionError _ => ClsContextExtractionError
  | RubricGenerationError _ => ClsRubricGenerationError
  end.

Definition is_ContextExtractionError (e : exn) : bool :=
  match e with ContextExtractionError _ => true | _ => false end.

Definition is_RubricGenerationError (e : exn) : bool :=
  match e with RubricGenerationError _ => true | _ => false end.

(** A computation that returns a value or raises. *)
Inductive result (A : Type) : Type :=
  | Return (a : A)
  | Raise (e : exn).
Arguments Return {A} a.
Arguments Raise {A} e.

#[global] Instance result_ret : MRet result := fun A a => Return a.
#[global] Instance result_bind : MBind result := fun A B f m =>
  match m with
  | Return a => f a
  | Raise e => Raise e
  end.

Definition returns {A : Type} (m : result A) : bool :=
  match m with Return _ => true | Raise _ => false end.

(** [n / y] for an int [n] and a float [y]: the int is converted first,
    then a zero divisor is refused. *)
Definition int_truediv_float (n : Z) (y : float) : result float :=
  match PyFloat.of_int n with
  | None => Raise OverflowError
  | Some x =>
      if PyFloat.is_zero y then Raise ZeroDivisionError
      else Return (PyFloat.div x y)
  end.

(** [a / b] for two ints. *)
Definition int_truediv (a b : Z) : result float :=
  if b =? 0 then Raise ZeroDivisionError
  else
    let q := PyFloat.div_int a b in
    if PyFloat.is_infinity q then Raise OverflowError else Return q.

(** [int(x)] for a float. *)
Definition int_of_float (x : float) : result Z :=
  match PyFloat.trunc x with
  | Some n => Return n
  | None => if PyFloat.is_nan x then Raise ValueError else Raise OverflowError
  end.

(** [sum] over ints. *)
Definition sum_int (l : list Z) : Z := fold_left Z.add l 0.

(** [sum] over floats as CPython up to 3.11 computes it: the running total
    starts from the int [0] and each item is added in turn. Later versions
    compensate the rounding error of the additions; the gates below take the
    summation as a parameter and their properties hold for either. *)
Definition sum_float_left (l : list float) : float :=
  fold_left PyFloat.add l PyFloat.c0.

(** ** The models of [schemas.py]

    Each pydantic model is a record [t] in a module of its name; [validate]
    is the check that building the model from type-correct field values
    performs ([Field] bounds and [field_validator]s) and raises
    [ValidationError] when it fails. *)

Module AssignmentInput.
Record t : Type := mk {
  job_title : string;
  job_description : string;
  tech_stack : list string;
  time_budget_hours : float;
  seniority_level : string;
  company_context : option string;
  current_challenges : option string;
  must_evaluate : list string;
  avoid_topics : list string;
  candidate_can_use : option (list string);
  submission_format : string
}.

Definition validate (x : t) : result t :=
  if (1 <=? String.length (job_title x))%nat
     && (String.length (job_title x) <=? 200)%nat
     && (100 <=? String.length (job_description x))%nat
     && (String.length (job_description x) <=? 5000)%nat
     && (1 <=? length (tech_stack x))%nat
     && PyFloat.leb PyFloat.c2 (time_budget_hours x)
     && PyFloat.leb (time_budget_hours x) PyFloat.c8
     && bool_decide (seniority_level x ∈ ["junior"; "mid"; "senior"; "staff"]%string)
     && bool_decide (submission_format x ∈ ["github"; "zip"; "codesandbox"]%string)
  then Return x else Raise ValidationError.
End AssignmentInput.

Module Requirement.
Record t : Type := mk {
  description : string;
  estimated_time_minutes : Z;
  why_it_matters : string
}.

Definition validate (x : t) : result t :=
  if 0 <? estimated_time_minutes x then Return x else Raise ValidationError.
End Requirement.

Module Requirements.
Record t : Type := mk {
  must_have : list Requirement.t;
  nice_to_have : list Requirement.t;
  constraints : list string
}.

Definition validate (x : t) : result t :=
  if (3 <=? length (must_have x))%nat && (length (must_have x) <=? 7)%nat
  then Return x else Raise ValidationError.
End Requirements.

(** The two branches of the time-estimate f-string of
    [_assemble_assignment]. *)
Inductive time_estimate : Type :=
  | WholeHours (hours : Z)
  | OneDecimalHours (hours : float).

Module CandidateBrief.
Record t : Type := mk {
  title : string;
  business_context : string;
  requirements : Requirements.t;
  submission_guidelines : string;
  evaluation_criteria : list string;
  time_estimate : time_estimate
}.

Definition validate (x : t) : result t :=
  if (100 <=? String.length (business_context x))%nat
     && (String.length (business_context x) <=? 2000)%nat
  then Return x else Raise ValidationError.
End CandidateBrief.

Module RubricItem.
Record t : Type := mk {
  area : string;
  weight : float;
  junior_expectation : string;
  mid_expectation : string;
  senior_expectation : string;
  scoring_guide : string
}.

(** [weight: float = Field(..., ge=0.0, le=1.0)] *)
Definition weight_in_range (x : t) : bool :=
  PyFloat.leb PyFloat.c0 (weight x) && PyFloat.leb (weight x) PyFloat.c1.

Definition validate (x : t) : result t :=
  if weight_in_range x then Return x else Raise ValidationError.
End RubricItem.

Module EvaluatorGuide.
Record t : Type := mk {
  scoring_rubric : list RubricItem.t;
  common_pitfalls : list string;
  red_flags : list string;
  green_flags : list string;
  calibration_notes : string
}.

Section WithSum.
Variable float_sum : list float -> float.

(** [validate_weights_sum_to_one] *)
Definition validate_weights_sum_to_one (v : list RubricItem.t)
  : result (list RubricItem.t) :=
  let total_weight :=
    match v with
    | [] => PyFloat.c0
    | _ => float_sum (map RubricItem.weight v)
    end in
  if PyFloat.ltb PyFloat.c0_01 (PyFloat.abs (PyFloat.sub total_weight PyFloat.c1))
  then Raise ValidationError
  else Return v.

Definition validate (x : t) : result t :=
  if (3 <=? length (scoring_rubric x))%nat
     && (length (scoring_rubric x) <=? 7)%nat
  then _ ← validate_weights_sum_to_one (scoring_rubric x); Return x
  else Raise ValidationError.
End WithSum.
End EvaluatorGuide.

Module TimeBreakdown.
Record t : Type := mk {
  total_minutes : Z;
  setup_minutes : Z;
  core_implementation_minutes : Z;
  testing_minutes : Z;
  documentation_minutes : Z;
  buffer_minutes : Z;
  breakdown_valid : bool
}.

(** The state of a model validation: [data] is [info.data], the fields
    validated so far, and [errors] the names of the fields that failed. *)
Record progress : Type := mk_progress {
  data : gmap string Z;
  errors : list string
}.

(** One [int] field with its bound: a value that passes is entered into
    [info.data], a value that fails is reported and left out. *)
Definition int_field (name : string) (bound : Z -> bool) (value : Z)
    (p : progress) : progress :=
  if bound value
  then mk_progress (<[name := value]> (data p)) (errors p)
  else mk_progress (data p) (errors p ++ [name]).

Definition gt (n v : Z) : bool := n <? v.
Definition ge (n v : Z) : bool := n <=? v.

(** [info.data.get(name, 0)] *)
Definition get (d : gmap string Z) (name : string) : Z := default 0 (d !! name).

(** [validate_breakdown_sum(cls, v, info)] *)
Definition validate_breakdown_sum (v : bool) (info_data : gmap string Z) : bool :=
  if bool_decide (info_data = ∅) then v
  else
    let expected_total :=
      get info_data "setup_minutes"
      + get info_data "core_implementation_minutes"
      + get info_data "testing_minutes"
      + get info_data "documentation_minutes"
      + get info_data "buffer_minutes" in
    let total := get info_data "total_minutes" in
    Z.abs (total - expected_total) <? 5.

(** The model built from type-correct response values: the fields are
    validated in declaration order, the validator of [breakdown_valid]
    runs last and its return value becomes the field. *)
Definition validate (x : t) : result t :=
  let p := mk_progress ∅ [] in
  let p := int_field "total_minutes" (gt 0) (total_minutes x) p in
  let p := int_field "setup_minutes" (ge 0) (setup_minutes x) p in
  let p := int_field "core_implementation_minutes" (gt 0)
             (core_implementation_minutes x) p in
  let p := int_field "testing_minutes" (ge 0) (testing_minutes x) p in
  let p := int_field "documentation_minutes" (ge 0) (documentation_minutes x) p in
  let p := int_field "buffer_minutes" (ge 0) (buffer_minutes x) p in
  let v := validate_breakdown_sum (breakdown_valid x) (data p) in
  match errors p with
  | [] =>
      Return (mk (total_minutes x) (setup_minutes x)
                 (core_implementation_minutes x) (testing_minutes x)
                 (documentation_minutes x) (buffer_minutes x) v)
  | _ :: _ => Raise ValidationError
  end.

(** The sum of the five category fields of a model. *)
Definition category_sum (x : t) : Z :=
  setup_minutes x + core_implementation_minutes x + testing_minutes x
  + documentation_minutes x + buffer_minutes x.
End TimeBreakdown.

Module GeneratedAssignment.
Record t : Type := mk {
  candidate_brief : CandidateBrief.t;
  evaluator_guide : EvaluatorGuide.t;
  time_breakdown : TimeBreakdown.t;
  assignment_id : string;
  generated_at : Z;
  estimated_difficulty : string;
  scope_warnings : list message
}.

Definition validate (x : t) : result t :=
  if bool_decide (estimated_difficulty x ∈ ["easy"; "medium"; "hard"]%string)
  then Return x else Raise ValidationError.
End GeneratedAssignment.

Module ValidationResult.
Record t : Type := mk {
  passed : bool;
  issues : list message;
  warnings : list message
}.
End ValidationResult.

Module JobContext.
Record t : Type := mk {
  responsibilities : list string;
  business_domain : string;
  daily_technologies : list string;
  collaboration_patterns : option string
}.
End JobContext.

Module AssignmentScope.
Record t : Type := mk {
  title : string;
  business_context : string;
  must_have : list Requirement.t;
  nice_to_have : list Requirement.t;
  constraints : list string
}.

Definition all_requirements (self : t) : list Requirement.t :=
  must_have self ++ nice_to_have self.
End AssignmentScope.

Module ScopeValidation.
Record t : Type := mk {
  passed : bool;
  issues : list message;
  warnings : list message
}.
End ScopeValidation.

(** ** [quality_gates.py] *)

(** [if c: l.append(x)] *)
Definition append_if {A : Type} (c : bool) (x : A) (l : list A) : list A :=
  if c then l ++ [x] else l.

(** [sum(req.estimated_time_minutes for req in reqs)] *)
Definition total_minutes_of (reqs : list Requirement.t) : Z :=
  sum_int (map Requirement.estimated_time_minutes reqs).

Module QualityGate.
Import ValidationResult.

Definition validate_context_extraction (context : JobContext.t) : ValidationResult.t :=
  let issues := [] in
  let warnings := [] in
  (* Check responsibilities *)
  let issues :=
    append_if (length (JobContext.responsibilities context) <? 3)%nat
      InsufficientResponsibilities issues in
  (* Check business domain *)
  let issues :=
    append_if
      (negb (PyStr.truthy (JobContext.business_domain context))
       || (String.length (PyStr.strip (JobContext.business_domain context)) =? 0)%nat)
      BusinessDomainNotIdentified issues in
  (* Check daily technologies *)
  let issues :=
    append_if
      (match JobContext.daily_technologies context with [] => true | _ => false end
       || (length (JobContext.daily_technologies context) =? 0)%nat)
      DailyTechnologiesNotSpecified issues in
  (* Warnings for missing optional fields *)
  let warnings :=
    append_if
      (match JobContext.collaboration_patterns context with
       | None => true
       | Some s => negb (PyStr.truthy s)
       end)
      CollaborationPatternsNotIdentified warnings in
  mk (length issues =? 0)%nat issues warnings.

Definition generic_terms : list string :=
  ["bookstore"; "todo"; "to-do"; "blog"; "e-commerce store"]%string.

(** The ratio the scope gate tests:
    [total_time / (time_budget_hours * 60)]. *)
Definition time_ratio (scope : AssignmentScope.t) (time_budget_hours : float)
  : result float :=
  let total_time := total_minutes_of (AssignmentScope.all_requirements scope) in
  let expected_minutes := PyFloat.mul time_budget_hours PyFloat.c60 in
  int_truediv_float total_time expected_minutes.

Definition validate_scope (scope : AssignmentScope.t) (time_budget_hours : float)
  : result ValidationResult.t :=
  let issues := [] in
  let warnings := [] in
  (* Calculate total time from requirements *)
  let total_time := total_minutes_of (AssignmentScope.all_requirements scope) in
  let expected_minutes := PyFloat.mul time_budget_hours PyFloat.c60 in
  time_ratio ← int_truediv_float total_time expected_minutes;
  (* Time budget validation *)
  let issues :=
    append_if
      (negb (PyFloat.leb PyFloat.c0_75 time_ratio && PyFloat.leb time_ratio PyFloat.c1_25))
      (TimeMismatch total_time expected_minutes time_ratio) issues in
  (* Business context validation *)
  let chars := String.length (AssignmentScope.business_context scope) in
  let issues := append_if (chars <? 100)%nat (BusinessContextTooBrief chars) issues in
  let warnings := append_if (2000 <? chars)%nat (BusinessContextQuiteLong chars) warnings in
  (* Requirements count validation *)
  let count := length (AssignmentScope.must_have scope) in
  let issues := append_if (count <? 3)%nat (TooFewMustHave count) issues in
  let warnings := append_if (7 <? count)%nat (ManyMustHave count) warnings in
  (* Constraints validation *)
  let warnings :=
    append_if (length (AssignmentScope.constraints scope) <? 2)%nat
      (FewConstraints (length (AssignmentScope.constraints scope))) warnings in
  (* Check for generic business context: the loop stops at the first hit *)
  let context_lower := PyStr.lower (AssignmentScope.business_context scope) in
  let warnings :=
    match find (fun term => PyStr.contains term context_lower) generic_terms with
    | Some term => warnings ++ [BusinessContextGeneric term]
    | None => warnings
    end in
  Return (mk (length issues =? 0)%nat issues warnings).

Section WithSum.
(** Python's [sum] over the weights, see [sum_float_left]. *)
Variable float_sum : list float -> float.

(** [sum(item.weight for item in rubric)]; the sum of no item is the
    int [0]. *)
Definition weight_sum_of (rubric : list RubricItem.t) : float :=
  match rubric with
  | [] => PyFloat.c0
  | _ => float_sum (map RubricItem.weight rubric)
  end.

(** The test [abs(weight_sum - 1.0) > 0.01]. *)
Definition off_by_more_than_tolerance (weight_sum : float) : bool :=
  PyFloat.ltb PyFloat.c0_01 (PyFloat.abs (PyFloat.sub weight_sum PyFloat.c1)).

Definition validate_rubric (rubric : list RubricItem.t) : ValidationResult.t :=
  let issues := [] in
  let warnings := [] in
  (* Check rubric count *)
  let issues :=
    append_if (length rubric <? 3)%nat (TooFewRubricItems (length rubric)) issues in
  let warnings :=
    append_if (7 <? length rubric)%nat (ManyRubricItems (length rubric)) warnings in
  (* Validate weights sum to 1.0 *)
  let weight_sum := weight_sum_of rubric in
  let issues :=
    append_if (off_by_more_than_tolerance weight_sum)
      (WeightSumMismatch weight_sum) issues in
  (* Check for zero or negative weights *)
  let issues :=
    fold_left
      (fun issues item =>
         append_if (PyFloat.leb (RubricItem.weight item) PyFloat.c0)
           (InvalidWeight (RubricItem.area item) (RubricItem.weight item)) issues)
      rubric issues in
  (* Check for very small weights *)
  let warnings :=
    fold_left
      (fun warnings item =>
         append_if
           (PyFloat.ltb PyFloat.c0 (RubricItem.weight item)
            && PyFloat.ltb (RubricItem.weight item) PyFloat.c0_05)
           (VerySmallWeight (RubricItem.area item) (RubricItem.weight item)) warnings)
      rubric warnings in
  (* Validate expectations are not empty *)
  let '(issues, warnings) :=
    fold_left
      (fun '(issues, warnings) item =>
         let warnings :=
           append_if (PyStr.blank (RubricItem.junior_expectation item))
             (EmptyJuniorExpectation (RubricItem.area item)) warnings in
         let warnings :=
           append_if (PyStr.blank (RubricItem.mid_expectation item))
             (EmptyMidExpectation (RubricItem.area item)) warnings in
         let warnings :=
           append_if (PyStr.blank (RubricItem.senior_expectation item))
             (EmptySeniorExpectation (RubricItem.area item)) warnings in
         let issues :=
           append_if (PyStr.blank (RubricItem.scoring_guide item))
             (EmptyScoringGuide (RubricItem.area item)) issues in
         (issues, warnings))
      rubric (issues, warnings) in
  mk (length issues =? 0)%nat issues warnings.
End WithSum.

Definition check_seniority_match (scope : AssignmentScope.t) (seniority_level : string)
  : bool :=
  let requirement_count := Z.of_nat (length (AssignmentScope.must_have scope)) in
  let total_time := total_minutes_of (AssignmentScope.all_requirements scope) in
  (* Heuristic thresholds *)
  if String.eqb seniority_level "junior"%string then
    (3 <=? requirement_count) && (requirement_count <=? 4)
    && (120 <=? total_time) && (total_time <=? 240)
  else if String.eqb seniority_level "mid"%string then
    (4 <=? requirement_count) && (requirement_count <=? 5)
    && (180 <=? total_time) && (total_time <=? 300)
  else if String.eqb seniority_level "senior"%string then
    (5 <=? requirement_count) && (requirement_count <=? 6)
    && (240 <=? total_time) && (total_time <=? 420)
  else if String.eqb seniority_level "staff"%string then
    (6 <=? requirement_count) && (requirement_count <=? 7)
    && (360 <=? total_time) && (total_time <=? 540)
  else true.

Definition generate_scope_warnings (scope : AssignmentScope.t)
    (seniority_level : string) (time_budget_hours : float)
  : result (list message) :=
  let warnings := [] in
  (* Check seniority match *)
  let warnings :=
    append_if (negb (check_seniority_match scope seniority_level))
      (ComplexityMayNotMatch seniority_level) warnings in
  (* Check requirement balance *)
  let must_have_count := length (AssignmentScope.must_have scope) in
  let nice_to_have_count := length (AssignmentScope.nice_to_have scope) in
  let warnings :=
    append_if (6 <? must_have_count)%nat (ManyMustHaveForBudget must_have_count)
      warnings in
  let warnings := append_if (nice_to_have_count =? 0)%nat NoNiceToHave warnings in
  (* Check time distribution *)
  let must_have_time := total_minutes_of (AssignmentScope.must_have scope) in
  let total_time := total_minutes_of (AssignmentScope.all_requirements scope) in
  if 0 <? total_time then
    must_have_ratio ← int_truediv must_have_time total_time;
    Return (append_if (PyFloat.ltb must_have_ratio PyFloat.c0_5)
              (MustHaveShareLow must_have_ratio) warnings)
  else Return warnings.

End QualityGate.

(** ** [generator.py] *)

Module AssignmentGenerator.

(** What the prompt of a phase is built from. The prompt text itself is
  not modelled; a call of the generation capability is identified by the
  arguments of its prompt builder. *)
Inductive request : Type :=
| ContextRequest (job_description : string) (tech_stack : list string)
| ScopeRequest (context : JobContext.t) (seniority_level : string)
  (time_budget_hours : float) (must_evaluate avoid_topics : list string)
  (company_context current_challenges : option string)
| RubricRequest (scope : AssignmentScope.t) (seniority_level : string)
  (must_evaluate : list string)
| TimeBreakdownRequest (scope : AssignmentScope.t) (time_budget_hours : float)
  (total_minutes : Z).

(** The JSON document a call returns, by shape: a document that has the
  keys and field types of one of the four schemas, with its values, or a
  document that the phase cannot turn into its model, with the exception
  the conversion raises. *)
Inductive response : Type :=
| ContextJson (context : JobContext.t)
| ScopeJson (title business_context : string)
  (must_have_requirements nice_to_have_requirements : list Requirement.t)
  (constraints : list string)
| RubricJson (guide : EvaluatorGuide.t)
| TimeBreakdownJson (breakdown : TimeBreakdown.t)
| Malformed (raised : exn).

(** [[f(x) for x in l]] where [f] may raise: the first failure ends it. *)
Fixpoint map_result {A B : Type} (f : A -> result B) (l : list A) : result (list B) :=
match l with
| [] => Return []
| x :: l' =>
    y ← f x;
    ys ← map_result f l';
    Return (y :: ys)
end.

(** [sep.join(l)] *)
Fixpoint join (sep : string) (l : list string) : string :=
match l with
| [] => EmptyString
| [x] => x
| x :: l' => (x ++ sep ++ join sep l')%string
end.

Definition newline : string := String (ascii_of_nat 10) EmptyString.

Definition format_map : gmap string string :=
<["github" :=
    ("Please submit your solution as a GitHub repository. "
     ++ "Include a comprehensive README with setup instructions, "
     ++ "architecture decisions, and any assumptions made.")%string]>
(<["zip" :=
    ("Please submit your solution as a ZIP file. "
     ++ "Include a comprehensive README with setup instructions, "
     ++ "architecture decisions, and any assumptions made.")%string]>
(<["codesandbox" :=
    ("Please submit your solution as a CodeSandbox link. "
     ++ "Ensure all dependencies are properly configured and the "
     ++ "sandbox is publicly accessible.")%string]> ∅)).

Definition _build_submission_guidelines (input_data : AssignmentInput.t) : string :=
let base_guidelines :=
  default (format_map !!! "github"%string)
    (format_map !! AssignmentInput.submission_format input_data) in
let additional_notes :=
  match AssignmentInput.candidate_can_use input_data with
  | Some (lib :: libs') =>
      let libs := join ", " (lib :: libs') in
      [("You may use the following libraries/frameworks: " ++ libs)%string]
  | _ => []
  end in
match additional_notes with
| _ :: _ => (base_guidelines ++ newline ++ newline ++ join " " additional_notes)%string
| [] => base_guidelines
end.

Definition _estimate_difficulty (scope : AssignmentScope.t)
  (input_data : AssignmentInput.t) : string :=
(* Heuristic based on time, requirements, and seniority *)
let total_time := total_minutes_of (AssignmentScope.all_requirements scope) in
let requirement_count := Z.of_nat (length (AssignmentScope.must_have scope)) in
(* Simple heuristic *)
if (total_time <=? 180) && (requirement_count <=? 4) then "easy"
else if (total_time >=? 360) || (requirement_count >=? 6) then "hard"
else "medium".

(** Phase 3. The method awaits nothing and calls no capability. *)
Definition _validate_scope (scope : AssignmentScope.t) (input_data : AssignmentInput.t)
: result ScopeValidation.t :=
validation_result ←
  QualityGate.validate_scope scope (AssignmentInput.time_budget_hours input_data);
warnings ←
  QualityGate.generate_scope_warnings scope
    (AssignmentInput.seniority_level input_data)
    (AssignmentInput.time_budget_hours input_data);
(* Combine warnings *)
let all_warnings := ValidationResult.warnings validation_result ++ warnings in
Return (ScopeValidation.mk (ValidationResult.passed validation_result)
          (ValidationResult.issues validation_result) all_warnings).

Section Pipeline.

(** Python's [sum] over floats, see [sum_float_left]. *)
Variable float_sum : list float -> float.

(** Everything outside the process: the generation capability behind
[GeminiClient.generate_json] (with its own retries), [uuid.uuid4] and
[datetime.now]. Each may answer differently every time it is asked. *)
Variable World : Type.
Variable generate_json : request -> World -> result response * World.
Variable uuid4 : World -> string * World.
Variable now : World -> Z * World.

(** The state a request runs in: the world, and the calls of the
capability made so far, oldest first. *)
Record state : Type := mk_state {
world : World;
calls : list request
}.

(** A coroutine of the generator: it runs from a state and returns or
raises, leaving a state. *)
Definition io (A : Type) : Type := state -> result A * state.

#[local] Instance io_ret : MRet io := fun A a s => (Return a, s).
#[local] Instance io_bind : MBind io := fun A B f m s =>
match m s with
| (Return a, s') => f a s'
| (Raise e, s') => (Raise e, s')
end.

Definition raise {A : Type} (e : exn) : io A := fun s => (Raise e, s).

Definition lift {A : Type} (r : result A) : io A := fun s => (r, s).

(** [try: body except Exception as e: handler(e)] *)
Definition try_except {A : Type} (body : io A) (handler : exn -> io A) : io A :=
fun s =>
match body s with
| (Return a, s') => (Return a, s')
| (Raise e, s') => handler e s'
end.

(** [self.client.generate_json(prompt, schema=...)] *)
Definition client_generate_json (r : request) : io response :=
fun s =>
let '(answer, w) := generate_json r (world s) in
(answer, mk_state w (calls s ++ [r])).

Definition _extract_context (input_data : AssignmentInput.t) : io JobContext.t :=
try_except
(response ← client_generate_json
   (ContextRequest (AssignmentInput.job_description input_data)
      (AssignmentInput.tech_stack input_data));
 (* Convert to JobContext *)
 context ← lift
   match response with
   | ContextJson context => Return context
   | Malformed raised => Raise raised
   | _ => Raise ValidationError
   end;
 (* Validate context *)
 let validation := QualityGate.validate_context_extraction context in
 if negb (ValidationResult.passed validation)
 then raise (ContextExtractionError
               (ValidationFailed (ValidationResult.issues validation)))
 else mret context)
(fun e =>
   if is_ContextExtractionError e then raise e
   else raise (ContextExtractionError (Failed ExtractContext e))).

Definition _define_scope (context : JobContext.t) (input_data : AssignmentInput.t)
: io AssignmentScope.t :=
try_except
(response ← client_generate_json
   (ScopeRequest context
      (AssignmentInput.seniority_level input_data)
      (AssignmentInput.time_budget_hours input_data)
      (AssignmentInput.must_evaluate input_data)
      (AssignmentInput.avoid_topics input_data)
      (AssignmentInput.company_context input_data)
      (AssignmentInput.current_challenges input_data));
 lift
   match response with
   | ScopeJson title business_context must_have_requirements
       nice_to_have_requirements constraints =>
       (* Convert requirements to Requirement objects *)
       must_have ← map_result Requirement.validate must_have_requirements;
       nice_to_have ← map_result Requirement.validate nice_to_have_requirements;
       Return (AssignmentScope.mk title business_context must_have
                 nice_to_have constraints)
   | Malformed raised => Raise raised
   | _ => Raise KeyError
   end)
(fun e => raise (GenerationError (Failed DefineScope e))).

Definition _generate_rubric (scope : AssignmentScope.t) (input_data : AssignmentInput.t)
: io EvaluatorGuide.t :=
try_except
(response ← client_generate_json
   (RubricRequest scope
      (AssignmentInput.seniority_level input_data)
      (AssignmentInput.must_evaluate input_data));
 evaluator_guide ← lift
   match response with
   | RubricJson guide =>
       (* Convert to RubricItem objects *)
       rubric_items ←
         map_result RubricItem.validate (EvaluatorGuide.scoring_rubric guide);
       EvaluatorGuide.validate float_sum
         (EvaluatorGuide.mk rubric_items
            (EvaluatorGuide.common_pitfalls guide)
            (EvaluatorGuide.red_flags guide)
            (EvaluatorGuide.green_flags guide)
            (EvaluatorGuide.calibration_notes guide))
   | Malformed raised => Raise raised
   | _ => Raise KeyError
   end;
 (* Validate rubric *)
 let validation :=
   QualityGate.validate_rubric float_sum
     (EvaluatorGuide.scoring_rubric evaluator_guide) in
 if negb (ValidationResult.passed validation)
 then raise (RubricGenerationError
               (ValidationFailed (ValidationResult.issues validation)))
 else mret evaluator_guide)
(fun e =>
   if is_RubricGenerationError e then raise e
   else raise (RubricGenerationError (Failed GenerateRubric e))).

Definition _generate_time_breakdown (scope : AssignmentScope.t)
(input_data : AssignmentInput.t) : io TimeBreakdown.t :=
try_except
((* get_time_breakdown_prompt: total_minutes = int(time_budget_hours * 60) *)
 total_minutes ← lift
   (int_of_float
      (PyFloat.mul (AssignmentInput.time_budget_hours input_data) PyFloat.c60));
 response ← client_generate_json
   (TimeBreakdownRequest scope
      (AssignmentInput.time_budget_hours input_data) total_minutes);
 lift
   match response with
   | TimeBreakdownJson breakdown => TimeBreakdown.validate breakdown
   | Malformed raised => Raise raised
   | _ => Raise ValidationError
   end)
(fun e => raise (GenerationError (Failed GenerateTimeBreakdown e))).

Definition _assemble_assignment (context : JobContext.t) (scope : AssignmentScope.t)
(rubric : EvaluatorGuide.t) (time_breakdown : TimeBreakdown.t)
(validation : ScopeValidation.t) (input_data : AssignmentInput.t)
: io GeneratedAssignment.t :=
(* Build candidate brief *)
requirements ← lift
(Requirements.validate
   (Requirements.mk (AssignmentScope.must_have scope)
      (AssignmentScope.nice_to_have scope)
      (AssignmentScope.constraints scope)));
(* Extract high-level criteria from rubric *)
let evaluation_criteria := map RubricItem.area (EvaluatorGuide.scoring_rubric rubric) in
(* Format time estimate *)
let hours := AssignmentInput.time_budget_hours input_data in
whole ← lift (int_of_float hours);
let time_estimate :=
if PyFloat.eqb_int hours whole then WholeHours whole else OneDecimalHours hours in
(* Build submission guidelines *)
let submission_guidelines := _build_submission_guidelines input_data in
candidate_brief ← lift
(CandidateBrief.validate
   (CandidateBrief.mk (AssignmentScope.title scope)
      (AssignmentScope.business_context scope) requirements
      submission_guidelines evaluation_criteria time_estimate));
(* Determine difficulty *)
let difficulty := _estimate_difficulty scope input_data in
(* Generate unique ID *)
assignment_id ← (fun s => let '(id, w) := uuid4 (world s) in
                        (Return id, mk_state w (calls s)));
generated_at ← (fun s => let '(t, w) := now (world s) in
                       (Return t, mk_state w (calls s)));
lift
(GeneratedAssignment.validate
   (GeneratedAssignment.mk candidate_brief rubric time_breakdown assignment_id
      generated_at difficulty (ScopeValidation.warnings validation))).

Definition generate (input_data : AssignmentInput.t) : io GeneratedAssignment.t :=
(* Phase 1: Extract context *)
context ← _extract_context input_data;
(* Phase 2: Define scope *)
scope ← _define_scope context input_data;
(* Phase 3: Validate scope *)
validation ← lift (_validate_scope scope input_data);
if negb (ScopeValidation.passed validation)
then raise (ScopeValidationError
            (ValidationFailed (ScopeValidation.issues validation)))
else
(* Phase 4: Generate rubric and time breakdown *)
rubric ← _generate_rubric scope input_data;
time_breakdown ← _generate_time_breakdown scope input_data;
(* Assemble final assignment *)
_assemble_assignment context scope rubric time_breakdown validation input_data.

End Pipeline.

End AssignmentGenerator.

(** ** [routes.py] *)

Module Routes.
Import AssignmentGenerator.

(** The [message] entry of a detail: a fixed text, [str(e)], or the
    f-string that names the class of the exception. *)
Inductive detail_message : Type :=
| Text (text : string)
| ExceptionText (e : exn)
| UnexpectedError (type_name : exn_class).

(** The [detail] dict of an [HTTPException]; an entry the dict does not
    have is [None]. *)
Record detail : Type := mk_detail {
error : string;
title : option string;
message : detail_message;
technical_detail : option exn;
suggestions : option (list string)
}.

Record HTTPException : Type := mk_HTTPException {
status_code : Z;
detail_of : detail
}.

(** What a handler leaves to the framework: a body to send with the status
    code of the route, or an [HTTPException]. *)
Inductive outcome (A : Type) : Type :=
| Respond (status : Z) (body : A)
| Raises (e : HTTPException).
Arguments Respond {A} status body.
Arguments Raises {A} e.

Definition status_of {A : Type} (o : outcome A) : Z :=
match o with
| Respond status _ => status
| Raises e => status_code e
end.

Section Handlers.

Variable float_sum : list float -> float.
Variable World : Type.
Variable generate_json : request -> World -> result response * World.
Variable uuid4 : World -> string * World.
Variable now : World -> Z * World.

#[local] Existing Instance io_ret.
#[local] Existing Instance io_bind.

(** The [except] clauses of [generate_assignment], tried in order. *)
Definition generate_assignment_handler (e : exn) : HTTPException :=
match e with
| ScopeValidationError _ =>
    mk_HTTPException 400
      (mk_detail "scope_mismatch"
         (Some "Assignment scope needs adjustment"%string)
         (Text
            ("The AI-generated requirements don't quite match your time budget. "
             ++ "This happens occasionally - the AI is being careful to create "
             ++ "realistic assignments."))
         (Some e)
         (Some
            ["Click 'Try Again' to regenerate - results vary each time";
             "Adjust your time budget slightly (try +/- 30 minutes)";
             "Add more context in the job description to help the AI scope better"
            ]%string))
| ContextExtractionError _ =>
    mk_HTTPException 400
      (mk_detail "insufficient_context"
         (Some "Need more details"%string)
         (Text
            ("The job description doesn't have enough information to create "
             ++ "a well-scoped assignment."))
         (Some e)
         (Some
            ["Add more details about the role's responsibilities";
             "Include specific technical requirements or challenges";
             "Describe the team structure or project context"]%string))
| RubricGenerationError _ =>
    mk_HTTPException 500
      (mk_detail "rubric_generation_failed"
         (Some "Couldn't generate evaluation rubric"%string)
         (Text
            "The AI had trouble creating the scoring rubric for this assignment.")
         (Some e)
         (Some
            ["Click 'Try Again' to regenerate";
             "Try simplifying your requirements";
             "If this persists, the AI service may be experiencing issues"]%string))
| GeminiAPIError =>
    mk_HTTPException 503
      (mk_detail "service_unavailable"
         (Some "AI service temporarily unavailable"%string)
         (Text
            ("We're having trouble connecting to the AI service. "
             ++ "This is usually temporary."))
         None
         (Some
            ["Wait a moment and try again";
             "Check if the issue persists after a few minutes"]%string))
| _ =>
    mk_HTTPException 500
      (mk_detail "internal_error"
         (Some "Something went wrong"%string)
         (UnexpectedError (class_of e))
         (Some e)
         (Some
            ["Click 'Try Again' to retry";
             "If this keeps happening, try refreshing the page"]%string))
end.

(** [POST /assignments/generate], status code 201. *)
Definition generate_assignment (input_data : AssignmentInput.t)
: state World -> outcome GeneratedAssignment.t * state World :=
fun s =>
match generate float_sum World generate_json uuid4 now input_data s with
| (Return assignment, s') => (Respond 201 assignment, s')
| (Raise e, s') => (Raises (generate_assignment_handler e), s')
end.

(** The [except] clauses of [validate_assignment_input]. *)
Definition validate_assignment_input_handler (e : exn) : HTTPException :=
match e with
| ContextExtractionError _ =>
    mk_HTTPException 400
      (mk_detail "insufficient_context" None (ExceptionText e) None None)
| _ =>
    mk_HTTPException 500
      (mk_detail "validation_failed" None (Text "Validation failed unexpectedly")
         None None)
end.

(** [POST /assignments/validate], with the default status code 200. *)
Definition validate_assignment_input (input_data : AssignmentInput.t)
: state World -> outcome ValidationResult.t * state World :=
fun s =>
let body : io World ValidationResult.t :=
  (* Extract context only *)
  context ← _extract_context World generate_json input_data;
  (* Quick scope check *)
  scope ← _define_scope World generate_json context input_data;
  validation ← lift World (_validate_scope scope input_data);
  mret (ValidationResult.mk (ScopeValidation.passed validation)
          (ScopeValidation.issues validation)
          (ScopeValidation.warnings validation)) in
match body s with
| (Return result, s') => (Respond 200 result, s')
| (Raise e, s') => (Raises (validate_assignment_input_handler e), s')
end.

End Handlers.

End Routes.

(** ** [gemini_client.py] *)

Module GeminiClient.

(** [s[n:]] *)
Fixpoint drop (n : nat) (s : string) : string :=
match n, s with
| O, _ => s
| S n', String _ s' => drop n' s'
| S _, EmptyString => EmptyString
end.

(** [s[:n]] *)
Fixpoint take (n : nat) (s : string) : string :=
match n, s with
| S n', String c s' => String c (take n' s')
| _, _ => EmptyString
end.

(** [s[:-n]] for a positive [n]: all but the last [n] characters, nothing
    of a shorter string. *)
Definition drop_end (n : nat) (s : string) : string :=
take (String.length s - n) s.

(** [s.endswith(p)] *)
Definition ends_with (p s : string) : bool :=
(String.length p <=? String.length s)%nat
&& String.eqb (drop (String.length s - String.length p) s) p.

Definition json_fence : string := "```json".
Definition fence : string := "```".

(** The text [generate_json] hands to [json.loads]: the last value of its
    variable [response_text], from [response.text]. *)
Definition response_text (text : string) : string :=
(* Extract JSON from response text *)
let response_text := PyStr.strip text in
(* Remove markdown code blocks if present *)
let response_text :=
  if PyStr.starts_with json_fence response_text then drop 7 response_text
  else if PyStr.starts_with fence response_text then drop 3 response_text
  else response_text in
let response_text :=
  if ends_with fence response_text then drop_end 3 response_text
  else response_text in
PyStr.strip response_text.

(** The two messages of [GeminiAPIError], with the values the f-strings
    interpolate. *)
Inductive api_failure : Type :=
| FailedToParse (e : string) (response_head : string)
| CallFailed (e : string).

(** What a method of the client raises: its two exception classes, and
    the [RetryError] of tenacity, which holds the last attempt. *)
Inductive error : Type :=
| RateLimitError (e : string)
| GeminiAPIError (what : api_failure)
| RetryError (last_attempt : string).

(** The handler [except Exception as e] of [generate_json] and
    [generate_text], on [str(e)]. *)
Definition classify (e : string) : error :=
let error_str := PyStr.lower e in
if PyStr.contains "429" e || PyStr.contains "quota" error_str
   || PyStr.contains "rate limit" error_str
then RateLimitError e
else GeminiAPIError (CallFailed e).

Definition json_instruction : string :=
String (ascii_of_nat 10) (String (ascii_of_nat 10)
  "IMPORTANT: Return ONLY valid JSON, no markdown formatting, no explanation.").

Section Client.

(** The model behind [self.model.generate_content]: to a prompt it answers
    with a text ([inl]) or the call, or the access to [response.text],
    raises an exception, given by its [str] ([inr]). [json.loads] returns a
    value or raises [JSONDecodeError], given by its [str]. *)
Variable World : Type.
Variable Json : Type.
Variable generate_content : string -> World -> (string + string) * World.
Variable json_loads : string -> Json + string.

(** The state of the client: the world, and the prompts sent to the model
    so far, oldest first. *)
Record state : Type := mk_state {
world : World;
prompts : list string
}.

Definition model_generate_content (prompt : string) (s : state)
: (string + string) * state :=
let '(answer, w) := generate_content prompt (world s) in
(answer, mk_state w (prompts s ++ [prompt])).

(** The body of [generate_json]: one attempt. The [schema] argument is not
    used by the body. *)
Definition generate_json_attempt (prompt : string) (s : state)
: (Json + error) * state :=
(* Add explicit JSON instruction to prompt *)
let json_prompt := (prompt ++ json_instruction)%string in
match model_generate_content json_prompt s with
| (inl text, s') =>
    let response_text := response_text text in
    (* Parse JSON response *)
    match json_loads response_text with
    | inl value => (inl value, s')
    | inr e =>
        (inr (GeminiAPIError (FailedToParse e (take 200 response_text))), s')
    end
| (inr e, s') => (inr (classify e), s')
end.

(** The body of [generate_text]: one attempt. *)
Definition generate_text_attempt (prompt : string) (s : state)
: (string + error) * state :=
match model_generate_content prompt s with
| (inl text, s') => (inl text, s')
| (inr e, s') => (inr (classify e), s')
end.

(** [@retry(retry=retry_if_exception_type(RateLimitError),
    stop=stop_after_attempt(n + 1), wait=...)]: an attempt that raises
    [RateLimitError] is made again, after a wait that is not modelled, until
    [n + 1] attempts have been made; tenacity then raises [RetryError].
    Any other outcome of an attempt is the outcome of the call. *)
Fixpoint retry {A : Type} (n : nat) (attempt : state -> (A + error) * state)
  (s : state) : (A + error) * state :=
match attempt s with
| (inr (RateLimitError e), s') =>
    match n with
    | O => (inr (RetryError e), s')
    | S n' => retry n' attempt s'
    end
| outcome => outcome
end.

Definition generate_json (prompt : string) : state -> (Json + error) * state :=
retry 2 (generate_json_attempt prompt).

Definition generate_text (prompt : string) : state -> (string + error) * state :=
retry 2 (generate_text_attempt prompt).

Definition health_check (s : state) : bool * state :=
match generate_text "Hello" s with
| (inl response, s') => ((0 <? String.length response)%nat, s')
| (inr _, s') => (false, s')
end.

End Client.

End GeminiClient.

(** * Vocabulary of the properties *)

(** ** Inputs of the scenarios *)

Module Fixtures.

(** A requirement of the given minutes, and a scope of the given must-have
    and nice-to-have minutes with a business context of 250 characters. *)
Definition req (minutes : Z) : Requirement.t :=
  Requirement.mk "Feature" minutes "Important".

Definition scope_of (must nice : list Z) (constraints : list string)
  : AssignmentScope.t :=
  AssignmentScope.mk "Test Assignment" (PyStr.repeat "A" 250)
    (map req must) (map req nice) constraints.

Definition four_hours : float := Eval vm_compute in PyFloat.decimal 4 0.

Definition item (weight : float) : RubricItem.t :=
  RubricItem.mk "API Design" weight "Basic endpoints" "RESTful design"
    "Advanced patterns" "1-5 scale".

Definition c0_3 : float := Eval vm_compute in PyFloat.decimal 3 1.

Definition c0_25 : float := Eval vm_compute in PyFloat.decimal 25 2.

(** Three items of weights 0.5, 0.25 and 0.25 with the given scoring
    guide. The weights and their partial sums are binary fractions, so the
    sum is exactly 1.0 however it is accumulated. *)
Definition rubric_with_guide (scoring_guide : string) : list RubricItem.t :=
  [ RubricItem.mk "API Design" PyFloat.c0_5 "Basic endpoints" "RESTful design"
      "Advanced patterns" scoring_guide;
    RubricItem.mk "Error Handling" c0_25 "Basic try/catch" "Proper error codes"
      "Comprehensive handling" scoring_guide;
    RubricItem.mk "Testing" c0_25 "Some tests" "Unit tests" "Test strategy"
      scoring_guide ].

End Fixtures.

(** A run of the pipeline: an input, the documents a capability answers
    with, and the world it runs in. *)
Module Demo.
Import AssignmentGenerator.

Definition input_data : AssignmentInput.t :=
  AssignmentInput.mk "Senior Backend Engineer"
    ("Build scalable APIs for our fintech platform. "
     ++ "Own the payroll ledger service and its reconciliation jobs. "
     ++ "Work with product and compliance on new payment rails.")%string
    ["Python"; "FastAPI"; "PostgreSQL"]%string Fixtures.four_hours "senior"
    None None ["API design"; "error handling"]%string [] None "github".

Definition context : JobContext.t :=
  JobContext.mk ["Build APIs"; "Design databases"; "Write tests"]%string
    "Fintech - Payroll processing" ["Python"; "FastAPI"; "PostgreSQL"]%string
    (Some "Agile team with daily standups"%string).

(** A scope answer with the given must-have minutes and 30 optional
    minutes. *)
Definition scope_json (must : list Z) : response :=
  ScopeJson "Payment Processing API" (PyStr.repeat "A" 250)
    (map Fixtures.req must) [Fixtures.req 30]
    ["Rate limit: 100 req/min"; "Max payload: 1MB"]%string.

Definition rubric_json : response :=
  RubricJson
    (EvaluatorGuide.mk (Fixtures.rubric_with_guide "1-5 scale")
       ["Over-engineering"]%string ["No tests"]%string ["Clear README"]%string
       "Score the reasoning, not the choices.").

(** A capability that answers each kind of request with a fixed document,
    the scope and time-breakdown answers being given; the world counts the
    requests answered. *)
Definition capability (scope_answer time_answer : result response)
    (r : request) (w : nat) : result response * nat :=
  (match r with
   | ContextRequest _ _ => Return (ContextJson context)
   | ScopeRequest _ _ _ _ _ _ _ => scope_answer
   | RubricRequest _ _ _ => Return rubric_json
   | TimeBreakdownRequest _ _ _ => time_answer
   end, S w).

Definition uuid4 (w : nat) : string * nat :=
  ("3f2b8c1e-7a4d-4e5f-9b6a-0c1d2e3f4a5b"%string, w).

Definition now (w : nat) : Z * nat := (1700000000, w).

Definition start : state nat := mk_state nat 0%nat [].

(** The time-breakdown answer whose categories sum to 235 for a total of
    240 and which reports itself valid. *)
Definition off_by_five : TimeBreakdown.t := TimeBreakdown.mk 240 20 150 40 20 5 true.

End Demo.

(** ** Readings of the gates' results *)

(** A float that is neither a zero nor a NaN. *)
Definition is_finite_nonzero (x : spec_float) : bool :=
  match x with S754_finite _ _ _ => true | S754_infinity _ => true | _ => false end.

(** The minutes of requirements that pass [Requirement.validate]. *)
Definition valid_minutes (reqs : list Requirement.t) : Prop :=
  List.Forall (fun req => 0 < Requirement.estimated_time_minutes req) reqs.

(** The blocking issues of [validate_scope] for a ratio [r], in the order
    the gate appends them. *)
Definition scope_issues (scope : AssignmentScope.t) (budget r : float) : list message :=
  append_if
    (length (AssignmentScope.must_have scope) <? 3)%nat
    (TooFewMustHave (length (AssignmentScope.must_have scope)))
    (append_if
       (String.length (AssignmentScope.business_context scope) <? 100)%nat
       (BusinessContextTooBrief
          (String.length (AssignmentScope.business_context scope)))
       (append_if
          (negb (PyFloat.leb PyFloat.c0_75 r && PyFloat.leb r PyFloat.c1_25))
          (TimeMismatch
             (total_minutes_of (AssignmentScope.all_requirements scope))
             (PyFloat.mul budget PyFloat.c60) r)
          [])).

(** The kinds of message the properties count or exclude. *)
Definition is_time_mismatch (m : message) : bool :=
  match m with TimeMismatch _ _ _ => true | _ => false end.

(** The tests of the three loops of [validate_rubric]. *)
Definition nonpositive (item : RubricItem.t) : bool :=
  PyFloat.leb (RubricItem.weight item) PyFloat.c0.

Definition very_small (item : RubricItem.t) : bool :=
  PyFloat.ltb PyFloat.c0 (RubricItem.weight item)
  && PyFloat.ltb (RubricItem.weight item) PyFloat.c0_05.

Definition blank_scoring_guide (item : RubricItem.t) : bool :=
  PyStr.blank (RubricItem.scoring_guide item).

(** The warnings one item adds in the last loop of the gate. *)
Definition expectation_warnings (item : RubricItem.t) : list message :=
  append_if (PyStr.blank (RubricItem.senior_expectation item))
    (EmptySeniorExpectation (RubricItem.area item))
    (append_if (PyStr.blank (RubricItem.mid_expectation item))
       (EmptyMidExpectation (RubricItem.area item))
       (append_if (PyStr.blank (RubricItem.junior_expectation item))
          (EmptyJuniorExpectation (RubricItem.area item)) [])).

(** The four kinds of blocking issue of the rubric gate. *)
Definition is_rubric_blocking (m : message) : bool :=
  match m with
  | TooFewRubricItems _ | WeightSumMismatch _ | InvalidWeight _ _
  | EmptyScoringGuide _ => true
  | _ => false
  end.

(** The issues and the warnings of [validate_rubric], in the order the
    gate appends them. *)
Definition rubric_issues (float_sum : list float -> float)
    (rubric : list RubricItem.t) : list message :=
  append_if (QualityGate.off_by_more_than_tolerance
       (QualityGate.weight_sum_of float_sum rubric))
    (WeightSumMismatch (QualityGate.weight_sum_of float_sum rubric))
    (append_if (length rubric <? 3)%nat (TooFewRubricItems (length rubric)) [])
  ++ map (fun item => InvalidWeight (RubricItem.area item) (RubricItem.weight item))
       (List.filter nonpositive rubric)
  ++ map (fun item => EmptyScoringGuide (RubricItem.area item))
       (List.filter blank_scoring_guide rubric).

Definition rubric_warnings (rubric : list RubricItem.t) : list message :=
  append_if (7 <? length rubric)%nat (ManyRubricItems (length rubric)) []
  ++ map (fun item => VerySmallWeight (RubricItem.area item) (RubricItem.weight item))
       (List.filter very_small rubric)
  ++ flat_map expectation_warnings rubric.

Definition is_complexity_warning (m : message) : bool :=
  match m with ComplexityMayNotMatch _ => true | _ => false end.

(** The range test behind each level. *)
Definition in_ranges (scope : AssignmentScope.t) (c_lo c_hi t_lo t_hi : Z) : Prop :=
  c_lo <= Z.of_nat (length (AssignmentScope.must_have scope)) <= c_hi
  /\ t_lo <= total_minutes_of (AssignmentScope.all_requirements scope) <= t_hi.

(** The requests of Phases 1 and 2. *)
Definition context_request (input_data : AssignmentInput.t)
  : AssignmentGenerator.request :=
  AssignmentGenerator.ContextRequest (AssignmentInput.job_description input_data)
    (AssignmentInput.tech_stack input_data).

Definition scope_request (context : JobContext.t) (input_data : AssignmentInput.t)
  : AssignmentGenerator.request :=
  AssignmentGenerator.ScopeRequest context
    (AssignmentInput.seniority_level input_data)
    (AssignmentInput.time_budget_hours input_data)
    (AssignmentInput.must_evaluate input_data)
    (AssignmentInput.avoid_topics input_data)
    (AssignmentInput.company_context input_data)
    (AssignmentInput.current_challenges input_data).

(** ** Readings of the added properties *)

(** The kinds of warning of [validate_scope]. *)
Definition is_generic_warning (m : message) : bool :=
  match m with BusinessContextGeneric _ => true | _ => false end.

(** The members of a list before the first one that passes a test. *)
Definition first_hit {A : Type} (f : A -> bool) (l : list A) (x : A) : Prop :=
  exists before after,
    l = before ++ x :: after
    /\ f x = true
    /\ List.Forall (fun y => f y = false) before.

(** The warnings of [validate_scope] before the loop over the generic terms. *)
Definition structural_warnings (scope : AssignmentScope.t) : list message :=
  append_if (length (AssignmentScope.constraints scope) <? 2)%nat
    (FewConstraints (length (AssignmentScope.constraints scope)))
    (append_if (7 <? length (AssignmentScope.must_have scope))%nat
       (ManyMustHave (length (AssignmentScope.must_have scope)))
       (append_if (2000 <? String.length (AssignmentScope.business_context scope))%nat
          (BusinessContextQuiteLong
             (String.length (AssignmentScope.business_context scope)))
          [])).

(** The warning of the loop over the generic terms, if any. *)
Definition generic_warning (scope : AssignmentScope.t) : list message :=
  match
    find (fun term =>
            PyStr.contains term
              (PyStr.lower (AssignmentScope.business_context scope)))
      QualityGate.generic_terms
  with
  | Some term => [BusinessContextGeneric term]
  | None => []
  end.

(** The warnings of [generate_scope_warnings] that depend on the counts
    alone, in the order the function appends them. *)
Definition balance_warnings (scope : AssignmentScope.t) (seniority_level : string)
  : list message :=
  append_if (length (AssignmentScope.nice_to_have scope) =? 0)%nat NoNiceToHave
    (append_if (6 <? length (AssignmentScope.must_have scope))%nat
       (ManyMustHaveForBudget (length (AssignmentScope.must_have scope)))
       (append_if (negb (QualityGate.check_seniority_match scope seniority_level))
          (ComplexityMayNotMatch seniority_level) [])).

Definition is_share_warning (m : message) : bool :=
  match m with MustHaveShareLow _ => true | _ => false end.

(** The requests of Phases 4a and 4b. *)
Definition rubric_request (scope : AssignmentScope.t) (input_data : AssignmentInput.t)
  : AssignmentGenerator.request :=
  AssignmentGenerator.RubricRequest scope
    (AssignmentInput.seniority_level input_data)
    (AssignmentInput.must_evaluate input_data).

Definition time_breakdown_request (scope : AssignmentScope.t)
    (input_data : AssignmentInput.t) (total_minutes : Z)
  : AssignmentGenerator.request :=
  AssignmentGenerator.TimeBreakdownRequest scope
    (AssignmentInput.time_budget_hours input_data) total_minutes.

(** What the models [RubricItem] and [EvaluatorGuide] accept of a rubric:
    weights within [0.0, 1.0], 3 to 7 items, and a sum of weights within
    0.01 of 1.0. *)
Definition schema_accepts (float_sum : list float -> float)
    (rubric : list RubricItem.t) : bool :=
  forallb RubricItem.weight_in_range rubric
  && (3 <=? length rubric)%nat && (length rubric <=? 7)%nat
  && negb (QualityGate.off_by_more_than_tolerance
             (QualityGate.weight_sum_of float_sum rubric)).

(** The issues of the rubric gate that a rubric accepted by the models can
    still have. *)
Definition remaining_rubric_issues (rubric : list RubricItem.t) : list message :=
  map (fun item => InvalidWeight (RubricItem.area item) (RubricItem.weight item))
    (List.filter nonpositive rubric)
  ++ map (fun item => EmptyScoringGuide (RubricItem.area item))
       (List.filter blank_scoring_guide rubric).

(** The scope a candidate brief was assembled from. *)
Definition scope_of_brief (brief : CandidateBrief.t) : AssignmentScope.t :=
  AssignmentScope.mk (CandidateBrief.title brief)
    (CandidateBrief.business_context brief)
    (Requirements.must_have (CandidateBrief.requirements brief))
    (Requirements.nice_to_have (CandidateBrief.requirements brief))
    (Requirements.constraints (CandidateBrief.requirements brief)).

(** The two kinds of issue the rubric gate can still raise in the
    pipeline: a weight of zero and a blank scoring guide. *)
Definition is_remaining_issue (m : message) : bool :=
  match m with
  | InvalidWeight _ weight => PyFloat.is_zero weight
  | EmptyScoringGuide _ => true
  | _ => false
  end.

(** ** Runs of the client *)

(** A model that is rate limited a given number of times and then answers
    with a fenced document, and a parser that knows one document; the world
    counts the calls answered. *)
Module ClientDemo.

Definition reply : string :=
  ("```json" ++ AssignmentGenerator.newline ++ "{}" ++ AssignmentGenerator.newline
   ++ "```")%string.

Definition generate_content (limited : nat) (prompt : string) (w : nat)
  : (string + string) * nat :=
  (if (w <? limited)%nat then inr "429 Resource has been exhausted"%string
   else inl reply, S w).

Definition json_loads (s : string) : unit + string :=
  if String.eqb s "{}" then inl tt else inr "Expecting value"%string.

Definition start : GeminiClient.state nat := GeminiClient.mk_state nat 0%nat [].

End ClientDemo.

(** A capability that fails every call with the given exception. *)
Definition unavailable (e : exn) (r : AssignmentGenerator.request) (w : nat)
  : result AssignmentGenerator.response * nat :=
  (Raise e, S w).

(** ** Budgets of half hours *)

(** The float [k / 2]: a budget of [k] half hours. *)
Definition half_hours (k : Z) : float := PyFloat.div_int k 2.

(** The test of the scope gate on the ratio of a total to a budget. *)
Definition ratio_within_bounds (total_time : Z) (time_budget_hours : float) : bool :=
  match int_truediv_float total_time (PyFloat.mul time_budget_hours PyFloat.c60) with
  | Return time_ratio =>
      PyFloat.leb PyFloat.c0_75 time_ratio && PyFloat.leb time_ratio PyFloat.c1_25
  | Raise _ => false
  end.

(** The integers from [first] on, [count] of them. *)
Definition int_range (first : Z) (count : nat) : list Z :=
  map (fun i => first + Z.of_nat i) (seq 0 count).

(** The test agrees with the bounds in minutes of a budget of [k] half
    hours. *)
Definition tolerance_holds (k total_time : Z) : bool :=
  Bool.eqb (ratio_within_bounds total_time (half_hours k))
    ((45 * k <=? 2 * total_time) && (2 * total_time <=? 75 * k)).

(** The minutes of a budget of [k] half hours are a normal number between
    64 and 512. *)
Definition budget_minutes_normal (k : Z) : bool :=
  match PyFloat.mul (half_hours k) PyFloat.c60 with
  | S754_finite false m e => (Zdigits2 (Zpos m) =? 53) && (-46 <=? e) && (e <=? -44)
  | _ => false
  end.

(** * Properties *)

(** ** Evaluation on concrete inputs *)

Module FloatExamples.
Import PyFloat.

Example c0_75_bits : c0_75 = S754_finite false 6755399441055744 (-53).
Proof. reflexivity. Qed.

Example c1_25_bits : c1_25 = S754_finite false 5629499534213120 (-52).
Proof. reflexivity. Qed.

Example c60_bits : c60 = S754_finite false 8444249301319680 (-47).
Proof. reflexivity. Qed.

Example c0_01_bits : c0_01 = S754_finite false 5764607523034235 (-59).
Proof. reflexivity. Qed.

Example c0_05_bits : c0_05 = S754_finite false 7205759403792794 (-57).
Proof. reflexivity. Qed.

Example c0_5_bits : c0_5 = S754_finite false 4503599627370496 (-53).
Proof. reflexivity. Qed.

Example c0_7499_bits : c0_7499 = S754_finite false 6754498721130270 (-53).
Proof. reflexivity. Qed.

Example c1_2501_bits : c1_2501 = S754_finite false 5629949894175857 (-52).
Proof. reflexivity. Qed.

Example of_int_240 : of_int 240 = Some (S754_finite false 8444249301319680 (-45)).
Proof. reflexivity. Qed.

Example div_int_1_3 : div_int 1 3 = S754_finite false 6004799503160661 (-54).
Proof. reflexivity. Qed.

Example div_int_big :
  div_int (10 ^ 30) (3 * 10 ^ 30) = S754_finite false 6004799503160661 (-54).
Proof. vm_compute. reflexivity. Qed.

End FloatExamples.

Module StrExamples.
Import PyStr.
Local Open Scope string_scope.

Example strip_inner : strip "  1-5 scale " = "1-5 scale".
Proof. reflexivity. Qed.

Example strip_blank : strip "   " = EmptyString.
Proof. reflexivity. Qed.

Example lower_mixed : lower "Our BookStore API" = "our bookstore api".
Proof. reflexivity. Qed.

Example contains_todo : contains "todo" (lower "A ToDo list") = true.
Proof. reflexivity. Qed.

Example contains_none : contains "blog" "payroll ledger" = false.
Proof. reflexivity. Qed.

End StrExamples.

Module SchemaExamples.
Import TimeBreakdown.

Example breakdown_consistent :
  validate (mk 240 20 150 40 20 10 false) = Return (mk 240 20 150 40 20 10 true).
Proof. vm_compute. reflexivity. Qed.

Example breakdown_off_by_five :
  validate (mk 240 20 150 40 20 5 true) = Return (mk 240 20 150 40 20 5 false).
Proof. vm_compute. reflexivity. Qed.

Example breakdown_rejected :
  validate (mk 240 20 0 40 20 10 true) = Raise ValidationError.
Proof. vm_compute. reflexivity. Qed.
End SchemaExamples.

(** The scenarios of [tests/test_generator.py] and of the specification. *)

Module GateExamples.
Import QualityGate Fixtures.

Example test_context_validation_success :
  validate_context_extraction
    (JobContext.mk ["Build APIs"; "Design databases"; "Write tests"]%string
       "Fintech - Payroll processing" ["Python"; "FastAPI"; "PostgreSQL"]%string
       (Some "Agile team with daily standups"%string))
  = ValidationResult.mk true [] [].
Proof. reflexivity. Qed.

Example test_context_validation_missing_responsibilities :
  validate_context_extraction
    (JobContext.mk ["Build APIs"]%string "Fintech" ["Python"]%string None)
  = ValidationResult.mk false [InsufficientResponsibilities]
      [CollaborationPatternsNotIdentified].
Proof. reflexivity. Qed.

Example test_scope_validation_time_mismatch :
  validate_scope (scope_of [60] [] ["Rate limit: 100 req/min"]%string) four_hours
  = Return
      (ValidationResult.mk false
         [TimeMismatch 60 (S754_finite false 8444249301319680 (-45))
            (S754_finite false 4503599627370496 (-54));
          TooFewMustHave 1]
         [FewConstraints 1]).
Proof. vm_compute. reflexivity. Qed.

Example test_scope_validation_success :
  validate_scope
    (scope_of [80; 60; 70] [30] ["Rate limit: 100 req/min"; "Max payload: 1MB"]%string)
    four_hours
  = Return (ValidationResult.mk true [] []).
Proof. vm_compute. reflexivity. Qed.

Example test_rubric_validation_weights_sum :
  validate_rubric sum_float_left [item c0_3; item c0_3]
  = ValidationResult.mk false
      [TooFewRubricItems 2;
       WeightSumMismatch (S754_finite false 5404319552844595 (-53))]
      [].
Proof. vm_compute. reflexivity. Qed.

Example test_seniority_match_senior :
  check_seniority_match (scope_of [60; 60; 60; 60; 60] [] []) "senior" = true.
Proof. vm_compute. reflexivity. Qed.

Example seniority_mismatch_count :
  check_seniority_match (scope_of [150; 150] [] []) "senior" = false.
Proof. vm_compute. reflexivity. Qed.

Example seniority_mismatch_total :
  check_seniority_match (scope_of [20; 20; 20; 20; 20] [] []) "senior" = false.
Proof. vm_compute. reflexivity. Qed.

Example seniority_mismatch_warning :
  generate_scope_warnings (scope_of [20; 20; 20; 20; 20] [] []) "senior" four_hours
  = Return [ComplexityMayNotMatch "senior"; NoNiceToHave].
Proof. vm_compute. reflexivity. Qed.

Example must_have_share_warning :
  generate_scope_warnings (scope_of [60; 60; 60] [100; 100] []) "mid" four_hours
  = Return [ComplexityMayNotMatch "mid";
            MustHaveShareLow (S754_finite false 8533136136070413 (-54))].
Proof. vm_compute. reflexivity. Qed.

End GateExamples.

(** ** Blank strings *)

Module StrFacts.
Import PyStr.

Lemma lstrip_all_whitespace (s : string) :
  all_whitespace s = true -> lstrip s = EmptyString.
Proof.
  induction s as [|c s IH]; simpl; [reflexivity|].
  destruct (is_whitespace c); simpl; [exact IH|discriminate].
Qed.

Lemma lstrip_head (s : string) :
  all_whitespace s = false ->
  exists c r, lstrip s = String c r /\ is_whitespace c = false.
Proof.
  induction s as [|c s IH]; simpl; [discriminate|].
  destruct (is_whitespace c) eqn:E; simpl; [exact IH|eauto].
Qed.

Lemma rstrip_head (c : ascii) (r : string) :
  is_whitespace c = false -> truthy (rstrip (String c r)) = true.
Proof. intros E. simpl. rewrite E. destruct (rstrip r); reflexivity. Qed.

(** [not s or not s.strip()] holds of the strings that are empty or made
    of whitespace only. *)
Lemma blank_all_whitespace (s : string) : blank s = all_whitespace s.
Proof.
  unfold blank, strip. destruct (all_whitespace s) eqn:E.
  - rewrite (lstrip_all_whitespace s E). simpl. apply orb_true_r.
  - destruct (lstrip_head s E) as (c & r & -> & W).
    rewrite (rstrip_head c r W). destruct s; [discriminate|reflexivity].
Qed.

End StrFacts.

(** ** Facts about float comparison *)

Module FloatFacts.
Import PyFloat.

Lemma compare_antisym (x y : float) (c : comparison) :
  SFcompare x y = Some c -> SFcompare y x = Some (CompOpp c).
Proof.
  destruct x as [sx|sx| |sx mx ex], y as [sy|sy| |sy my ey]; simpl;
    try discriminate;
    try (intros [= <-]; try destruct sx; try destruct sy; reflexivity).
  destruct sx, sy; intros [= <-]; try reflexivity;
    rewrite (Z.compare_antisym ex ey); destruct (ex ?= ey) eqn:E; simpl;
    try reflexivity;
    first
      [ exact (f_equal Some (eq_sym (Pos.compare_cont_antisym mx my Eq)))
      | exact (f_equal (fun c => Some (CompOpp c))
                 (eq_sym (Pos.compare_cont_antisym mx my Eq))) ].
Qed.

Lemma eqb_sym (x y : float) : eqb x y = true -> eqb y x = true.
Proof.
  unfold eqb, SFeqb. destruct (SFcompare x y) as [[]|] eqn:E; try discriminate.
  intros _. rewrite (compare_antisym _ _ _ E). reflexivity.
Qed.

Lemma eqb_leb (x y : float) : eqb x y = true -> leb x y = true.
Proof.
  unfold eqb, leb, SFeqb, SFleb.
  destruct (SFcompare x y) as [[]|]; congruence.
Qed.

Lemma eqb_geb (x y : float) : eqb x y = true -> leb y x = true.
Proof. intros H. apply eqb_leb, eqb_sym, H. Qed.

(** [x == c] for a finite [c] holds of [c] alone. *)
Lemma eqb_finite (x : float) (s : bool) (m : positive) (e : Z) :
  eqb x (S754_finite s m e) = true -> x = S754_finite s m e.
Proof.
  unfold eqb, SFeqb. destruct x as [sx|sx| |sx mx ex]; simpl;
    try (destruct sx; discriminate); try (destruct s; discriminate);
    try discriminate.
  destruct sx, s; try discriminate;
    destruct (ex ?= e) eqn:E; try discriminate;
    apply Z.compare_eq in E; subst ex;
    destruct (Pos.compare_cont Eq mx m) eqn:C; try discriminate;
    apply Pos.compare_eq in C; subst mx; reflexivity.
Qed.

Lemma ltb_not_geb (x y : float) : ltb x y = true -> leb y x = false.
Proof.
  unfold ltb, leb, SFltb, SFleb.
  destruct (SFcompare x y) as [[]|] eqn:E; try discriminate.
  intros _. rewrite (compare_antisym _ _ _ E). reflexivity.
Qed.

(** For a weight that is not a NaN, [weight <= 0] fails exactly when
    [0 < weight] holds. *)
Lemma positive_iff_not_nonpositive (w : float) :
  is_nan w = false -> ltb c0 w = negb (leb w c0).
Proof. destruct w as [s|s| |s m e]; try destruct s; cbv; congruence. Qed.

Lemma leb_not_nan (x y : float) : leb x y = true -> is_nan y = false.
Proof. destruct y; [reflexivity | reflexivity | | reflexivity]. destruct x; discriminate. Qed.

End FloatFacts.

(** ** Rounding to binary64: when the gates' arithmetic returns *)

Module RoundingFacts.

Import PyFloat.

Lemma digits2_pos_size (p : positive) : digits2_pos p = Pos.size p.
Proof. induction p; simpl; congruence. Qed.

Lemma Zdigits2_log2 (m : Z) : 0 < m -> Zdigits2 m = Z.log2 m + 1.
Proof.
  destruct m as [|p|p]; try lia. intros _. simpl.
  rewrite digits2_pos_size. destruct p; simpl; lia.
Qed.

Lemma Zdigits2_nonneg (m : Z) : 0 <= Zdigits2 m.
Proof. destruct m; simpl; lia. Qed.

Lemma Zdigits2_pos (m : Z) : 0 < m -> 1 <= Zdigits2 m.
Proof. destruct m; simpl; lia. Qed.

(** [2^(d-1) <= m < 2^d] for the number [d] of binary digits of [m]. *)
Lemma Zdigits2_spec (m : Z) :
  0 < m -> 2 ^ (Zdigits2 m - 1) <= m < 2 ^ Zdigits2 m.
Proof.
  intros H. rewrite (Zdigits2_log2 m H).
  replace (Z.log2 m + 1 - 1) with (Z.log2 m) by lia.
  apply (Z.log2_spec m H).
Qed.

Lemma Zdigits2_le (m n : Z) : 0 <= m <= n -> Zdigits2 m <= Zdigits2 n.
Proof.
  intros [H0 H]. destruct (Z.eq_dec m 0) as [->|Hm].
  - apply Zdigits2_nonneg.
  - rewrite !Zdigits2_log2 by lia. pose proof (Z.log2_le_mono m n H). lia.
Qed.

Lemma Zdigits2_succ (m : Z) : 0 <= m -> Zdigits2 (m + 1) <= Zdigits2 m + 1.
Proof.
  intros H. destruct (Z.eq_dec m 0) as [->|Hm]; [simpl; lia|].
  rewrite !Zdigits2_log2 by lia.
  pose proof (Z.log2_succ_le m). unfold Z.succ in *. lia.
Qed.

Lemma Zdigits2_lt_pow (m k : Z) : 0 <= m < 2 ^ k -> 0 <= k -> Zdigits2 m <= k.
Proof.
  intros [H0 H] Hk. destruct (Z.eq_dec m 0) as [->|Hm]; [simpl; lia|].
  pose proof (Zdigits2_spec m ltac:(lia)) as [L _].
  assert (2 ^ (Zdigits2 m - 1) < 2 ^ k) by lia.
  apply Z.pow_lt_mono_r_iff in H1; lia.
Qed.

Lemma shr_1_nonneg (s : shr_record) : 0 <= shr_m s -> 0 <= shr_m (shr_1 s).
Proof. destruct s as [[|[p|p|]|p] r t]; simpl; lia. Qed.

Lemma shr_1_digits (s : shr_record) :
  Zdigits2 (shr_m (shr_1 s)) = Z.max 0 (Zdigits2 (shr_m s) - 1).
Proof. destruct s as [[|[p|p|]|[p|p|]] r t]; simpl; lia. Qed.

Lemma iter_shr_1 (p : positive) (s : shr_record) :
  (0 <= shr_m s -> 0 <= shr_m (SpecFloat.iter_pos shr_1 p s))
  /\ Zdigits2 (shr_m (SpecFloat.iter_pos shr_1 p s)) = Z.max 0 (Zdigits2 (shr_m s) - Zpos p).
Proof.
  revert s. induction p as [p IH|p IH|]; intros s; simpl.
  - pose proof (shr_1_nonneg s). pose proof (shr_1_digits s).
    destruct (IH (shr_1 s)) as [N1 D1].
    destruct (IH (SpecFloat.iter_pos shr_1 p (shr_1 s))) as [N2 D2].
    split; [tauto|]. rewrite D2, D1, H0. lia.
  - destruct (IH s) as [N1 D1].
    destruct (IH (SpecFloat.iter_pos shr_1 p s)) as [N2 D2].
    split; [tauto|]. rewrite D2, D1. lia.
  - split; [apply shr_1_nonneg|]. rewrite shr_1_digits. lia.
Qed.

Lemma shr_record_of_loc_m (m : Z) (l : location) : shr_m (shr_record_of_loc m l) = m.
Proof. destruct l as [|[]]; reflexivity. Qed.

(** One alignment step of the rounding: the mantissa stays non-negative,
    and either nothing moves or the exponent becomes [fexp] and the
    mantissa loses as many digits. *)
Lemma shr_fexp_spec (m e : Z) (l : location) :
  0 <= m ->
  let n := fexp prec emax (Zdigits2 m + e) - e in
  0 <= shr_m (fst (shr_fexp prec emax m e l))
  /\ (n <= 0 ->
      snd (shr_fexp prec emax m e l) = e
      /\ shr_m (fst (shr_fexp prec emax m e l)) = m)
  /\ (0 < n ->
      snd (shr_fexp prec emax m e l) = e + n
      /\ Zdigits2 (shr_m (fst (shr_fexp prec emax m e l))) = Z.max 0 (Zdigits2 m - n)).
Proof.
  intros Hm n. unfold shr_fexp, shr. fold n.
  destruct n as [|p|p] eqn:E; simpl; rewrite ?shr_record_of_loc_m.
  - repeat split; try lia.
  - destruct (iter_shr_1 p (shr_record_of_loc m l)) as [N D].
    rewrite shr_record_of_loc_m in N, D. repeat split; try lia; tauto.
  - repeat split; try lia.
Qed.

Lemma round_nearest_even_spec (m : Z) (l : location) :
  0 <= m ->
  0 <= round_nearest_even m l
  /\ Zdigits2 m <= Zdigits2 (round_nearest_even m l) <= Zdigits2 m + 1.
Proof.
  intros H. pose proof (Zdigits2_succ m H). pose proof (Zdigits2_le m (m + 1)).
  unfold round_nearest_even. destruct l as [|[]]; try destruct (Z.even m); lia.
Qed.

(** Rounding does not overflow when the value is below [2^1023]. *)
Lemma binary_round_aux_not_infinity (sx : bool) (mx ex : Z) (lx : location) :
  0 <= mx -> ex <= 971 -> Zdigits2 mx + ex <= 1023 ->
  is_infinity (binary_round_aux prec emax sx mx ex lx) = false.
Proof.
  intros Hm He Hd. unfold binary_round_aux.
  pose proof (shr_fexp_spec mx ex lx Hm) as S1.
  destruct (shr_fexp prec emax mx ex lx) as [mrs1 e1]. cbn [fst snd] in S1.
  destruct S1 as (N1 & A1 & B1).
  pose proof (round_nearest_even_spec (shr_m mrs1) (loc_of_shr_record mrs1) N1)
    as [N2 D2].
  set (m2 := round_nearest_even (shr_m mrs1) (loc_of_shr_record mrs1)) in *.
  pose proof (shr_fexp_spec m2 e1 loc_Exact N2) as S2.
  destruct (shr_fexp prec emax m2 e1 loc_Exact) as [mrs2 e2]. cbn [fst snd] in S2.
  destruct S2 as (N3 & A2 & B2).
  destruct (shr_m mrs2) as [|p|p]; try reflexivity.
  assert (L : e2 <= emax - prec).
  { pose proof (Zdigits2_nonneg mx). pose proof (Zdigits2_nonneg m2).
    pose proof (Zdigits2_nonneg (shr_m mrs1)).
    unfold fexp, emin, prec, emax in *.
    assert (X : e1 <= 971 /\ Zdigits2 (shr_m mrs1) + e1 <= 1023).
    { destruct (Z_le_gt_dec (Z.max (Zdigits2 mx + ex - 53) (3 - 1024 - 53) - ex) 0).
      - destruct (A1 l) as [-> ->]. lia.
      - destruct (B1 ltac:(lia)) as [-> ->]. lia. }
    destruct (Z_le_gt_dec (Z.max (Zdigits2 m2 + e1 - 53) (3 - 1024 - 53) - e1) 0).
    - destruct (A2 l) as [-> _]. lia.
    - destruct (B2 ltac:(lia)) as [-> _]. lia. }
  apply Z.leb_le in L. rewrite L. reflexivity.
Qed.

(** Rounding a positive value in the normal range does not give zero. *)
Lemma binary_round_aux_nonzero (sx : bool) (mx ex : Z) (lx : location) :
  0 < mx -> -1021 <= Zdigits2 mx + ex ->
  is_finite_nonzero (binary_round_aux prec emax sx mx ex lx) = true.
Proof.
  intros Hm Hd. unfold binary_round_aux.
  pose proof (shr_fexp_spec mx ex lx ltac:(lia)) as S1.
  destruct (shr_fexp prec emax mx ex lx) as [mrs1 e1]. cbn [fst snd] in S1.
  destruct S1 as (N1 & A1 & B1).
  pose proof (round_nearest_even_spec (shr_m mrs1) (loc_of_shr_record mrs1) N1)
    as [N2 D2].
  set (m2 := round_nearest_even (shr_m mrs1) (loc_of_shr_record mrs1)) in *.
  pose proof (shr_fexp_spec m2 e1 loc_Exact N2) as S2.
  destruct (shr_fexp prec emax m2 e1 loc_Exact) as [mrs2 e2]. cbn [fst snd] in S2.
  destruct S2 as (N3 & A2 & B2).
  assert (P : 1 <= Zdigits2 (shr_m mrs2)).
  { pose proof (Zdigits2_pos mx Hm).
    unfold fexp, emin, prec, emax in *.
    assert (X : 1 <= Zdigits2 (shr_m mrs1) /\ Zdigits2 mx + ex <= Zdigits2 (shr_m mrs1) + e1).
    { destruct (Z_le_gt_dec (Z.max (Zdigits2 mx + ex - 53) (3 - 1024 - 53) - ex) 0).
      - destruct (A1 l) as [-> ->]. lia.
      - destruct (B1 ltac:(lia)) as [-> ->]. lia. }
    destruct (Z_le_gt_dec (Z.max (Zdigits2 m2 + e1 - 53) (3 - 1024 - 53) - e1) 0).
    - destruct (A2 l) as [_ ->]. lia.
    - destruct (B2 ltac:(lia)) as [_ ->]. lia. }
  destruct (shr_m mrs2) as [|p|p]; simpl in P; try lia.
  destruct (e2 <=? emax - prec); reflexivity.
Qed.

Lemma is_finite_nonzero_not_zero (x : float) :
  is_finite_nonzero x = true -> is_zero x = false.
Proof. destruct x; simpl; congruence. Qed.

Lemma iter_xO_digits (m d : positive) :
  digits2_pos (Pos.iter xO m d) = (digits2_pos m + d)%positive.
Proof.
  induction d as [|d IH] using Pos.peano_ind.
  - simpl. lia.
  - rewrite Pos.iter_succ. simpl. rewrite IH. lia.
Qed.

(** Aligning a mantissa keeps the value's number of digits. *)
Lemma shl_align_spec (m : positive) (e e' : Z) :
  snd (shl_align m e e') <= e
  /\ Zdigits2 (Zpos (fst (shl_align m e e'))) + snd (shl_align m e e')
     = Zdigits2 (Zpos m) + e.
Proof.
  unfold shl_align. destruct (e' - e) as [|d|d] eqn:E; cbn [fst snd Zdigits2].
  - lia.
  - lia.
  - rewrite iter_xO_digits. lia.
Qed.

(** [float(n)] does not overflow for [|n| < 2^1023]. *)
Lemma of_int_returns (n : Z) :
  Z.abs n < 2 ^ 1023 -> exists x, of_int n = Some x.
Proof.
  intros H. unfold of_int.
  assert (I : is_infinity (binary_normalize prec emax n 0 false) = false).
  { unfold binary_normalize, binary_round.
    destruct n as [|m|m]; [reflexivity| |];
      pose proof (shl_align_spec m 0 (fexp prec emax (Zpos (digits2_pos m) + 0)))
        as [Le Dg];
      destruct (shl_align m 0 (fexp prec emax (Zpos (digits2_pos m) + 0)))
        as [mz ez]; cbn [fst snd] in Le, Dg;
      (apply binary_round_aux_not_infinity; [lia|lia|]);
      rewrite Dg;
      assert (L : Zdigits2 (Zpos m) <= 1023)
        by (apply Zdigits2_lt_pow; [split; [lia|exact H]|lia]);
      lia. }
  rewrite I. eauto.
Qed.

(** [a / b] does not overflow for [0 <= a <= b]. *)
Lemma div_int_not_infinity (a b : Z) :
  0 <= a <= b -> 0 < b -> is_infinity (div_int a b) = false.
Proof.
  intros [Ha Hab] Hb. unfold div_int.
  destruct a as [|a|a]; [reflexivity| |lia].
  destruct b as [|b|b]; try lia.
  unfold SFdiv_core_binary.
  set (d1 := Zdigits2 (Z.abs (Zpos a))). set (d2 := Zdigits2 (Z.abs (Zpos b))).
  assert (D : d1 <= d2) by (apply Zdigits2_le; simpl; lia).
  set (e' := Z.min (fexp prec emax (d1 + 0 - (d2 + 0))) (0 - 0)).
  assert (E : e' <= -53) by (unfold e', fexp, emin, prec, emax; lia).
  destruct (0 - 0 - e') as [|s|s] eqn:S; try lia.
  pose proof (Z_div_mod (Z.shiftl (Z.abs (Zpos a)) (Zpos s)) (Z.abs (Zpos b))
                ltac:(simpl; lia)) as DM.
  destruct (Z.div_eucl (Z.shiftl (Z.abs (Zpos a)) (Zpos s)) (Z.abs (Zpos b)))
    as [q r].
  rewrite Z.shiftl_mul_pow2 in DM by lia. simpl Z.abs in DM.
  destruct DM as [DM Hr].
  assert (P : 0 < 2 ^ Zpos s) by (apply Z.pow_pos_nonneg; lia).
  assert (Q : 0 <= q <= 2 ^ Zpos s) by nia.
  apply binary_round_aux_not_infinity; [lia|lia|].
  pose proof (Zdigits2_lt_pow q (Zpos s + 1)) as L.
  rewrite Z.pow_add_r in L by lia. lia.
Qed.

(** For a budget within the bounds of [AssignmentInput], 2.0 to 8.0 hours,
    [time_budget_hours * 60] is not zero. *)
Lemma budget_minutes_not_zero (h : float) :
  leb c2 h = true -> leb h c8 = true -> is_zero (mul h c60) = false.
Proof.
  destruct h as [s|s| |s m e].
  - destruct s; discriminate.
  - destruct s; discriminate.
  - discriminate.
  - destruct s; [discriminate|]. intros Lo Hi.
    assert (R : -51 <= e <= -49).
    { revert Lo Hi. unfold leb, SFleb, c2, c8. cbn [SFcompare].
      destruct (Z.compare_spec (-51) e), (Z.compare_spec e (-49));
        try discriminate; intros; lia. }
    apply is_finite_nonzero_not_zero. unfold mul, SFmul, c60.
    apply binary_round_aux_nonzero; [lia|].
    pose proof (Zdigits2_le 8444249301319680 (Zpos (m * 8444249301319680))
                  ltac:(lia)) as L.
    change (Zdigits2 8444249301319680) with 53 in L. lia.
Qed.

Lemma fold_add (l : list Z) (a : Z) : fold_left Z.add l a = a + sum_int l.
Proof.
  unfold sum_int. revert a. induction l as [|x l IH]; intros a; simpl.
  - lia.
  - rewrite (IH (a + x)), (IH (0 + x)). lia.
Qed.

Lemma sum_int_app (l1 l2 : list Z) : sum_int (l1 ++ l2) = sum_int l1 + sum_int l2.
Proof. unfold sum_int at 1. rewrite fold_left_app, !fold_add. unfold sum_int. lia. Qed.

Lemma sum_int_nonneg (l : list Z) : List.Forall (fun x => 0 < x) l -> 0 <= sum_int l.
Proof.
  induction 1 as [|x l Hx _ IH]; [reflexivity|].
  change (x :: l) with ([x] ++ l). rewrite sum_int_app. unfold sum_int at 1. simpl. lia.
Qed.

Lemma total_minutes_nonneg (reqs : list Requirement.t) :
  valid_minutes reqs -> 0 <= total_minutes_of reqs.
Proof.
  intros H. apply sum_int_nonneg. apply List.Forall_map. exact H.
Qed.

Lemma total_minutes_app (l1 l2 : list Requirement.t) :
  total_minutes_of (l1 ++ l2) = total_minutes_of l1 + total_minutes_of l2.
Proof. unfold total_minutes_of. rewrite map_app. apply sum_int_app. Qed.

(** [a / b] returns for [0 <= a <= b] and [0 < b]. *)
Lemma int_truediv_returns (a b : Z) :
  0 <= a <= b -> 0 < b -> int_truediv a b = Return (div_int a b).
Proof.
  intros H Hb. unfold int_truediv.
  rewrite (proj2 (Z.eqb_neq b 0)) by lia.
  rewrite (div_int_not_infinity a b H Hb). reflexivity.
Qed.

(** The ratio of the scope gate is computed, without raising, for every
    budget of 2.0 to 8.0 hours and every total below [2^1023]. *)
Lemma time_ratio_returns (scope : AssignmentScope.t) (h : float) :
  leb c2 h = true -> leb h c8 = true ->
  Z.abs (total_minutes_of (AssignmentScope.all_requirements scope)) < 2 ^ 1023 ->
  exists r, QualityGate.time_ratio scope h = Return r.
Proof.
  intros Lo Hi T. unfold QualityGate.time_ratio, int_truediv_float.
  destruct (of_int_returns _ T) as [x ->].
  rewrite (budget_minutes_not_zero h Lo Hi). eauto.
Qed.

(** The heuristic warnings are computed, without raising, for every scope
    whose requirements have positive minutes. *)
Lemma generate_scope_warnings_returns (scope : AssignmentScope.t)
    (seniority_level : string) (h : float) :
  valid_minutes (AssignmentScope.must_have scope) ->
  valid_minutes (AssignmentScope.nice_to_have scope) ->
  exists warnings,
    QualityGate.generate_scope_warnings scope seniority_level h = Return warnings.
Proof.
  intros M N. unfold QualityGate.generate_scope_warnings.
  destruct (0 <? total_minutes_of (AssignmentScope.all_requirements scope)) eqn:T;
    [|eauto].
  apply Z.ltb_lt in T.
  pose proof (total_minutes_nonneg _ M). pose proof (total_minutes_nonneg _ N).
  unfold AssignmentScope.all_requirements in *. rewrite total_minutes_app in *.
  rewrite int_truediv_returns by lia. cbn [mbind result_bind]. eauto.
Qed.

End RoundingFacts.

(** ** Model validation of [TimeBreakdown] *)

Module TimeBreakdownFacts.
Import TimeBreakdown.

Lemma int_field_passed (name : string) (bound : Z -> bool) (value : Z) (p : progress) :
  errors (int_field name bound value p) = [] ->
  bound value = true /\ errors p = []
  /\ data (int_field name bound value p) = <[name := value]> (data p).
Proof.
  unfold int_field. destruct (bound value); cbn [errors data].
  - intros ->. repeat split.
  - intros H. apply app_eq_nil in H as [_ H]. discriminate H.
Qed.

(** An accepted model has its six minute fields within their bounds and
    copied from the input, and its flag is the validator's recomputation:
    every field is in [info.data] by then, so no default of [get] is used. *)
Lemma validate_accepted (x tb : t) :
  validate x = Return tb ->
  tb = mk (total_minutes x) (setup_minutes x) (core_implementation_minutes x)
          (testing_minutes x) (documentation_minutes x) (buffer_minutes x)
          (Z.abs (total_minutes x - category_sum x) <? 5)
  /\ 0 < total_minutes x /\ 0 <= setup_minutes x
  /\ 0 < core_implementation_minutes x /\ 0 <= testing_minutes x
  /\ 0 <= documentation_minutes x /\ 0 <= buffer_minutes x.
Proof.
  unfold validate.
  set (p0 := mk_progress ∅ []).
  set (p1 := int_field "total_minutes" (gt 0) (total_minutes x) p0).
  set (p2 := int_field "setup_minutes" (ge 0) (setup_minutes x) p1).
  set (p3 := int_field "core_implementation_minutes" (gt 0)
               (core_implementation_minutes x) p2).
  set (p4 := int_field "testing_minutes" (ge 0) (testing_minutes x) p3).
  set (p5 := int_field "documentation_minutes" (ge 0) (documentation_minutes x) p4).
  set (p6 := int_field "buffer_minutes" (ge 0) (buffer_minutes x) p5).
  destruct (errors p6) eqn:E6; [|discriminate].
  destruct (int_field_passed _ _ _ _ E6) as (B6 & E5 & D6).
  destruct (int_field_passed _ _ _ _ E5) as (B5 & E4 & D5).
  destruct (int_field_passed _ _ _ _ E4) as (B4 & E3 & D4).
  destruct (int_field_passed _ _ _ _ E3) as (B3 & E2 & D3).
  destruct (int_field_passed _ _ _ _ E2) as (B2 & E1 & D2).
  destruct (int_field_passed _ _ _ _ E1) as (B1 & _ & D1).
  intros [= <-]. split.
  - apply (f_equal (mk _ _ _ _ _ _)).
    fold p1 in D1, D2. fold p2 in D2, D3. fold p3 in D3, D4.
    fold p4 in D4, D5. fold p5 in D5, D6. fold p6 in D6.
    rewrite D6, D5, D4, D3, D2, D1.
    unfold validate_breakdown_sum, get, category_sum.
    rewrite bool_decide_eq_false_2 by apply insert_non_empty.
    repeat (rewrite lookup_insert_eq || (rewrite lookup_insert_ne by discriminate)).
    reflexivity.
  - unfold gt, ge in *. lia.
Qed.

(** Values within the field bounds are accepted. *)
Lemma validate_accepts (x : t) :
  0 < total_minutes x -> 0 <= setup_minutes x ->
  0 < core_implementation_minutes x -> 0 <= testing_minutes x ->
  0 <= documentation_minutes x -> 0 <= buffer_minutes x ->
  validate x =
  Return (mk (total_minutes x) (setup_minutes x) (core_implementation_minutes x)
             (testing_minutes x) (documentation_minutes x) (buffer_minutes x)
             (Z.abs (total_minutes x - category_sum x) <? 5)).
Proof.
  intros H1 H2 H3 H4 H5 H6.
  destruct (validate x) as [tb|e] eqn:E.
  - f_equal. apply (validate_accepted x tb E).
  - exfalso. revert E. unfold validate, int_field, gt, ge.
    rewrite (proj2 (Z.ltb_lt 0 (total_minutes x)) H1).
    rewrite (proj2 (Z.leb_le 0 (setup_minutes x)) H2).
    rewrite (proj2 (Z.ltb_lt 0 (core_implementation_minutes x)) H3).
    rewrite (proj2 (Z.leb_le 0 (testing_minutes x)) H4).
    rewrite (proj2 (Z.leb_le 0 (documentation_minutes x)) H5).
    rewrite (proj2 (Z.leb_le 0 (buffer_minutes x)) H6).
    cbn [errors]. discriminate.
Qed.

End TimeBreakdownFacts.

(** C10. Every [TimeBreakdown] that model validation accepts has
    [breakdown_valid] equal to the test that the total differs from the sum
    of the five category fields by strictly less than 5, whatever boolean
    was supplied; a difference of exactly 5 gives [false]. *)
Theorem breakdown_valid_recomputed (x tb : TimeBreakdown.t) :
  TimeBreakdown.validate x = Return tb ->
  TimeBreakdown.breakdown_valid tb =
    (Z.abs (TimeBreakdown.total_minutes tb - TimeBreakdown.category_sum tb) <? 5)
  /\ (Z.abs (TimeBreakdown.total_minutes tb - TimeBreakdown.category_sum tb) = 5 ->
      TimeBreakdown.breakdown_valid tb = false).
Proof.
  intros H. destruct (TimeBreakdownFacts.validate_accepted x tb H) as [-> _].
  unfold TimeBreakdown.category_sum. cbn. split; [reflexivity|].
  intros ->. reflexivity.
Qed.

Lemma breakdown_valid_recomputed_at_five :
  TimeBreakdown.validate (TimeBreakdown.mk 240 20 150 40 20 5 true)
  = Return (TimeBreakdown.mk 240 20 150 40 20 5 false)
  /\ TimeBreakdown.breakdown_valid (TimeBreakdown.mk 240 20 150 40 20 5 false) = false.
Proof.
  assert (E : TimeBreakdown.validate (TimeBreakdown.mk 240 20 150 40 20 5 true)
              = Return (TimeBreakdown.mk 240 20 150 40 20 5 false))
    by (vm_compute; reflexivity).
  split; [exact E|].
  apply (breakdown_valid_recomputed _ _ E). reflexivity.
Defined.

(** ** The scope gate *)

Module GateFacts.
Import QualityGate.

Lemma length_eqb_0 {A : Type} (l : list A) : (length l =? 0)%nat = true <-> l = [].
Proof. destruct l; simpl; split; congruence. Qed.

Lemma append_if_nil {A : Type} (c : bool) (x : A) (l : list A) :
  append_if c x l = [] <-> c = false /\ l = [].
Proof.
  destruct c; simpl; split.
  - intros H. apply app_eq_nil in H as [_ H]. discriminate.
  - intros [H _]. discriminate.
  - auto.
  - intros [_ H]. exact H.
Qed.

Lemma in_append_if {A : Type} (c : bool) (x y : A) (l : list A) :
  In y (append_if c x l) <-> In y l \/ (c = true /\ y = x).
Proof.
  destruct c; simpl.
  - rewrite in_app_iff. simpl. intuition congruence.
  - intuition congruence.
Qed.

Lemma validate_scope_unfold (scope : AssignmentScope.t) (budget r : float) :
  time_ratio scope budget = Return r ->
  exists warnings,
    validate_scope scope budget =
    Return
      (ValidationResult.mk (length (scope_issues scope budget r) =? 0)%nat
         (scope_issues scope budget r) warnings).
Proof.
  unfold time_ratio, validate_scope, scope_issues. intros ->.
  cbn [mbind result_bind]. eexists. reflexivity.
Qed.

(** The gate returns exactly when the ratio can be computed. *)
Lemma validate_scope_returns (scope : AssignmentScope.t) (budget : float) :
  returns (validate_scope scope budget) = returns (time_ratio scope budget).
Proof.
  destruct (time_ratio scope budget) as [r|e] eqn:E.
  - destruct (validate_scope_unfold scope budget r E) as [w ->]. reflexivity.
  - revert E. unfold time_ratio, validate_scope.
    destruct (int_truediv_float _ _); [discriminate|reflexivity].
Qed.

Lemma validate_scope_ratio (scope : AssignmentScope.t) (budget : float)
    (v : ValidationResult.t) :
  validate_scope scope budget = Return v ->
  exists r, time_ratio scope budget = Return r.
Proof.
  intros H. pose proof (validate_scope_returns scope budget) as R.
  rewrite H in R. destruct (time_ratio scope budget) as [r|e]; [eauto|discriminate].
Qed.

Lemma validate_scope_passed (scope : AssignmentScope.t) (budget : float)
    (v : ValidationResult.t) :
  validate_scope scope budget = Return v ->
  (ValidationResult.passed v = true <-> ValidationResult.issues v = []).
Proof.
  intros H. destruct (validate_scope_ratio scope budget v H) as [r R].
  destruct (validate_scope_unfold scope budget r R) as [w E].
  rewrite E in H. injection H as <-.
  cbn [ValidationResult.passed ValidationResult.issues].
  apply length_eqb_0.
Qed.

End GateFacts.

(** C2. A scope whose ratio of total requirement minutes to
    [time_budget_hours * 60] lies in [0.75, 1.25], whose business context
    has between 100 and 2000 characters and which has between 3 and 7
    must-haves passes [validate_scope] with no issue; warnings may remain.
    The ratio is the binary64 value the gate computes. *)
Theorem validate_scope_passes
    (scope : AssignmentScope.t) (time_budget_hours ratio : float) :
  QualityGate.time_ratio scope time_budget_hours = Return ratio ->
  PyFloat.leb PyFloat.c0_75 ratio = true ->
  PyFloat.leb ratio PyFloat.c1_25 = true ->
  (100 <= String.length (AssignmentScope.business_context scope) <= 2000)%nat ->
  (3 <= length (AssignmentScope.must_have scope) <= 7)%nat ->
  exists warnings,
    QualityGate.validate_scope scope time_budget_hours
    = Return (ValidationResult.mk true [] warnings).
Proof.
  intros R Hlo Hhi Hctx Hcount.
  destruct (GateFacts.validate_scope_unfold scope time_budget_hours ratio R)
    as [warnings ->].
  exists warnings. unfold scope_issues.
  rewrite Hlo, Hhi.
  rewrite (proj2 (Nat.ltb_ge _ _)) by lia.
  rewrite (proj2 (Nat.ltb_ge _ _)) by lia.
  reflexivity.
Qed.

Lemma validate_scope_passes_four_hours :
  let scope :=
    Fixtures.scope_of [80; 60; 70] [30]
      ["Rate limit: 100 req/min"; "Max payload: 1MB"]%string in
  QualityGate.time_ratio scope Fixtures.four_hours = Return PyFloat.c1
  /\ exists warnings,
       QualityGate.validate_scope scope Fixtures.four_hours
       = Return (ValidationResult.mk true [] warnings).
Proof.
  intros scope. split; [vm_compute; reflexivity|].
  apply (validate_scope_passes scope Fixtures.four_hours PyFloat.c1).
  - vm_compute. reflexivity.
  - vm_compute. reflexivity.
  - vm_compute. reflexivity.
  - vm_compute. lia.
  - vm_compute. lia.
Defined.

(** C4. The bounds of the time ratio are inclusive: a scope whose ratio is
    exactly 0.75 or exactly 1.25 gets no time-mismatch issue, and one whose
    ratio is 0.7499 or 1.2501, or any ratio below 0.75 or above 1.25, gets a
    blocking time-mismatch issue. The ratio is the binary64 value the gate
    computes and the four constants are the binary64 values of the decimal
    literals. *)
Theorem time_ratio_bounds_inclusive
    (scope : AssignmentScope.t) (time_budget_hours ratio : float) :
  QualityGate.time_ratio scope time_budget_hours = Return ratio ->
  exists v,
    QualityGate.validate_scope scope time_budget_hours = Return v
    /\ (PyFloat.eqb ratio PyFloat.c0_75 = true \/ PyFloat.eqb ratio PyFloat.c1_25 = true ->
        Forall (fun m => is_time_mismatch m = false)
          (ValidationResult.issues v))
    /\ (PyFloat.eqb ratio PyFloat.c0_7499 = true
        \/ PyFloat.eqb ratio PyFloat.c1_2501 = true
        \/ PyFloat.ltb ratio PyFloat.c0_75 = true
        \/ PyFloat.ltb PyFloat.c1_25 ratio = true ->
        In (TimeMismatch
              (total_minutes_of (AssignmentScope.all_requirements scope))
              (PyFloat.mul time_budget_hours PyFloat.c60) ratio)
           (ValidationResult.issues v)
        /\ ValidationResult.passed v = false).
Proof.
  intros R.
  destruct (GateFacts.validate_scope_unfold scope time_budget_hours ratio R)
    as [warnings ->].
  eexists. split; [reflexivity|]. cbn [ValidationResult.issues ValidationResult.passed].
  split.
  - intros H.
    assert (B : negb (PyFloat.leb PyFloat.c0_75 ratio && PyFloat.leb ratio PyFloat.c1_25)
                = false).
    { destruct H as [H|H]; apply FloatFacts.eqb_finite in H; subst ratio; reflexivity. }
    unfold scope_issues. rewrite B.
    apply List.Forall_forall. intros m Hm.
    apply GateFacts.in_append_if in Hm as [Hm|[_ ->]]; [|reflexivity].
    apply GateFacts.in_append_if in Hm as [Hm|[_ ->]]; [|reflexivity].
    destruct Hm.
  - intros H.
    assert (B : negb (PyFloat.leb PyFloat.c0_75 ratio && PyFloat.leb ratio PyFloat.c1_25)
                = true).
    { destruct H as [H|[H|[H|H]]].
      - apply FloatFacts.eqb_finite in H. subst ratio. reflexivity.
      - apply FloatFacts.eqb_finite in H. subst ratio. reflexivity.
      - rewrite (FloatFacts.ltb_not_geb _ _ H). reflexivity.
      - rewrite (FloatFacts.ltb_not_geb _ _ H). rewrite andb_false_r. reflexivity. }
    assert (I : In (TimeMismatch
                      (total_minutes_of (AssignmentScope.all_requirements scope))
                      (PyFloat.mul time_budget_hours PyFloat.c60) ratio)
                   (scope_issues scope time_budget_hours ratio)).
    { unfold scope_issues. rewrite B.
      apply GateFacts.in_append_if. left. apply GateFacts.in_append_if. left.
      left. reflexivity. }
    split; [exact I|].
    destruct (scope_issues scope time_budget_hours ratio);
      [destruct I | reflexivity].
Qed.

Lemma time_ratio_bounds_inclusive_scenarios :
  let constraints := ["Rate limit: 100 req/min"; "Max payload: 1MB"]%string in
  let at_0_75 := Fixtures.scope_of [60; 60; 60] [] constraints in
  let at_1_25 := Fixtures.scope_of [100; 100; 100] [] constraints in
  let at_0_7499 := Fixtures.scope_of [30; 30; 30] [] constraints in
  let at_1_2501 := Fixtures.scope_of [50; 50; 52] [] constraints in
  let budget_0_7499 := S754_finite false 4504200187395482 (-51) in
  let budget_1_2501 := S754_finite false 4563282559797319 (-51) in
  ((exists v,
      QualityGate.validate_scope at_0_75 Fixtures.four_hours = Return v
      /\ Forall (fun m => is_time_mismatch m = false)
           (ValidationResult.issues v))
   /\ (exists v,
        QualityGate.validate_scope at_1_25 Fixtures.four_hours = Return v
        /\ Forall (fun m => is_time_mismatch m = false)
             (ValidationResult.issues v)))
  /\ ((exists v,
       QualityGate.validate_scope at_0_7499 budget_0_7499 = Return v
       /\ ValidationResult.passed v = false)
      /\ (exists v,
           QualityGate.validate_scope at_1_2501 budget_1_2501 = Return v
           /\ ValidationResult.passed v = false)).
Proof.
  intros constraints at_0_75 at_1_25 at_0_7499 at_1_2501 budget_0_7499 budget_1_2501.
  split; split.
  - destruct (time_ratio_bounds_inclusive at_0_75 Fixtures.four_hours PyFloat.c0_75)
      as (v & E & H & _); [vm_compute; reflexivity|].
    exists v. split; [exact E|]. apply H. left. reflexivity.
  - destruct (time_ratio_bounds_inclusive at_1_25 Fixtures.four_hours PyFloat.c1_25)
      as (v & E & H & _); [vm_compute; reflexivity|].
    exists v. split; [exact E|]. apply H. right. reflexivity.
  - destruct (time_ratio_bounds_inclusive at_0_7499 budget_0_7499 PyFloat.c0_7499)
      as (v & E & _ & H); [vm_compute; reflexivity|].
    exists v. split; [exact E|]. apply H. left. reflexivity.
  - destruct (time_ratio_bounds_inclusive at_1_2501 budget_1_2501 PyFloat.c1_2501)
      as (v & E & _ & H); [vm_compute; reflexivity|].
    exists v. split; [exact E|]. apply H. right. left. reflexivity.
Defined.

(** ** The rubric gate *)

Module RubricFacts.
Import QualityGate.

Lemma append_if_app {A : Type} (c : bool) (x : A) (l1 l2 : list A) :
  append_if c x (l1 ++ l2) = l1 ++ append_if c x l2.
Proof. destruct c; simpl; [rewrite app_assoc|]; reflexivity. Qed.

Lemma fold_append_if {A B : Type} (c : A -> bool) (f : A -> B) (l : list A) (acc : list B) :
  fold_left (fun acc item => append_if (c item) (f item) acc) l acc
  = acc ++ map f (List.filter c l).
Proof.
  revert acc. induction l as [|a l IH]; intros acc; simpl.
  - symmetry. apply app_nil_r.
  - rewrite IH. destruct (c a); simpl.
    + rewrite <- app_assoc. reflexivity.
    + reflexivity.
Qed.

Lemma fold_expectations (l : list RubricItem.t) (issues warnings : list message) :
  fold_left
    (fun '(issues, warnings) item =>
       let warnings :=
         append_if (PyStr.blank (RubricItem.junior_expectation item))
           (EmptyJuniorExpectation (RubricItem.area item)) warnings in
       let warnings :=
         append_if (PyStr.blank (RubricItem.mid_expectation item))
           (EmptyMidExpectation (RubricItem.area item)) warnings in
       let warnings :=
         append_if (PyStr.blank (RubricItem.senior_expectation item))
           (EmptySeniorExpectation (RubricItem.area item)) warnings in
       let issues :=
         append_if (PyStr.blank (RubricItem.scoring_guide item))
           (EmptyScoringGuide (RubricItem.area item)) issues in
       (issues, warnings))
    l (issues, warnings)
  = (issues
     ++ map (fun item => EmptyScoringGuide (RubricItem.area item))
          (List.filter blank_scoring_guide l),
     warnings ++ flat_map expectation_warnings l).
Proof.
  revert issues warnings. induction l as [|a l IH]; intros issues warnings.
  - simpl. rewrite !app_nil_r. reflexivity.
  - cbn [fold_left]. rewrite IH. f_equal.
    + cbn [List.filter]. unfold blank_scoring_guide at 2.
      destruct (PyStr.blank (RubricItem.scoring_guide a)); simpl.
      * rewrite <- app_assoc. reflexivity.
      * reflexivity.
    + cbn [flat_map]. unfold expectation_warnings at 2.
      rewrite app_assoc. f_equal.
      rewrite <- (app_nil_r warnings) at 1.
      rewrite !append_if_app. reflexivity.
Qed.

Lemma filter_nil_iff {A : Type} (c : A -> bool) (l : list A) :
  List.filter c l = [] <-> List.Forall (fun x => c x = false) l.
Proof.
  induction l as [|a l IH]; simpl.
  - split; [constructor|reflexivity].
  - destruct (c a) eqn:E; split.
    + discriminate.
    + intros H. inversion H; congruence.
    + intros H. constructor; [exact E|apply IH, H].
    + intros H. inversion H. apply IH. assumption.
Qed.

Lemma map_filter_nil_iff {A B : Type} (c : A -> bool) (f : A -> B) (l : list A) :
  map f (List.filter c l) = [] <-> List.Forall (fun x => c x = false) l.
Proof.
  rewrite <- filter_nil_iff. destruct (List.filter c l); simpl; split; congruence.
Qed.

Lemma in_map_filter {A B : Type} (c : A -> bool) (f : A -> B) (l : list A) (a : A) :
  In a l -> c a = true -> In (f a) (map f (List.filter c l)).
Proof. intros H E. apply in_map, filter_In. split; assumption. Qed.

Section WithSum.
Variable float_sum : list float -> float.

Lemma validate_rubric_unfold (rubric : list RubricItem.t) :
  validate_rubric float_sum rubric
  = ValidationResult.mk (length (rubric_issues float_sum rubric) =? 0)%nat
      (rubric_issues float_sum rubric) (rubric_warnings rubric).
Proof.
  unfold validate_rubric, rubric_issues, rubric_warnings.
  rewrite !fold_append_if. rewrite fold_expectations.
  rewrite <- !app_assoc. reflexivity.
Qed.

End WithSum.
End RubricFacts.

(** C3, as the code has it. For rubric items within the field bounds of
    [RubricItem] (a weight between 0.0 and 1.0), [validate_rubric] passes
    exactly when there are at least 3 items, the sum of the weights is not
    off 1.0 by more than 0.01, every weight is greater than 0 and no scoring
    guide is blank, that is empty or made of whitespace only. Every issue is
    of one of these four kinds; more than 7 items, a weight between 0 and
    0.05 and a blank junior, mid or senior expectation each add a warning. *)
Theorem validate_rubric_passes_iff
    (float_sum : list float -> float) (rubric : list RubricItem.t) :
  List.Forall (fun item => RubricItem.weight_in_range item = true) rubric ->
  let v := QualityGate.validate_rubric float_sum rubric in
  (ValidationResult.passed v = true <->
     (3 <= length rubric)%nat
     /\ QualityGate.off_by_more_than_tolerance
          (QualityGate.weight_sum_of float_sum rubric) = false
     /\ List.Forall
          (fun item => PyFloat.ltb PyFloat.c0 (RubricItem.weight item) = true) rubric
     /\ List.Forall
          (fun item => PyStr.blank (RubricItem.scoring_guide item) = false) rubric)
  /\ List.Forall (fun m => is_rubric_blocking m = true)
       (ValidationResult.issues v)
  /\ ((7 < length rubric)%nat ->
      In (ManyRubricItems (length rubric)) (ValidationResult.warnings v))
  /\ (forall item, In item rubric ->
      (PyFloat.ltb PyFloat.c0 (RubricItem.weight item) = true ->
       PyFloat.ltb (RubricItem.weight item) PyFloat.c0_05 = true ->
       In (VerySmallWeight (RubricItem.area item) (RubricItem.weight item))
          (ValidationResult.warnings v))
      /\ (PyStr.blank (RubricItem.junior_expectation item) = true ->
          In (EmptyJuniorExpectation (RubricItem.area item))
             (ValidationResult.warnings v))
      /\ (PyStr.blank (RubricItem.mid_expectation item) = true ->
          In (EmptyMidExpectation (RubricItem.area item))
             (ValidationResult.warnings v))
      /\ (PyStr.blank (RubricItem.senior_expectation item) = true ->
          In (EmptySeniorExpectation (RubricItem.area item))
             (ValidationResult.warnings v))).
Proof.
  intros Hrange v. unfold v. rewrite RubricFacts.validate_rubric_unfold.
  cbn [ValidationResult.passed ValidationResult.issues ValidationResult.warnings].
  split; [|split; [|split]].
  - rewrite GateFacts.length_eqb_0. unfold rubric_issues.
    rewrite !app_nil, !GateFacts.append_if_nil, !RubricFacts.map_filter_nil_iff.
    rewrite Nat.ltb_ge.
    assert (W : List.Forall (fun x => nonpositive x = false) rubric
                <-> List.Forall
                      (fun item => PyFloat.ltb PyFloat.c0 (RubricItem.weight item) = true)
                      rubric).
    { split; intros H; rewrite List.Forall_forall in *; intros item Hin;
        specialize (H item Hin); specialize (Hrange item Hin);
        unfold RubricItem.weight_in_range in Hrange;
        apply andb_prop in Hrange as [Hrange _];
        apply FloatFacts.leb_not_nan in Hrange;
        apply FloatFacts.positive_iff_not_nonpositive in Hrange;
        unfold nonpositive in *; rewrite Hrange in *;
        destruct (PyFloat.leb (RubricItem.weight item) PyFloat.c0);
        simpl in *; congruence. }
    rewrite W. unfold blank_scoring_guide. tauto.
  - unfold rubric_issues. rewrite !List.Forall_app. repeat split.
    + destruct (QualityGate.off_by_more_than_tolerance _),
        (length rubric <? 3)%nat; simpl; repeat constructor.
    + apply List.Forall_forall. intros m Hm. apply in_map_iff in Hm as (? & <- & _).
      reflexivity.
    + apply List.Forall_forall. intros m Hm. apply in_map_iff in Hm as (? & <- & _).
      reflexivity.
  - intros H. unfold rubric_warnings.
    apply in_or_app. left. rewrite (proj2 (Nat.ltb_lt _ _) H). left. reflexivity.
  - intros item Hin. unfold rubric_warnings.
    assert (E : forall m, In m (expectation_warnings item) ->
                In m (flat_map expectation_warnings rubric)).
    { intros m Hm. apply in_flat_map. exists item. split; assumption. }
    split; [|split; [|split]].
    + intros H1 H2. apply in_or_app. right. apply in_or_app. left.
      apply (RubricFacts.in_map_filter very_small
               (fun item => VerySmallWeight (RubricItem.area item) (RubricItem.weight item))
               rubric item Hin).
      unfold very_small. rewrite H1, H2. reflexivity.
    + intros H. apply in_or_app. right. apply in_or_app. right. apply E.
      unfold expectation_warnings. rewrite H.
      rewrite !GateFacts.in_append_if. left. left. right. split; reflexivity.
    + intros H. apply in_or_app. right. apply in_or_app. right. apply E.
      unfold expectation_warnings. rewrite H.
      rewrite !GateFacts.in_append_if. left. right. split; reflexivity.
    + intros H. apply in_or_app. right. apply in_or_app. right. apply E.
      unfold expectation_warnings. rewrite H.
      rewrite !GateFacts.in_append_if. right. split; reflexivity.
Qed.

Lemma validate_rubric_passes_scenario :
  let rubric := Fixtures.rubric_with_guide "1-5 scale" in
  List.Forall (fun item => RubricItem.weight_in_range item = true) rubric
  /\ ValidationResult.passed (QualityGate.validate_rubric sum_float_left rubric) = true.
Proof.
  intros rubric.
  assert (R : List.Forall (fun item => RubricItem.weight_in_range item = true) rubric)
    by (repeat constructor).
  split; [exact R|].
  apply (proj2 (proj1 (validate_rubric_passes_iff sum_float_left rubric R))).
  split; [vm_compute; lia|].
  split; [vm_compute; reflexivity|].
  split; repeat constructor.
Defined.

(** The claim as stated fails twice. A scoring guide that is not empty but
    holds a single space blocks the rubric although there are 3 items, the
    weights sum to 1.0, every weight is greater than 0 and every scoring
    guide is non-empty. And a weight of 0, which is below 0.05, gives a
    blocking issue and no warning. *)
Lemma validate_rubric_blank_guide_blocks :
  let rubric := Fixtures.rubric_with_guide " " in
  let zero_weight :=
    [Fixtures.item PyFloat.c0_5; Fixtures.item PyFloat.c0_5; Fixtures.item PyFloat.c0] in
  ((3 <= length rubric)%nat
   /\ QualityGate.weight_sum_of sum_float_left rubric = PyFloat.c1
   /\ QualityGate.off_by_more_than_tolerance
        (QualityGate.weight_sum_of sum_float_left rubric) = false
   /\ List.Forall
        (fun item => PyFloat.ltb PyFloat.c0 (RubricItem.weight item) = true) rubric
   /\ List.Forall (fun item => RubricItem.scoring_guide item <> EmptyString) rubric
   /\ QualityGate.validate_rubric sum_float_left rubric
      = ValidationResult.mk false
          [EmptyScoringGuide "API Design"; EmptyScoringGuide "Error Handling";
           EmptyScoringGuide "Testing"] [])
  /\ (PyFloat.ltb PyFloat.c0 PyFloat.c0_05 = true
      /\ QualityGate.validate_rubric sum_float_left zero_weight
         = ValidationResult.mk false [InvalidWeight "API Design" PyFloat.c0] []).
Proof.
  intros rubric zero_weight. split.
  - split; [vm_compute; lia|].
    split; [vm_compute; reflexivity|].
    split; [vm_compute; reflexivity|].
    split; [repeat constructor|].
    split; [repeat constructor; discriminate|].
    vm_compute. reflexivity.
  - split; vm_compute; reflexivity.
Qed.

(** ** Passing and issues *)

(** C5. Each of the three validators returns a result in which [passed]
    holds if and only if the issue list is empty. The context and rubric
    validators return on every input; the scope validator returns whenever
    its ratio can be computed, which includes every budget of 2.0 to 8.0
    hours, the bounds of [AssignmentInput], with a total below [2^1023]. *)
Theorem passed_iff_no_issues :
  (forall context,
     let v := QualityGate.validate_context_extraction context in
     ValidationResult.passed v = true <-> ValidationResult.issues v = [])
  /\ (forall float_sum rubric,
       let v := QualityGate.validate_rubric float_sum rubric in
       ValidationResult.passed v = true <-> ValidationResult.issues v = [])
  /\ (forall scope time_budget_hours,
       returns (QualityGate.validate_scope scope time_budget_hours)
       = returns (QualityGate.time_ratio scope time_budget_hours)
       /\ (PyFloat.leb PyFloat.c2 time_budget_hours = true ->
           PyFloat.leb time_budget_hours PyFloat.c8 = true ->
           Z.abs (total_minutes_of (AssignmentScope.all_requirements scope))
           < 2 ^ 1023 ->
           returns (QualityGate.validate_scope scope time_budget_hours) = true)
       /\ forall v,
            QualityGate.validate_scope scope time_budget_hours = Return v ->
            (ValidationResult.passed v = true <-> ValidationResult.issues v = [])).
Proof.
  split; [|split].
  - intros context v. unfold v, QualityGate.validate_context_extraction.
    cbn [ValidationResult.passed ValidationResult.issues].
    apply GateFacts.length_eqb_0.
  - intros float_sum rubric v. unfold v.
    rewrite RubricFacts.validate_rubric_unfold.
    cbn [ValidationResult.passed ValidationResult.issues].
    apply GateFacts.length_eqb_0.
  - intros scope budget. split; [apply GateFacts.validate_scope_returns|].
    split.
    { intros Lo Hi T. rewrite GateFacts.validate_scope_returns.
      destruct (RoundingFacts.time_ratio_returns scope budget Lo Hi T) as [r ->].
      reflexivity. }
    intros v H. apply (GateFacts.validate_scope_passed scope budget v H).
Qed.

Lemma passed_iff_no_issues_scenario :
  QualityGate.validate_scope (Fixtures.scope_of [60] [] ["Rate limit"]%string)
    Fixtures.four_hours
  = Return
      (ValidationResult.mk false
         [TimeMismatch 60 (S754_finite false 8444249301319680 (-45))
            (S754_finite false 4503599627370496 (-54));
          TooFewMustHave 1]
         [FewConstraints 1])
  /\ (false = true <->
      [TimeMismatch 60 (S754_finite false 8444249301319680 (-45))
         (S754_finite false 4503599627370496 (-54));
       TooFewMustHave 1] = []).
Proof.
  assert (E : QualityGate.validate_scope
                (Fixtures.scope_of [60] [] ["Rate limit"]%string)
                Fixtures.four_hours
              = Return
                  (ValidationResult.mk false
                     [TimeMismatch 60 (S754_finite false 8444249301319680 (-45))
                        (S754_finite false 4503599627370496 (-54));
                      TooFewMustHave 1]
                     [FewConstraints 1]))
    by (vm_compute; reflexivity).
  split; [exact E|].
  exact (proj2 (proj2 (proj2 (proj2 passed_iff_no_issues) _ _)) _ E).
Defined.

(** ** The seniority heuristic *)

Module SeniorityFacts.
Import QualityGate.

Lemma ranges_test (scope : AssignmentScope.t) (c_lo c_hi t_lo t_hi : Z) :
  (c_lo <=? Z.of_nat (length (AssignmentScope.must_have scope)))
  && (Z.of_nat (length (AssignmentScope.must_have scope)) <=? c_hi)
  && (t_lo <=? total_minutes_of (AssignmentScope.all_requirements scope))
  && (total_minutes_of (AssignmentScope.all_requirements scope) <=? t_hi) = true
  <-> in_ranges scope c_lo c_hi t_lo t_hi.
Proof. unfold in_ranges. rewrite !andb_true_iff, !Z.leb_le. tauto. Qed.

(** The warnings of the heuristic: the mismatch warning comes first when
    there is one, and no other warning is of its kind. *)
Lemma generate_scope_warnings_shape (scope : AssignmentScope.t)
    (seniority_level : string) (h : float) (warnings : list message) :
  generate_scope_warnings scope seniority_level h = Return warnings ->
  exists rest,
    List.Forall (fun m => is_complexity_warning m = false) rest
    /\ warnings =
       if check_seniority_match scope seniority_level then rest
       else ComplexityMayNotMatch seniority_level :: rest.
Proof.
  unfold generate_scope_warnings.
  destruct (check_seniority_match scope seniority_level),
    (6 <? length (AssignmentScope.must_have scope))%nat,
    (length (AssignmentScope.nice_to_have scope) =? 0)%nat,
    (0 <? total_minutes_of (AssignmentScope.all_requirements scope));
    try destruct (int_truediv _ _) as [q|e];
    cbn [mbind result_bind negb append_if app];
    try destruct (PyFloat.ltb q PyFloat.c0_5);
    cbn [append_if app];
    intros [= <-]; eexists; (split; [|reflexivity]); repeat constructor.
Qed.

End SeniorityFacts.

(** C7. [check_seniority_match] holds exactly when the must-have count and
    the total minutes of all requirements are within the ranges of the
    level: junior 3..4 and 120..240, mid 4..5 and 180..300, senior 5..6 and
    240..420, staff 6..7 and 360..540; it holds for any other level. Senior
    with 5 must-haves and 300 minutes matches, a count of 2 or a total of
    100 does not. A mismatch puts exactly one warning into the result of
    [generate_scope_warnings], which returns for requirements of positive
    minutes, and [_validate_scope] takes its blocking issues and its verdict
    from [validate_scope] alone, so the mismatch is never an issue. *)
Theorem seniority_match_ranges (scope : AssignmentScope.t) (seniority_level : string) :
  let matches := QualityGate.check_seniority_match scope seniority_level in
  let count := Z.of_nat (length (AssignmentScope.must_have scope)) in
  let total := total_minutes_of (AssignmentScope.all_requirements scope) in
  (seniority_level = "junior"%string ->
   (matches = true <-> in_ranges scope 3 4 120 240))
  /\ (seniority_level = "mid"%string ->
      (matches = true <-> in_ranges scope 4 5 180 300))
  /\ (seniority_level = "senior"%string ->
      (matches = true <-> in_ranges scope 5 6 240 420))
  /\ (seniority_level = "staff"%string ->
      (matches = true <-> in_ranges scope 6 7 360 540))
  /\ (~ In seniority_level ["junior"; "mid"; "senior"; "staff"]%string ->
      matches = true)
  /\ (seniority_level = "senior"%string -> count = 5 -> total = 300 -> matches = true)
  /\ (seniority_level = "senior"%string -> count = 2 \/ total = 100 ->
      matches = false)
  /\ (forall time_budget_hours,
       (valid_minutes (AssignmentScope.must_have scope) ->
        valid_minutes (AssignmentScope.nice_to_have scope) ->
        returns
          (QualityGate.generate_scope_warnings scope seniority_level
             time_budget_hours) = true)
       /\ forall warnings,
            QualityGate.generate_scope_warnings scope seniority_level
              time_budget_hours = Return warnings ->
            length (List.filter is_complexity_warning warnings)
            = (if matches then 0%nat else 1%nat)
            /\ (matches = false ->
                In (ComplexityMayNotMatch seniority_level) warnings))
  /\ (forall input_data v,
       AssignmentInput.seniority_level input_data = seniority_level ->
       AssignmentGenerator._validate_scope scope input_data = Return v ->
       (exists r,
          QualityGate.validate_scope scope
            (AssignmentInput.time_budget_hours input_data) = Return r
          /\ ScopeValidation.issues v = ValidationResult.issues r
          /\ ScopeValidation.passed v = ValidationResult.passed r)
       /\ List.Forall (fun m => is_complexity_warning m = false)
            (ScopeValidation.issues v)
       /\ (matches = false ->
           In (ComplexityMayNotMatch seniority_level) (ScopeValidation.warnings v))).
Proof.
  intros matches count total. subst count total.
  assert (W : forall h warnings,
             QualityGate.generate_scope_warnings scope seniority_level h
             = Return warnings ->
             length (List.filter is_complexity_warning warnings)
             = (if matches then 0%nat else 1%nat)
             /\ (matches = false -> In (ComplexityMayNotMatch seniority_level) warnings)).
  { intros h warnings H.
    destruct (SeniorityFacts.generate_scope_warnings_shape _ _ _ _ H) as (rest & R & ->).
    assert (F : List.filter is_complexity_warning rest = []).
    { apply RubricFacts.filter_nil_iff. exact R. }
    fold matches. destruct matches; cbn [List.filter is_complexity_warning];
      rewrite F; split; try reflexivity; try discriminate.
    intros _. left. reflexivity. }
  repeat match goal with |- _ /\ _ => split end.
  - intros ->. apply SeniorityFacts.ranges_test.
  - intros ->. apply SeniorityFacts.ranges_test.
  - intros ->. apply SeniorityFacts.ranges_test.
  - intros ->. apply SeniorityFacts.ranges_test.
  - intros N. unfold matches, QualityGate.check_seniority_match.
    repeat match goal with
           | |- context [String.eqb seniority_level ?s] =>
               destruct (String.eqb_spec seniority_level s) as [E|_];
               [exfalso; apply N; rewrite E; simpl; tauto|]
           end.
    reflexivity.
  - intros -> Hc Ht. apply SeniorityFacts.ranges_test.
    unfold in_ranges. lia.
  - intros -> H.
    destruct matches eqn:M; [|reflexivity].
    apply SeniorityFacts.ranges_test in M.
    unfold in_ranges in M. lia.
  - intros time_budget_hours. split; [|apply W].
    intros M N.
    destruct (RoundingFacts.generate_scope_warnings_returns scope seniority_level
                time_budget_hours M N) as [ws ->].
    reflexivity.
  - intros input_data v <-. unfold AssignmentGenerator._validate_scope.
    destruct (QualityGate.validate_scope scope _) as [r|e] eqn:V; [|discriminate].
    cbn [mbind result_bind].
    destruct (QualityGate.generate_scope_warnings scope _ _) as [ws|] eqn:G;
      [|discriminate].
    cbn [mbind result_bind]. intros [= <-].
    cbn [ScopeValidation.issues ScopeValidation.passed ScopeValidation.warnings].
    split; [exists r; repeat split|]. split.
    + destruct (GateFacts.validate_scope_ratio _ _ _ V) as [q Q].
      destruct (GateFacts.validate_scope_unfold _ _ _ Q) as [w E].
      rewrite E in V. injection V as <-. cbn [ValidationResult.issues].
      unfold scope_issues.
      apply List.Forall_forall. intros m Hm.
      repeat (apply GateFacts.in_append_if in Hm as [Hm|[_ ->]]; [|reflexivity]).
      destruct Hm.
    + intros M. apply in_or_app. right. apply (W _ _ G). exact M.
Qed.

Lemma seniority_match_scenarios :
  QualityGate.check_seniority_match
    (Fixtures.scope_of [60; 60; 60; 60; 60] [] []) "senior" = true
  /\ QualityGate.check_seniority_match
       (Fixtures.scope_of [150; 150] [] []) "senior" = false
  /\ QualityGate.check_seniority_match
       (Fixtures.scope_of [20; 20; 20; 20; 20] [] []) "senior" = false
  /\ In (ComplexityMayNotMatch "senior")
       [ComplexityMayNotMatch "senior"; NoNiceToHave].
Proof.
  pose proof (seniority_match_ranges
                (Fixtures.scope_of [60; 60; 60; 60; 60] [] []) "senior") as A.
  pose proof (seniority_match_ranges
                (Fixtures.scope_of [150; 150] [] []) "senior") as B.
  pose proof (seniority_match_ranges
                (Fixtures.scope_of [20; 20; 20; 20; 20] [] []) "senior") as C.
  cbv zeta in A, B, C.
  destruct A as (_ & _ & _ & _ & _ & A & _).
  destruct B as (_ & _ & _ & _ & _ & _ & B & _).
  destruct C as (_ & _ & _ & _ & _ & _ & C & W & _).
  split; [apply A; reflexivity|].
  split; [apply B; [reflexivity|left; reflexivity]|].
  split; [apply C; [reflexivity|right; reflexivity]|].
  apply (proj2 (W Fixtures.four_hours));
    [vm_compute; reflexivity|apply C; [reflexivity|right; reflexivity]].
Defined.

(** ** Difficulty classification *)

(** C6. The difficulty is a three-way thresholding on the total requirement
    minutes and the must-have count: "easy" when the total is at most 180
    and the count at most 4; otherwise "hard" when the total is at least 360
    or the count at least 6; otherwise "medium". In particular (150, 3) is
    easy, (400, 5) is hard and (300, 5) is medium. *)
Theorem estimate_difficulty_thresholds
    (scope : AssignmentScope.t) (input_data : AssignmentInput.t) :
  let total := total_minutes_of (AssignmentScope.all_requirements scope) in
  let count := Z.of_nat (length (AssignmentScope.must_have scope)) in
  let difficulty := AssignmentGenerator._estimate_difficulty scope input_data in
  (total <= 180 /\ count <= 4 -> difficulty = "easy"%string)
  /\ (~ (total <= 180 /\ count <= 4) -> total >= 360 \/ count >= 6 ->
      difficulty = "hard"%string)
  /\ (~ (total <= 180 /\ count <= 4) -> ~ (total >= 360 \/ count >= 6) ->
      difficulty = "medium"%string)
  /\ (total = 150 -> count = 3 -> difficulty = "easy"%string)
  /\ (total = 400 -> count = 5 -> difficulty = "hard"%string)
  /\ (total = 300 -> count = 5 -> difficulty = "medium"%string).
Proof.
  intros total count difficulty.
  unfold difficulty, AssignmentGenerator._estimate_difficulty.
  fold total. fold count.
  destruct (Z.leb_spec total 180), (Z.leb_spec count 4),
    (Z.geb_spec total 360), (Z.geb_spec count 6); simpl;
    repeat split; intros; try reflexivity; lia.
Qed.

Lemma estimate_difficulty_scenarios :
  let input_data := Demo.input_data in
  AssignmentGenerator._estimate_difficulty
    (Fixtures.scope_of [50; 50; 50] [] []) input_data = "easy"%string
  /\ AssignmentGenerator._estimate_difficulty
       (Fixtures.scope_of [80; 80; 80; 80; 80] [] []) input_data = "hard"%string
  /\ AssignmentGenerator._estimate_difficulty
       (Fixtures.scope_of [60; 60; 60; 60; 60] [] []) input_data = "medium"%string.
Proof.
  intros input_data. split; [|split].
  - apply (estimate_difficulty_thresholds
             (Fixtures.scope_of [50; 50; 50] [] []) input_data); reflexivity.
  - apply (estimate_difficulty_thresholds
             (Fixtures.scope_of [80; 80; 80; 80; 80] [] []) input_data); reflexivity.
  - apply (estimate_difficulty_thresholds
             (Fixtures.scope_of [60; 60; 60; 60; 60] [] []) input_data); reflexivity.
Defined.

(** ** The pipeline *)

Section PipelineFacts.
Import AssignmentGenerator.

Variable float_sum : list float -> float.
Variable World : Type.
Variable generate_json : request -> World -> result response * World.
Variable uuid4 : World -> string * World.
Variable now : World -> Z * World.

#[local] Existing Instance io_ret.
#[local] Existing Instance io_bind.

Local Abbreviation extract_context := (_extract_context World generate_json).
Local Abbreviation define_scope := (_define_scope World generate_json).
Local Abbreviation generate_rubric := (_generate_rubric float_sum World generate_json).
Local Abbreviation generate_time_breakdown := (_generate_time_breakdown World generate_json).
Local Abbreviation assemble := (_assemble_assignment World uuid4 now).
Local Abbreviation run := (generate float_sum World generate_json uuid4 now).

Lemma bind_returns {A B : Type} (m : io World A) (f : A -> io World B)
    (s s1 : state World) (a : A) :
  m s = (Return a, s1) -> (m ≫= f) s = f a s1.
Proof. unfold mbind, io_bind. intros ->. reflexivity. Qed.

Lemma bind_returned {A B : Type} (m : io World A) (f : A -> io World B)
    (s s2 : state World) (b : B) :
  (m ≫= f) s = (Return b, s2) ->
  exists a s1, m s = (Return a, s1) /\ f a s1 = (Return b, s2).
Proof.
  unfold mbind, io_bind. destruct (m s) as [[a|e] s1]; [eauto|discriminate].
Qed.

(** Phase 1 asks the capability once, whatever comes of it, and raises
    nothing but [ContextExtractionError]. *)
Lemma extract_context_spec (input_data : AssignmentInput.t) (s : state World) :
  exists w,
    snd (extract_context input_data s)
    = mk_state World w (calls World s ++ [context_request input_data])
    /\ forall e, fst (extract_context input_data s) = Raise e ->
                 class_of e = ClsContextExtractionError.
Proof.
  unfold _extract_context, try_except, mbind, io_bind, client_generate_json, lift, raise.
  fold (context_request input_data).
  destruct (generate_json (context_request input_data) (world World s)) as [[r|e] w];
    exists w.
  - destruct r as [context| | | |raised];
      [destruct (negb (ValidationResult.passed
                         (QualityGate.validate_context_extraction context)))
      | | | |destruct raised];
      cbn; (split; [reflexivity|]); try discriminate;
      intros ? [= <-]; reflexivity.
  - destruct e; cbn; (split; [reflexivity|]); intros ? [= <-]; reflexivity.
Qed.

(** Phase 2 asks the capability once and raises nothing but the generic
    [GenerationError], which wraps the exception it caught. *)
Lemma define_scope_spec (context : JobContext.t) (input_data : AssignmentInput.t)
    (s : state World) :
  exists w,
    snd (define_scope context input_data s)
    = mk_state World w (calls World s ++ [scope_request context input_data])
    /\ forall e, fst (define_scope context input_data s) = Raise e ->
                 exists cause, e = GenerationError (Failed DefineScope cause).
Proof.
  unfold _define_scope, try_except, mbind, io_bind, client_generate_json, lift, raise.
  fold (scope_request context input_data).
  destruct (generate_json (scope_request context input_data) (world World s))
    as [[r|e] w]; exists w.
  - destruct r as [|title business_context must nice constraints| | |raised];
      try (cbn; split; [reflexivity|]; intros ? [= <-]; eauto).
    destruct (map_result Requirement.validate must) as [must'|e1];
      [destruct (map_result Requirement.validate nice) as [nice'|e2]|];
      cbn; (split; [reflexivity|]); try discriminate; intros ? [= <-]; eauto.
  - cbn. split; [reflexivity|]. intros ? [= <-]. eauto.
Qed.

(** A failure of the capability or of the conversion of its answer reaches
    the caller of Phase 2 as [GenerationError]. *)
Lemma define_scope_failures (context : JobContext.t) (input_data : AssignmentInput.t)
    (s : state World) (cause : exn) (w : World) :
  generate_json (scope_request context input_data) (world World s) = (Raise cause, w)
  \/ generate_json (scope_request context input_data) (world World s)
     = (Return (Malformed cause), w) ->
  define_scope context input_data s
  = (Raise (GenerationError (Failed DefineScope cause)),
     mk_state World w (calls World s ++ [scope_request context input_data])).
Proof.
  unfold _define_scope, try_except, mbind, io_bind, client_generate_json, lift, raise.
  fold (scope_request context input_data).
  intros [-> | ->]; reflexivity.
Qed.

(** Phase 4a raises nothing but [RubricGenerationError]. *)
Lemma generate_rubric_spec (scope : AssignmentScope.t) (input_data : AssignmentInput.t)
    (s : state World) (e : exn) :
  fst (generate_rubric scope input_data s) = Raise e ->
  class_of e = ClsRubricGenerationError.
Proof.
  unfold _generate_rubric, try_except, mbind, io_bind, client_generate_json, lift, raise.
  destruct (generate_json _ (world World s)) as [[r|e0] w].
  - destruct r as [| |guide| |raised];
      try (cbn; intros [= <-]; reflexivity).
    + destruct (map_result RubricItem.validate (EvaluatorGuide.scoring_rubric guide))
        as [items|e1].
      * cbn [result_bind].
        destruct (EvaluatorGuide.validate float_sum _) as [g|e2].
        -- destruct (negb (ValidationResult.passed
                             (QualityGate.validate_rubric float_sum
                                (EvaluatorGuide.scoring_rubric g))));
             cbn; [intros [= <-]; reflexivity|discriminate].
        -- destruct e2; cbn; intros [= <-]; reflexivity.
      * destruct e1; cbn; intros [= <-]; reflexivity.
    + destruct raised; cbn; intros [= <-]; reflexivity.
  - destruct e0; cbn; intros [= <-]; reflexivity.
Qed.

(** Phase 4b raises nothing but the generic [GenerationError]; when it
    returns, the capability answered with a document of the time-breakdown
    shape and the model is that document after model validation. *)
Lemma generate_time_breakdown_spec (scope : AssignmentScope.t)
    (input_data : AssignmentInput.t) (s : state World) :
  (forall e, fst (generate_time_breakdown scope input_data s) = Raise e ->
             exists cause, e = GenerationError (Failed GenerateTimeBreakdown cause))
  /\ (forall tb, fst (generate_time_breakdown scope input_data s) = Return tb ->
      exists total_minutes raw w,
        generate_json
          (TimeBreakdownRequest scope (AssignmentInput.time_budget_hours input_data)
             total_minutes)
          (world World s)
        = (Return (TimeBreakdownJson raw), w)
        /\ TimeBreakdown.validate raw = Return tb).
Proof.
  unfold _generate_time_breakdown, try_except, mbind, io_bind, client_generate_json,
    lift, raise.
  destruct (int_of_float _) as [total|e0];
    [|split; cbn; [intros ? [= <-]; eauto|discriminate]].
  destruct (generate_json _ (world World s)) as [[r|e1] w] eqn:G;
    [|split; cbn; [intros ? [= <-]; eauto|discriminate]].
  destruct r as [| | |raw|raised];
    try (split; cbn; [intros ? [= <-]; eauto|discriminate]).
  destruct (TimeBreakdown.validate raw) as [tb|e2] eqn:V;
    [|split; cbn; [intros ? [= <-]; eauto|discriminate]].
  split; cbn; [discriminate|]. intros ? [= <-]. eauto.
Qed.

(** Assembly puts the model of Phase 4b into the assignment unchanged. *)
Lemma assemble_time_breakdown (context : JobContext.t) (scope : AssignmentScope.t)
    (rubric : EvaluatorGuide.t) (tb : TimeBreakdown.t) (validation : ScopeValidation.t)
    (input_data : AssignmentInput.t) (s : state World) (a : GeneratedAssignment.t) :
  fst (assemble context scope rubric tb validation input_data s) = Return a ->
  GeneratedAssignment.time_breakdown a = tb.
Proof.
  unfold _assemble_assignment, mbind, io_bind, lift.
  destruct (Requirements.validate _); [|discriminate].
  destruct (int_of_float _); [|discriminate].
  destruct (CandidateBrief.validate _); [|discriminate].
  destruct (uuid4 _). destruct (now _).
  unfold GeneratedAssignment.validate.
  destruct (bool_decide _); [|discriminate].
  cbn. intros [= <-]. reflexivity.
Qed.

(** C1, as the code has it. The time-breakdown phase adds no check of its
    own, but it builds the [TimeBreakdown] model from the capability's
    answer, and model validation replaces the supplied flag: in every
    assignment the pipeline returns, the six minute fields are those of the
    answer and [breakdown_valid] is the test that the total differs from the
    sum of the five categories by less than 5. *)
Theorem breakdown_flag_recomputed
    (input_data : AssignmentInput.t) (s s' : state World) (a : GeneratedAssignment.t) :
  run input_data s = (Return a, s') ->
  exists scope total_minutes raw w w',
    generate_json
      (TimeBreakdownRequest scope (AssignmentInput.time_budget_hours input_data)
         total_minutes) w
    = (Return (TimeBreakdownJson raw), w')
    /\ GeneratedAssignment.time_breakdown a
       = TimeBreakdown.mk
           (TimeBreakdown.total_minutes raw) (TimeBreakdown.setup_minutes raw)
           (TimeBreakdown.core_implementation_minutes raw)
           (TimeBreakdown.testing_minutes raw)
           (TimeBreakdown.documentation_minutes raw)
           (TimeBreakdown.buffer_minutes raw)
           (Z.abs (TimeBreakdown.total_minutes raw - TimeBreakdown.category_sum raw)
            <? 5).
Proof.
  unfold generate. intros H.
  apply bind_returned in H as (context & s1 & _ & H).
  apply bind_returned in H as (scope & s2 & _ & H).
  apply bind_returned in H as (validation & s3 & _ & H).
  destruct (negb (ScopeValidation.passed validation)); [discriminate|].
  apply bind_returned in H as (rubric & s4 & _ & H).
  apply bind_returned in H as (tb & s5 & T & H).
  apply (f_equal fst) in H, T. cbn [fst] in H, T.
  apply assemble_time_breakdown in H.
  apply (proj2 (generate_time_breakdown_spec scope input_data s4)) in T
    as (total & raw & w & G & V).
  exists scope, total, raw, (world World s4), w. split; [exact G|].
  rewrite H. apply (TimeBreakdownFacts.validate_accepted raw tb V).
Qed.

(** C8. When Phases 1 and 2 succeed and Phase 3 yields a validation that
    did not pass, [generate] raises [ScopeValidationError] with the issues of
    that validation, of which there is at least one, and returns no
    assignment; the capability has been asked for the context and for the
    scope, once each, and for nothing else: Phase 4 is not entered and no
    phase is run again. *)
Theorem scope_validation_failure_aborts
    (input_data : AssignmentInput.t) (s s1 s2 : state World)
    (context : JobContext.t) (scope : AssignmentScope.t) (v : ScopeValidation.t) :
  extract_context input_data s = (Return context, s1) ->
  define_scope context input_data s1 = (Return scope, s2) ->
  _validate_scope scope input_data = Return v ->
  ScopeValidation.passed v = false ->
  run input_data s
  = (Raise (ScopeValidationError (ValidationFailed (ScopeValidation.issues v))), s2)
  /\ ScopeValidation.issues v <> []
  /\ calls World s2
     = calls World s
       ++ [context_request input_data; scope_request context input_data].
Proof.
  intros H1 H2 H3 P. split; [|split].
  - unfold generate.
    rewrite (bind_returns _ _ _ _ _ H1).
    rewrite (bind_returns _ _ _ _ _ H2).
    rewrite H3. unfold mbind at 1, io_bind, lift. rewrite P. reflexivity.
  - revert H3 P. unfold _validate_scope.
    destruct (QualityGate.validate_scope scope _) as [r|e] eqn:V; [|discriminate].
    cbn [mbind result_bind].
    destruct (QualityGate.generate_scope_warnings scope _ _); [|discriminate].
    cbn [mbind result_bind]. intros [= <-].
    cbn [ScopeValidation.issues ScopeValidation.passed]. intros P N.
    apply (GateFacts.validate_scope_passed _ _ _ V) in N. congruence.
  - destruct (extract_context_spec input_data s) as (w1 & C1 & _).
    destruct (define_scope_spec context input_data s1) as (w2 & C2 & _).
    rewrite H1 in C1. rewrite H2 in C2. cbn [snd] in C1, C2.
    rewrite C2, C1. cbn [calls]. rewrite <- app_assoc. reflexivity.
Qed.

(** C9, as the code has it. Whatever fails in scope definition is raised
    as the generic [GenerationError]: a failure of the capability and an
    answer that cannot be converted both are. Context extraction raises
    nothing but [ContextExtractionError] and rubric generation nothing but
    [RubricGenerationError]. Time-breakdown generation has no error kind of
    its own either: it raises the generic [GenerationError] too. *)
Theorem phase_error_kinds :
  (forall context input_data s e,
     fst (define_scope context input_data s) = Raise e ->
     exists cause, e = GenerationError (Failed DefineScope cause))
  /\ (forall context input_data s cause w,
       generate_json (scope_request context input_data) (world World s)
       = (Raise cause, w)
       \/ generate_json (scope_request context input_data) (world World s)
          = (Return (Malformed cause), w) ->
       fst (define_scope context input_data s)
       = Raise (GenerationError (Failed DefineScope cause)))
  /\ (forall input_data s e,
       fst (extract_context input_data s) = Raise e ->
       class_of e = ClsContextExtractionError)
  /\ (forall scope input_data s e,
       fst (generate_rubric scope input_data s) = Raise e ->
       class_of e = ClsRubricGenerationError)
  /\ (forall scope input_data s e,
       fst (generate_time_breakdown scope input_data s) = Raise e ->
       exists cause, e = GenerationError (Failed GenerateTimeBreakdown cause)).
Proof.
  split; [|split; [|split; [|split]]].
  - intros context input_data s e.
    destruct (define_scope_spec context input_data s) as (w & _ & H). apply H.
  - intros context input_data s cause w H.
    rewrite (define_scope_failures context input_data s cause w H). reflexivity.
  - intros input_data s e.
    destruct (extract_context_spec input_data s) as (w & _ & H). apply H.
  - intros scope input_data s e. apply generate_rubric_spec.
  - intros scope input_data s e.
    apply (proj1 (generate_time_breakdown_spec scope input_data s)).
Qed.

End PipelineFacts.

Example demo_input_valid : AssignmentInput.validate Demo.input_data = Return Demo.input_data.
Proof. vm_compute. reflexivity. Qed.

Lemma breakdown_flag_not_passed_through :
  exists a s',
    AssignmentGenerator.generate sum_float_left nat
      (Demo.capability (Return (Demo.scope_json [80; 60; 70]))
         (Return (AssignmentGenerator.TimeBreakdownJson Demo.off_by_five)))
      Demo.uuid4 Demo.now Demo.input_data Demo.start
    = (Return a, s')
    /\ TimeBreakdown.breakdown_valid Demo.off_by_five = true
    /\ TimeBreakdown.breakdown_valid (GeneratedAssignment.time_breakdown a) = false.
Proof.
  eexists. eexists. split; [vm_compute; reflexivity|]. split; reflexivity.
Qed.

Lemma breakdown_flag_recomputed_demo :
  exists a s',
    AssignmentGenerator.generate sum_float_left nat
      (Demo.capability (Return (Demo.scope_json [80; 60; 70]))
         (Return (AssignmentGenerator.TimeBreakdownJson Demo.off_by_five)))
      Demo.uuid4 Demo.now Demo.input_data Demo.start
    = (Return a, s')
    /\ GeneratedAssignment.time_breakdown a = TimeBreakdown.mk 240 20 150 40 20 5 false.
Proof.
  assert (E : exists a s',
             AssignmentGenerator.generate sum_float_left nat
               (Demo.capability (Return (Demo.scope_json [80; 60; 70]))
                  (Return (AssignmentGenerator.TimeBreakdownJson Demo.off_by_five)))
               Demo.uuid4 Demo.now Demo.input_data Demo.start
             = (Return a, s'))
    by (eexists; eexists; vm_compute; reflexivity).
  destruct E as (a & s' & E). exists a, s'. split; [exact E|].
  destruct (breakdown_flag_recomputed _ _ _ _ _ _ _ _ _ E)
    as (scope & total & raw & w & w' & G & ->).
  injection G as <- _. reflexivity.
Defined.

Lemma scope_validation_failure_demo :
  exists issues s2,
    AssignmentGenerator.generate sum_float_left nat
      (Demo.capability (Return (Demo.scope_json [60]))
         (Return (AssignmentGenerator.TimeBreakdownJson Demo.off_by_five)))
      Demo.uuid4 Demo.now Demo.input_data Demo.start
    = (Raise (ScopeValidationError (ValidationFailed issues)), s2)
    /\ issues <> []
    /\ AssignmentGenerator.calls nat s2
       = [context_request Demo.input_data; scope_request Demo.context Demo.input_data].
Proof.
  edestruct (scope_validation_failure_aborts sum_float_left nat
               (Demo.capability (Return (Demo.scope_json [60]))
                  (Return (AssignmentGenerator.TimeBreakdownJson Demo.off_by_five)))
               Demo.uuid4 Demo.now Demo.input_data Demo.start)
    as (R & N & C).
  - vm_compute. reflexivity.
  - vm_compute. reflexivity.
  - vm_compute. reflexivity.
  - reflexivity.
  - eexists. eexists. split; [exact R|]. split; [exact N|exact C].
Defined.

Lemma time_breakdown_failure_is_generic :
  fst (AssignmentGenerator._generate_time_breakdown nat
         (Demo.capability (Return (Demo.scope_json [80; 60; 70])) (Raise GeminiAPIError))
         (Fixtures.scope_of [80; 60; 70] [30] []) Demo.input_data Demo.start)
  = Raise (GenerationError (Failed GenerateTimeBreakdown GeminiAPIError))
  /\ class_of (GenerationError (Failed GenerateTimeBreakdown GeminiAPIError))
     = ClsGenerationError.
Proof. split; [vm_compute; reflexivity|reflexivity]. Qed.

Lemma phase_error_kinds_demo :
  fst (AssignmentGenerator._define_scope nat
         (Demo.capability (Raise GeminiAPIError) (Raise GeminiAPIError))
         Demo.context Demo.input_data Demo.start)
  = Raise (GenerationError (Failed DefineScope GeminiAPIError)).
Proof.
  apply (proj1 (proj2 (phase_error_kinds sum_float_left nat
                         (Demo.capability (Raise GeminiAPIError) (Raise GeminiAPIError))))
           Demo.context Demo.input_data Demo.start GeminiAPIError 1%nat).
  left. reflexivity.
Defined.
(** ** What the context gate requires *)

Module ContextGateFacts.
Import PyStr.

Lemma strip_empty (s : string) :
  negb (truthy s) || (String.length (strip s) =? 0)%nat = all_whitespace s.
Proof.
  rewrite <- StrFacts.blank_all_whitespace. unfold blank.
  destruct (strip s); reflexivity.
Qed.

(** What the context gate requires. *)
Lemma passes_iff (context : JobContext.t) :
  ValidationResult.passed (QualityGate.validate_context_extraction context) = true
  <-> (3 <= length (JobContext.responsibilities context))%nat
      /\ all_whitespace (JobContext.business_domain context) = false
      /\ JobContext.daily_technologies context <> [].
Proof.
  unfold QualityGate.validate_context_extraction. cbn [ValidationResult.passed].
  rewrite GateFacts.length_eqb_0, !GateFacts.append_if_nil.
  rewrite strip_empty, Nat.ltb_ge.
  destruct (JobContext.daily_technologies context); simpl; intuition congruence.
Qed.


End ContextGateFacts.

(** X1. [validate_context_extraction] passes exactly when at least three
    responsibilities were extracted, the business domain is not blank
    (empty or whitespace only) and at least one daily technology is named.
    Collaboration patterns never block: when they are missing or empty the
    result carries the one warning, and otherwise, even for patterns made of
    whitespace only, no warning at all. *)
Theorem context_extraction_passes_iff (context : JobContext.t) :
  let v := QualityGate.validate_context_extraction context in
  (ValidationResult.passed v = true <->
     (3 <= length (JobContext.responsibilities context))%nat
     /\ PyStr.all_whitespace (JobContext.business_domain context) = false
     /\ JobContext.daily_technologies context <> [])
  /\ (JobContext.collaboration_patterns context = None
      \/ JobContext.collaboration_patterns context = Some EmptyString ->
      ValidationResult.warnings v = [CollaborationPatternsNotIdentified])
  /\ (forall c s, JobContext.collaboration_patterns context = Some (String c s) ->
      ValidationResult.warnings v = []).
Proof.
  intros v. unfold v. split; [apply ContextGateFacts.passes_iff|].
  unfold QualityGate.validate_context_extraction. cbn [ValidationResult.warnings].
  split.
  - intros [-> | ->]; reflexivity.
  - intros c s ->. reflexivity.
Qed.

Lemma context_extraction_passes_iff_demo :
  ValidationResult.passed (QualityGate.validate_context_extraction Demo.context) = true
  /\ ValidationResult.warnings
       (QualityGate.validate_context_extraction
          (JobContext.mk ["Build APIs"]%string "   " [] None))
     = [CollaborationPatternsNotIdentified].
Proof.
  split.
  - apply (proj2 (proj1 (context_extraction_passes_iff Demo.context))).
    split; [vm_compute; lia|]. split; [reflexivity|discriminate].
  - apply (proj1 (proj2 (context_extraction_passes_iff
                           (JobContext.mk ["Build APIs"]%string "   " [] None)))).
    left. reflexivity.
Defined.

(** ** What the scope gate requires, and what it only warns about *)

Module ScopeGateFacts.
Import QualityGate.

Lemma find_first_hit {A : Type} (f : A -> bool) (l : list A) (x : A) :
  find f l = Some x <-> first_hit f l x.
Proof.
  unfold first_hit. induction l as [|a l IH]; simpl.
  - split; [discriminate|]. intros (b & r & E & _). destruct b; discriminate.
  - destruct (f a) eqn:Fa; split.
    + intros [= <-]. exists [], l. repeat split; [exact Fa|constructor].
    + intros (b & r & E & Fx & Hb). destruct b as [|y b].
      * injection E as -> _. reflexivity.
      * injection E as -> _. inversion Hb; congruence.
    + intros H. apply IH in H as (b & r & -> & Fx & Hb).
      exists (a :: b), r. repeat split; [exact Fx|constructor; assumption].
    + intros (b & r & E & Fx & Hb). apply IH. destruct b as [|y b].
      * injection E as -> _. congruence.
      * injection E as -> ->. inversion Hb. exists b, r. repeat split; assumption.
Qed.

Lemma find_some_hit {A : Type} (f : A -> bool) (l : list A) (x : A) :
  In x l -> f x = true -> exists y, find f l = Some y.
Proof.
  intros Hin Fx. destruct (find f l) as [y|] eqn:E; [eauto|].
  rewrite (find_none f l E x Hin) in Fx. discriminate.
Qed.

Lemma validate_scope_result (scope : AssignmentScope.t) (budget r : float) :
  time_ratio scope budget = Return r ->
  validate_scope scope budget =
  Return
    (ValidationResult.mk (length (scope_issues scope budget r) =? 0)%nat
       (scope_issues scope budget r)
       (structural_warnings scope ++ generic_warning scope)).
Proof.
  unfold time_ratio, validate_scope, scope_issues, structural_warnings,
    generic_warning.
  intros ->. cbn [mbind result_bind].
  destruct (find _ generic_terms); [|rewrite app_nil_r]; reflexivity.
Qed.

(** The warnings of a result of the gate. *)
Lemma validate_scope_warnings (scope : AssignmentScope.t) (budget : float)
    (v : ValidationResult.t) :
  validate_scope scope budget = Return v ->
  ValidationResult.warnings v = structural_warnings scope ++ generic_warning scope.
Proof.
  intros H. destruct (GateFacts.validate_scope_ratio _ _ _ H) as [r R].
  rewrite (validate_scope_result _ _ _ R) in H.
  apply (f_equal (fun m => match m with
                           | Return x => ValidationResult.warnings x
                           | Raise _ => []
                           end)) in H.
  symmetry. exact H.
Qed.

Lemma in_generic (scope : AssignmentScope.t) (m : message) :
  In m (generic_warning scope) ->
  exists term, m = BusinessContextGeneric term.
Proof.
  unfold generic_warning. destruct (find _ generic_terms); [|intros []].
  intros [<-|[]]. eauto.
Qed.

Lemma structural_not_generic (scope : AssignmentScope.t) :
  List.filter is_generic_warning (structural_warnings scope) = [].
Proof.
  unfold structural_warnings.
  destruct (_ <? 2)%nat, (7 <? _)%nat, (2000 <? _)%nat; reflexivity.
Qed.

Lemma in_structural (scope : AssignmentScope.t) (m : message) :
  In m (structural_warnings scope) <->
  (m = BusinessContextQuiteLong
         (String.length (AssignmentScope.business_context scope))
   /\ (2000 < String.length (AssignmentScope.business_context scope))%nat)
  \/ (m = ManyMustHave (length (AssignmentScope.must_have scope))
      /\ (7 < length (AssignmentScope.must_have scope))%nat)
  \/ (m = FewConstraints (length (AssignmentScope.constraints scope))
      /\ (length (AssignmentScope.constraints scope) < 2)%nat).
Proof.
  unfold structural_warnings. rewrite !GateFacts.in_append_if, !Nat.ltb_lt.
  simpl. tauto.
Qed.

End ScopeGateFacts.

(** X2. When its ratio can be computed, [validate_scope] passes exactly
    when the ratio is within [0.75, 1.25], the business context has at least
    100 characters and there are at least 3 must-haves. The upper bounds are
    no conditions of passing: a context of more than 2000 characters, more
    than 7 must-haves and fewer than 2 constraints each add a warning, and
    only then. *)
Theorem scope_gate_passes_iff
    (scope : AssignmentScope.t) (time_budget_hours ratio : float) :
  QualityGate.time_ratio scope time_budget_hours = Return ratio ->
  exists v,
    QualityGate.validate_scope scope time_budget_hours = Return v
    /\ (ValidationResult.passed v = true <->
        PyFloat.leb PyFloat.c0_75 ratio = true
        /\ PyFloat.leb ratio PyFloat.c1_25 = true
        /\ (100 <= String.length (AssignmentScope.business_context scope))%nat
        /\ (3 <= length (AssignmentScope.must_have scope))%nat)
    /\ (In (BusinessContextQuiteLong
              (String.length (AssignmentScope.business_context scope)))
           (ValidationResult.warnings v)
        <-> (2000 < String.length (AssignmentScope.business_context scope))%nat)
    /\ (In (ManyMustHave (length (AssignmentScope.must_have scope)))
           (ValidationResult.warnings v)
        <-> (7 < length (AssignmentScope.must_have scope))%nat)
    /\ (In (FewConstraints (length (AssignmentScope.constraints scope)))
           (ValidationResult.warnings v)
        <-> (length (AssignmentScope.constraints scope) < 2)%nat).
Proof.
  intros R. eexists. split; [apply (ScopeGateFacts.validate_scope_result _ _ _ R)|].
  cbn [ValidationResult.passed ValidationResult.warnings].
  split.
  { rewrite GateFacts.length_eqb_0. unfold scope_issues.
    rewrite !GateFacts.append_if_nil, !Nat.ltb_ge, negb_false_iff, andb_true_iff.
    tauto. }
  assert (M : forall m, is_generic_warning m = false ->
              In m (structural_warnings scope ++ generic_warning scope)
              <-> In m (structural_warnings scope)).
  { intros m G. rewrite in_app_iff. split; [|tauto].
    intros [H|H]; [exact H|].
    apply ScopeGateFacts.in_generic in H as [term ->]. discriminate. }
  rewrite !M by reflexivity. rewrite !ScopeGateFacts.in_structural.
  repeat split; try tauto; intros H;
    repeat match goal with
           | H : _ \/ _ |- _ => destruct H
           | H : _ /\ _ |- _ => destruct H
           end; try discriminate; assumption.
Qed.

Lemma scope_gate_passes_iff_long_context :
  let scope :=
    AssignmentScope.mk "Test Assignment" (PyStr.repeat "A" 2001)
      (map Fixtures.req [80; 60; 70]) [Fixtures.req 30] [] in
  QualityGate.time_ratio scope Fixtures.four_hours = Return PyFloat.c1
  /\ exists v,
       QualityGate.validate_scope scope Fixtures.four_hours = Return v
       /\ ValidationResult.passed v = true
       /\ In (BusinessContextQuiteLong 2001) (ValidationResult.warnings v).
Proof.
  intros scope.
  assert (R : QualityGate.time_ratio scope Fixtures.four_hours = Return PyFloat.c1)
    by (vm_compute; reflexivity).
  split; [exact R|].
  destruct (scope_gate_passes_iff scope Fixtures.four_hours PyFloat.c1 R)
    as (v & E & P & L & _).
  exists v. split; [exact E|]. split.
  - apply P. split; [reflexivity|]. split; [reflexivity|].
    split; vm_compute; lia.
  - assert (N : String.length (AssignmentScope.business_context scope) = 2001%nat)
      by (vm_compute; reflexivity).
    rewrite N in L. apply L. lia.
Defined.

Module SubstringFacts.
Import PyStr.

Lemma lower_app (a b : string) : lower (a ++ b) = (lower a ++ lower b)%string.
Proof. induction a as [|c a IH]; simpl; [reflexivity|]. rewrite IH. reflexivity. Qed.

Lemma starts_with_app (p s : string) : starts_with p (p ++ s) = true.
Proof.
  induction p as [|c p IH]; simpl; [reflexivity|].
  rewrite Ascii.eqb_refl. exact IH.
Qed.

Lemma contains_unfold (p s : string) :
  contains p s
  = starts_with p s
    || match s with EmptyString => false | String _ s' => contains p s' end.
Proof. destruct s; reflexivity. Qed.

(** [t in p + t + q] *)
Lemma contains_app (t p q : string) : contains t (p ++ t ++ q) = true.
Proof.
  induction p as [|c p IH].
  - change (contains t (t ++ q) = true).
    rewrite contains_unfold, starts_with_app. reflexivity.
  - change (contains t (String c (p ++ t ++ q)) = true).
    cbn [contains]. rewrite IH. apply orb_true_r.
Qed.

End SubstringFacts.

(** X3. The generic-context check of [validate_scope] looks for the five
    terms in the lower-cased business context, as substrings. It adds at
    most one warning, naming the first term of the list that occurs; and it
    adds one whenever a term occurs anywhere in the context in any letter
    case, also inside a longer word. *)
Theorem generic_context_warning
    (scope : AssignmentScope.t) (time_budget_hours : float) (v : ValidationResult.t) :
  QualityGate.validate_scope scope time_budget_hours = Return v ->
  let context_lower := PyStr.lower (AssignmentScope.business_context scope) in
  (length (List.filter is_generic_warning (ValidationResult.warnings v)) <= 1)%nat
  /\ (forall term,
        In (BusinessContextGeneric term) (ValidationResult.warnings v)
        <-> first_hit (fun t => PyStr.contains t context_lower)
              QualityGate.generic_terms term)
  /\ (forall p t q,
        In (PyStr.lower t) QualityGate.generic_terms ->
        AssignmentScope.business_context scope = (p ++ t ++ q)%string ->
        exists term, In (BusinessContextGeneric term) (ValidationResult.warnings v)).
Proof.
  intros H context_lower.
  rewrite (ScopeGateFacts.validate_scope_warnings _ _ _ H).
  assert (N : forall term,
             ~ In (BusinessContextGeneric term) (structural_warnings scope)).
  { intros term Hin. apply ScopeGateFacts.in_structural in Hin.
    destruct Hin as [[E _]|[[E _]|[E _]]]; discriminate. }
  unfold generic_warning. fold context_lower.
  split; [|split].
  - rewrite List.filter_app, ScopeGateFacts.structural_not_generic.
    destruct (find _ QualityGate.generic_terms); simpl; lia.
  - intros term. rewrite <- ScopeGateFacts.find_first_hit.
    rewrite in_app_iff.
    destruct (find _ QualityGate.generic_terms) as [y|]; simpl; split.
    + intros [Hin|[[= ->]|[]]]; [destruct (N _ Hin)|reflexivity].
    + intros [= ->]. right. left. reflexivity.
    + intros [Hin|[]]. destruct (N _ Hin).
    + discriminate.
  - intros p t q Hin E.
    assert (C : PyStr.contains (PyStr.lower t) context_lower = true).
    { unfold context_lower. rewrite E, !SubstringFacts.lower_app.
      apply SubstringFacts.contains_app. }
    destruct (ScopeGateFacts.find_some_hit
                (fun term => PyStr.contains term context_lower) _ _ Hin C) as [y ->].
    exists y. apply in_or_app. right. left. reflexivity.
Qed.

Lemma generic_context_warning_inside_a_word :
  let scope :=
    AssignmentScope.mk "Timeline service"
      ("Our team runs a large MasToDon instance for a public broadcaster. "
       ++ "Build the moderation queue that the trust and safety staff use daily.")
      (map Fixtures.req [80; 60; 70]) [Fixtures.req 30] [] in
  exists v,
    QualityGate.validate_scope scope Fixtures.four_hours = Return v
    /\ exists term, In (BusinessContextGeneric term) (ValidationResult.warnings v).
Proof.
  intros scope.
  assert (E : exists v, QualityGate.validate_scope scope Fixtures.four_hours = Return v)
    by (eexists; vm_compute; reflexivity).
  destruct E as [v E]. exists v. split; [exact E|].
  apply (proj2 (proj2 (generic_context_warning scope Fixtures.four_hours v E))
           "Our team runs a large Mas" "ToDo"
           ("n instance for a public broadcaster. "
            ++ "Build the moderation queue that the trust and safety staff use daily."
           )%string).
  - vm_compute. tauto.
  - reflexivity.
Defined.

(** ** The warnings of Phase 3 *)

Module ScopeWarningFacts.
Import QualityGate.

Lemma generate_scope_warnings_result (scope : AssignmentScope.t)
    (seniority_level : string) (h : float) (warnings : list message) :
  generate_scope_warnings scope seniority_level h = Return warnings ->
  exists share,
    warnings = balance_warnings scope seniority_level ++ share
    /\ List.Forall (fun m => is_share_warning m = true) share.
Proof.
  unfold generate_scope_warnings, balance_warnings.
  destruct (0 <? total_minutes_of (AssignmentScope.all_requirements scope)).
  - destruct (int_truediv _ _) as [q|e]; [|discriminate].
    cbn [mbind result_bind]. intros [= <-].
    destruct (PyFloat.ltb q PyFloat.c0_5); cbn [append_if].
    + eexists. split; [reflexivity|]. repeat constructor.
    + exists []. split; [symmetry; apply app_nil_r|constructor].
  - intros [= <-]. exists []. split; [symmetry; apply app_nil_r|constructor].
Qed.

Lemma in_balance (scope : AssignmentScope.t) (seniority_level : string) (m : message) :
  In m (balance_warnings scope seniority_level) <->
  (m = ComplexityMayNotMatch seniority_level
   /\ check_seniority_match scope seniority_level = false)
  \/ (m = ManyMustHaveForBudget (length (AssignmentScope.must_have scope))
      /\ (6 < length (AssignmentScope.must_have scope))%nat)
  \/ (m = NoNiceToHave /\ AssignmentScope.nice_to_have scope = []).
Proof.
  unfold balance_warnings.
  rewrite !GateFacts.in_append_if, Nat.ltb_lt, negb_true_iff, Nat.eqb_eq,
    length_zero_iff_nil.
  simpl. tauto.
Qed.

(** Phase 3 returns the verdict and the issues of the gate, and the
    warnings of the gate followed by those of the heuristics. *)
Lemma validate_scope_phase (scope : AssignmentScope.t) (input_data : AssignmentInput.t)
    (v : ScopeValidation.t) :
  AssignmentGenerator._validate_scope scope input_data = Return v ->
  exists r heuristic,
    validate_scope scope (AssignmentInput.time_budget_hours input_data) = Return r
    /\ generate_scope_warnings scope (AssignmentInput.seniority_level input_data)
         (AssignmentInput.time_budget_hours input_data) = Return heuristic
    /\ v = ScopeValidation.mk (ValidationResult.passed r) (ValidationResult.issues r)
             (ValidationResult.warnings r ++ heuristic).
Proof.
  unfold AssignmentGenerator._validate_scope.
  destruct (validate_scope scope _) as [r|e]; [|discriminate].
  cbn [mbind result_bind].
  destruct (generate_scope_warnings scope _ _) as [ws|e]; [|discriminate].
  cbn [mbind result_bind]. intros [= <-]. eauto.
Qed.

End ScopeWarningFacts.

(** X4. The warnings of [_validate_scope] are the warnings of the gate
    followed by the warnings of the heuristics, and the two disagree on what
    many must-haves are: the heuristic warns from 7 must-haves on, the gate
    only from 8 on, so that a scope of exactly 7 must-haves carries the
    warning of the heuristic and not that of the gate. A scope without
    nice-to-haves is warned about, and only such a scope. *)
Theorem must_have_count_warnings
    (scope : AssignmentScope.t) (input_data : AssignmentInput.t)
    (v : ScopeValidation.t) :
  AssignmentGenerator._validate_scope scope input_data = Return v ->
  let count := length (AssignmentScope.must_have scope) in
  (exists r heuristic,
     QualityGate.validate_scope scope (AssignmentInput.time_budget_hours input_data)
     = Return r
     /\ QualityGate.generate_scope_warnings scope
          (AssignmentInput.seniority_level input_data)
          (AssignmentInput.time_budget_hours input_data) = Return heuristic
     /\ ScopeValidation.warnings v = ValidationResult.warnings r ++ heuristic)
  /\ (In (ManyMustHaveForBudget count) (ScopeValidation.warnings v)
      <-> (6 < count)%nat)
  /\ (In (ManyMustHave count) (ScopeValidation.warnings v) <-> (7 < count)%nat)
  /\ (In NoNiceToHave (ScopeValidation.warnings v)
      <-> AssignmentScope.nice_to_have scope = []).
Proof.
  intros H count.
  destruct (ScopeWarningFacts.validate_scope_phase _ _ _ H) as (r & hw & V & G & ->).
  cbn [ScopeValidation.warnings].
  split; [exists r, hw; repeat split; assumption|].
  rewrite (ScopeGateFacts.validate_scope_warnings _ _ _ V).
  destruct (ScopeWarningFacts.generate_scope_warnings_result _ _ _ _ G)
    as (share & -> & S).
  assert (NS : forall m, is_share_warning m = false -> ~ In m share).
  { intros m E Hin. rewrite List.Forall_forall in S. specialize (S m Hin). congruence. }
  assert (NG : forall m, is_generic_warning m = false ->
               ~ In m (generic_warning scope)).
  { intros m E Hin. apply ScopeGateFacts.in_generic in Hin as [term ->]. discriminate. }
  rewrite !in_app_iff, !ScopeGateFacts.in_structural, !ScopeWarningFacts.in_balance.
  fold count.
  pose proof (NS (ManyMustHaveForBudget count) eq_refl).
  pose proof (NS (ManyMustHave count) eq_refl).
  pose proof (NS NoNiceToHave eq_refl).
  pose proof (NG (ManyMustHaveForBudget count) eq_refl).
  pose proof (NG (ManyMustHave count) eq_refl).
  pose proof (NG NoNiceToHave eq_refl).
  repeat split; intros; 
    repeat match goal with
           | H : _ \/ _ |- _ => destruct H
           | H : _ /\ _ |- _ => destruct H
           end; try discriminate; try contradiction; try assumption; try tauto.
Qed.

Lemma must_have_count_warnings_at_seven :
  let scope := Fixtures.scope_of [40; 30; 30; 30; 30; 30; 30] [20] [] in
  exists v,
    AssignmentGenerator._validate_scope scope Demo.input_data = Return v
    /\ In (ManyMustHaveForBudget 7) (ScopeValidation.warnings v)
    /\ ~ In (ManyMustHave 7) (ScopeValidation.warnings v).
Proof.
  intros scope.
  assert (E : exists v,
             AssignmentGenerator._validate_scope scope Demo.input_data = Return v)
    by (eexists; vm_compute; reflexivity).
  destruct E as [v E]. exists v. split; [exact E|].
  destruct (must_have_count_warnings scope Demo.input_data v E) as (_ & A & B & _).
  split.
  - apply A. vm_compute. lia.
  - intros Hin. apply B in Hin. vm_compute in Hin. lia.
Defined.

Module ShareFacts.

Lemma div_eucl_multiple (a k : Z) : 0 < a -> Z.div_eucl (a * k) a = (k, 0).
Proof.
  intros H. pose proof (Z.div_mul k a ltac:(lia)) as Q.
  pose proof (Z.mod_mul k a ltac:(lia)) as R.
  unfold Z.div, Z.modulo in Q, R. rewrite (Z.mul_comm a k).
  destruct (Z.div_eucl (k * a) a) as [q r]. congruence.
Qed.

(** [a / a] is [1.0] for every positive int. *)
Lemma div_int_self (a : Z) : 0 < a -> PyFloat.div_int a a = PyFloat.c1.
Proof.
  intros H. unfold PyFloat.div_int.
  destruct a as [|p|p]; try lia.
  unfold SFdiv_core_binary.
  replace (Zdigits2 (Z.abs (Z.pos p)) + 0 - (Zdigits2 (Z.abs (Z.pos p)) + 0)) with 0
    by lia.
  change (fexp PyFloat.prec PyFloat.emax 0 `min` (0 - 0)) with (-53).
  change (0 - 0 - -53) with 53.
  cbv beta iota zeta.
  change (Z.abs (Z.pos p)) with (Z.pos p).
  rewrite Z.shiftl_mul_pow2 by lia.
  change (IntDef.Z.div_eucl (Z.pos p * 2 ^ 53) (Z.pos p))
    with (Z.div_eucl (Z.pos p * 2 ^ 53) (Z.pos p)).
  rewrite div_eucl_multiple by lia.
  assert (L : new_location (Z.pos p) 0 = loc_Exact).
  { unfold new_location, new_location_even, new_location_odd.
    destruct (IntDef.Z.even (Z.pos p)); reflexivity. }
  rewrite L. vm_compute. reflexivity.
Qed.

End ShareFacts.

(** X5. A scope without nice-to-haves is never warned about the share of
    its must-haves: the share it computes is exactly 1.0, whatever the
    minutes are, so that the heuristics return without raising, with the
    warning about missing nice-to-haves and without the one about the
    share. *)
Theorem no_share_warning_without_nice_to_have
    (scope : AssignmentScope.t) (seniority_level : string) (time_budget_hours : float) :
  AssignmentScope.nice_to_have scope = [] ->
  QualityGate.generate_scope_warnings scope seniority_level time_budget_hours
  = Return (balance_warnings scope seniority_level)
  /\ In NoNiceToHave (balance_warnings scope seniority_level)
  /\ (forall ratio,
        ~ In (MustHaveShareLow ratio) (balance_warnings scope seniority_level))
  /\ (0 < total_minutes_of (AssignmentScope.must_have scope) ->
      int_truediv (total_minutes_of (AssignmentScope.must_have scope))
        (total_minutes_of (AssignmentScope.all_requirements scope))
      = Return PyFloat.c1).
Proof.
  intros N.
  assert (A : total_minutes_of (AssignmentScope.all_requirements scope)
              = total_minutes_of (AssignmentScope.must_have scope)).
  { unfold AssignmentScope.all_requirements. rewrite N, app_nil_r. reflexivity. }
  assert (D : 0 < total_minutes_of (AssignmentScope.must_have scope) ->
              int_truediv (total_minutes_of (AssignmentScope.must_have scope))
                (total_minutes_of (AssignmentScope.must_have scope))
              = Return PyFloat.c1).
  { intros T. unfold int_truediv.
    rewrite (proj2 (Z.eqb_neq _ 0)) by lia.
    rewrite (ShareFacts.div_int_self _ T). reflexivity. }
  split; [|split; [|split]].
  - unfold QualityGate.generate_scope_warnings, balance_warnings. rewrite A.
    destruct (0 <? total_minutes_of (AssignmentScope.must_have scope)) eqn:T;
      [|reflexivity].
    apply Z.ltb_lt in T. rewrite (D T). reflexivity.
  - apply ScopeWarningFacts.in_balance. right. right. split; [reflexivity|exact N].
  - intros ratio H. apply ScopeWarningFacts.in_balance in H.
    destruct H as [[E _]|[[E _]|[E _]]]; discriminate E.
  - rewrite A. exact D.
Qed.

Lemma no_share_warning_without_nice_to_have_demo :
  QualityGate.generate_scope_warnings (Fixtures.scope_of [80; 60; 70] [] []) "junior"
    Fixtures.four_hours
  = Return [NoNiceToHave].
Proof.
  exact (proj1 (no_share_warning_without_nice_to_have
                  (Fixtures.scope_of [80; 60; 70] [] []) "junior"
                  Fixtures.four_hours eq_refl)).
Defined.

(** ** Seniority levels and difficulty *)

Module LevelFacts.
Import QualityGate.

Lemma junior (scope : AssignmentScope.t) :
  check_seniority_match scope "junior" = true <-> in_ranges scope 3 4 120 240.
Proof. apply SeniorityFacts.ranges_test. Qed.

Lemma mid (scope : AssignmentScope.t) :
  check_seniority_match scope "mid" = true <-> in_ranges scope 4 5 180 300.
Proof. apply SeniorityFacts.ranges_test. Qed.

Lemma senior (scope : AssignmentScope.t) :
  check_seniority_match scope "senior" = true <-> in_ranges scope 5 6 240 420.
Proof. apply SeniorityFacts.ranges_test. Qed.

Lemma staff (scope : AssignmentScope.t) :
  check_seniority_match scope "staff" = true <-> in_ranges scope 6 7 360 540.
Proof. apply SeniorityFacts.ranges_test. Qed.

Lemma difficulty_cases (scope : AssignmentScope.t) (input_data : AssignmentInput.t) :
  let total := total_minutes_of (AssignmentScope.all_requirements scope) in
  let count := Z.of_nat (length (AssignmentScope.must_have scope)) in
  (AssignmentGenerator._estimate_difficulty scope input_data = "easy"%string
   /\ total <= 180 /\ count <= 4)
  \/ (AssignmentGenerator._estimate_difficulty scope input_data = "hard"%string
      /\ ~ (total <= 180 /\ count <= 4) /\ (360 <= total \/ 6 <= count))
  \/ (AssignmentGenerator._estimate_difficulty scope input_data = "medium"%string
      /\ ~ (total <= 180 /\ count <= 4) /\ total < 360 /\ count < 6).
Proof.
  intros total count. unfold AssignmentGenerator._estimate_difficulty.
  fold total. fold count.
  destruct (Z.leb_spec total 180), (Z.leb_spec count 4),
    (Z.geb_spec total 360), (Z.geb_spec count 6); simpl;
    first [left; split; [reflexivity|lia]
          |right; left; split; [reflexivity|lia]
          |right; right; split; [reflexivity|lia]].
Qed.

End LevelFacts.

(** X6. How the difficulty estimate and the seniority heuristic compose: a
    scope that matches the staff level is always rated hard; one that
    matches the junior or the mid level is never rated hard; one that
    matches the senior level is never rated easy. The estimate takes one of
    the three values on every scope. *)
Theorem seniority_bounds_difficulty
    (scope : AssignmentScope.t) (input_data : AssignmentInput.t) :
  let difficulty := AssignmentGenerator._estimate_difficulty scope input_data in
  In difficulty ["easy"; "medium"; "hard"]%string
  /\ (QualityGate.check_seniority_match scope "staff" = true ->
      difficulty = "hard"%string)
  /\ (QualityGate.check_seniority_match scope "junior" = true ->
      difficulty <> "hard"%string)
  /\ (QualityGate.check_seniority_match scope "mid" = true ->
      difficulty <> "hard"%string)
  /\ (QualityGate.check_seniority_match scope "senior" = true ->
      difficulty <> "easy"%string).
Proof.
  intros difficulty. unfold difficulty.
  rewrite LevelFacts.junior, LevelFacts.mid, LevelFacts.senior, LevelFacts.staff.
  unfold in_ranges.
  destruct (LevelFacts.difficulty_cases scope input_data)
    as [(-> & C)|[(-> & C)|(-> & C)]];
    (split; [simpl; tauto|]); repeat split; intros; try discriminate;
    try reflexivity; exfalso; lia.
Qed.

Lemma seniority_bounds_difficulty_staff :
  QualityGate.check_seniority_match
    (Fixtures.scope_of [60; 60; 60; 60; 60; 60] [30] []) "staff" = true
  /\ AssignmentGenerator._estimate_difficulty
       (Fixtures.scope_of [60; 60; 60; 60; 60; 60] [30] []) Demo.input_data
     = "hard"%string.
Proof.
  split; [reflexivity|].
  apply (seniority_bounds_difficulty
           (Fixtures.scope_of [60; 60; 60; 60; 60; 60] [30] []) Demo.input_data).
  reflexivity.
Defined.

(** X7. The ranges of the seniority heuristic overlap only between
    neighbouring levels. No scope matches both junior and senior, junior and
    staff, or mid and staff. A scope matches both junior and mid exactly
    when it has 4 must-haves and 180 to 240 minutes; both mid and senior
    exactly with 5 must-haves and 240 to 300 minutes; both senior and staff
    exactly with 6 must-haves and 360 to 420 minutes. A scope with fewer
    than 3 or more than 7 must-haves, or with less than 120 or more than 540
    minutes, matches none of the four levels. *)
Theorem seniority_levels_overlap (scope : AssignmentScope.t) :
  let matches := QualityGate.check_seniority_match scope in
  let count := Z.of_nat (length (AssignmentScope.must_have scope)) in
  let total := total_minutes_of (AssignmentScope.all_requirements scope) in
  ~ (matches "junior"%string = true /\ matches "senior"%string = true)
  /\ ~ (matches "junior"%string = true /\ matches "staff"%string = true)
  /\ ~ (matches "mid"%string = true /\ matches "staff"%string = true)
  /\ (matches "junior"%string = true /\ matches "mid"%string = true
      <-> count = 4 /\ 180 <= total <= 240)
  /\ (matches "mid"%string = true /\ matches "senior"%string = true
      <-> count = 5 /\ 240 <= total <= 300)
  /\ (matches "senior"%string = true /\ matches "staff"%string = true
      <-> count = 6 /\ 360 <= total <= 420)
  /\ (count < 3 \/ 7 < count \/ total < 120 \/ 540 < total ->
      forall level, In level ["junior"; "mid"; "senior"; "staff"]%string ->
                    matches level = false).
Proof.
  intros matches count total. unfold matches.
  rewrite LevelFacts.junior, LevelFacts.mid, LevelFacts.senior, LevelFacts.staff.
  unfold in_ranges. fold count. fold total.
  repeat split; try lia.
  intros H level Hin.
  destruct (QualityGate.check_seniority_match scope level) eqn:M; [|reflexivity].
  exfalso. simpl in Hin.
  destruct Hin as [<-|[<-|[<-|[<-|[]]]]];
    [apply LevelFacts.junior in M|apply LevelFacts.mid in M
    |apply LevelFacts.senior in M|apply LevelFacts.staff in M];
    unfold in_ranges in M; fold count in M; fold total in M; lia.
Qed.

Lemma seniority_levels_overlap_outside :
  QualityGate.check_seniority_match (Fixtures.scope_of [50; 50] [] []) "mid" = false.
Proof.
  apply (seniority_levels_overlap (Fixtures.scope_of [50; 50] [] [])).
  - left. vm_compute. reflexivity.
  - simpl. tauto.
Defined.

(** ** What [TimeBreakdown] accepts *)

(** X8. Model validation of [TimeBreakdown] accepts a document exactly
    when its total and its core implementation minutes are positive and its
    other four minute fields are not negative. Neither the supplied flag nor
    the sum of the categories has a part in it: a breakdown whose categories
    do not add up is accepted and flagged, never refused. Validation is
    idempotent: an accepted model validates to itself. *)
Theorem time_breakdown_accepted_iff (x : TimeBreakdown.t) :
  (returns (TimeBreakdown.validate x) = true <->
     0 < TimeBreakdown.total_minutes x
     /\ 0 <= TimeBreakdown.setup_minutes x
     /\ 0 < TimeBreakdown.core_implementation_minutes x
     /\ 0 <= TimeBreakdown.testing_minutes x
     /\ 0 <= TimeBreakdown.documentation_minutes x
     /\ 0 <= TimeBreakdown.buffer_minutes x)
  /\ (forall flag,
        returns (TimeBreakdown.validate x)
        = returns
            (TimeBreakdown.validate
               (TimeBreakdown.mk (TimeBreakdown.total_minutes x)
                  (TimeBreakdown.setup_minutes x)
                  (TimeBreakdown.core_implementation_minutes x)
                  (TimeBreakdown.testing_minutes x)
                  (TimeBreakdown.documentation_minutes x)
                  (TimeBreakdown.buffer_minutes x) flag)))
  /\ (forall tb,
        TimeBreakdown.validate x = Return tb ->
        TimeBreakdown.validate tb = Return tb).
Proof.
  assert (A : forall y,
             returns (TimeBreakdown.validate y) = true <->
             0 < TimeBreakdown.total_minutes y
             /\ 0 <= TimeBreakdown.setup_minutes y
             /\ 0 < TimeBreakdown.core_implementation_minutes y
             /\ 0 <= TimeBreakdown.testing_minutes y
             /\ 0 <= TimeBreakdown.documentation_minutes y
             /\ 0 <= TimeBreakdown.buffer_minutes y).
  { intros y. split.
    - destruct (TimeBreakdown.validate y) as [tb|e] eqn:E; [|discriminate].
      intros _. apply (TimeBreakdownFacts.validate_accepted y tb E).
    - intros (H1 & H2 & H3 & H4 & H5 & H6).
      rewrite (TimeBreakdownFacts.validate_accepts y H1 H2 H3 H4 H5 H6).
      reflexivity. }
  split; [apply A|]. split.
  - intros flag.
    destruct (returns (TimeBreakdown.validate x)) eqn:R.
    + symmetry. apply A. cbn. apply A. exact R.
    + symmetry. apply not_true_is_false. intros R'. apply A in R'. cbn in R'.
      apply A in R'. congruence.
  - intros tb E.
    destruct (TimeBreakdownFacts.validate_accepted x tb E)
      as (-> & H1 & H2 & H3 & H4 & H5 & H6).
    rewrite TimeBreakdownFacts.validate_accepts by (cbn; assumption).
    reflexivity.
Qed.

Lemma time_breakdown_accepted_iff_off_by_hundred :
  returns (TimeBreakdown.validate (TimeBreakdown.mk 240 20 50 40 20 10 true)) = true
  /\ TimeBreakdown.validate (TimeBreakdown.mk 240 20 50 40 20 10 false)
     = Return (TimeBreakdown.mk 240 20 50 40 20 10 false).
Proof.
  split.
  - apply (proj1 (time_breakdown_accepted_iff
                    (TimeBreakdown.mk 240 20 50 40 20 10 true))).
    cbn. lia.
  - apply (proj2 (proj2 (time_breakdown_accepted_iff
                           (TimeBreakdown.mk 240 20 50 40 20 10 true)))).
    vm_compute. reflexivity.
Defined.

(** ** What the pipeline returns, asks and raises *)

Module ConversionFacts.
Import AssignmentGenerator.

(** A comprehension over a model constructor that checks a bound keeps
    the documents unchanged when all pass, and raises otherwise. *)
Lemma map_result_checked {A : Type} (f : A -> result A) (ok : A -> bool) (l : list A) :
  (forall x, f x = if ok x then Return x else Raise ValidationError) ->
  map_result f l = if forallb ok l then Return l else Raise ValidationError.
Proof.
  intros F. induction l as [|a l IH]; simpl; [reflexivity|].
  rewrite F. destruct (ok a); [|reflexivity].
  cbn [mbind result_bind andb]. rewrite IH.
  destruct (forallb ok l); reflexivity.
Qed.

Lemma requirements_checked (l : list Requirement.t) :
  map_result Requirement.validate l
  = if forallb (fun x => 0 <? Requirement.estimated_time_minutes x) l
    then Return l else Raise ValidationError.
Proof. apply map_result_checked. reflexivity. Qed.

Lemma requirements_converted (l l' : list Requirement.t) :
  map_result Requirement.validate l = Return l' ->
  l' = l /\ valid_minutes l.
Proof.
  rewrite requirements_checked.
  destruct (forallb _ l) eqn:F; [|discriminate].
  intros [= <-]. split; [reflexivity|]. unfold valid_minutes.
  rewrite forallb_forall in F. apply List.Forall_forall.
  intros x Hin. apply Z.ltb_lt, F, Hin.
Qed.

Lemma rubric_items_checked (l : list RubricItem.t) :
  map_result RubricItem.validate l
  = if forallb RubricItem.weight_in_range l then Return l else Raise ValidationError.
Proof. apply map_result_checked. reflexivity. Qed.

(** A rubric the models accept has none of the gate's issues about the
    number of items and the sum of the weights. *)
Lemma accepted_rubric_issues (float_sum : list float -> float)
    (rubric : list RubricItem.t) :
  schema_accepts float_sum rubric = true ->
  rubric_issues float_sum rubric = remaining_rubric_issues rubric.
Proof.
  unfold schema_accepts, rubric_issues, remaining_rubric_issues.
  rewrite !andb_true_iff, negb_true_iff, !Nat.leb_le.
  intros [[[_ Lo] _] ->].
  rewrite (proj2 (Nat.ltb_ge _ _) Lo). reflexivity.
Qed.

Lemma schema_accepts_split (float_sum : list float -> float)
    (rubric : list RubricItem.t) :
  schema_accepts float_sum rubric
  = forallb RubricItem.weight_in_range rubric
    && ((3 <=? length rubric)%nat && (length rubric <=? 7)%nat
        && negb (QualityGate.off_by_more_than_tolerance
                   (QualityGate.weight_sum_of float_sum rubric))).
Proof. unfold schema_accepts. rewrite !andb_assoc. reflexivity. Qed.

Lemma guide_checked (float_sum : list float -> float) (x : EvaluatorGuide.t) :
  EvaluatorGuide.validate float_sum x
  = if (3 <=? length (EvaluatorGuide.scoring_rubric x))%nat
       && (length (EvaluatorGuide.scoring_rubric x) <=? 7)%nat
       && negb (QualityGate.off_by_more_than_tolerance
                  (QualityGate.weight_sum_of float_sum (EvaluatorGuide.scoring_rubric x)))
    then Return x else Raise ValidationError.
Proof.
  unfold EvaluatorGuide.validate, EvaluatorGuide.validate_weights_sum_to_one,
    QualityGate.off_by_more_than_tolerance, QualityGate.weight_sum_of.
  destruct (_ && _); [|reflexivity].
  destruct (PyFloat.ltb _ _); reflexivity.
Qed.

End ConversionFacts.

Module BudgetFacts.

(** The bounds of [AssignmentInput] on the budget. *)
Lemma valid_budget (input_data : AssignmentInput.t) :
  AssignmentInput.validate input_data = Return input_data ->
  PyFloat.leb PyFloat.c2 (AssignmentInput.time_budget_hours input_data) = true
  /\ PyFloat.leb (AssignmentInput.time_budget_hours input_data) PyFloat.c8 = true.
Proof.
  unfold AssignmentInput.validate.
  destruct (PyFloat.leb PyFloat.c2 _); [|rewrite !andb_false_r; discriminate].
  destruct (PyFloat.leb _ PyFloat.c8); [|rewrite !andb_false_r; discriminate].
  split; reflexivity.
Qed.

(** [int(hours)] returns for a budget within the bounds. *)
Lemma int_of_budget (h : float) :
  PyFloat.leb PyFloat.c2 h = true -> PyFloat.leb h PyFloat.c8 = true ->
  exists n, int_of_float h = Return n.
Proof.
  unfold int_of_float.
  destruct h as [sg|sg| |sg m e]; cbn [PyFloat.trunc]; eauto.
  - destruct sg; discriminate.
  - discriminate.
Qed.


Lemma compare_cont_le (a b : positive) :
  match PosDef.Pos.compare_cont Eq a b with Gt => false | _ => true end = true ->
  Zpos a <= Zpos b.
Proof.
  change (PosDef.Pos.compare_cont Eq a b) with (Pos.compare a b).
  destruct (Pos.compare_spec a b); [lia|lia|discriminate].
Qed.

(** The exponent and the mantissa of a budget between 2.0 and 8.0. *)
Lemma mantissa_bounds (m : positive) (e : Z) :
  PyFloat.leb PyFloat.c2 (S754_finite false m e) = true ->
  PyFloat.leb (S754_finite false m e) PyFloat.c8 = true ->
  (e = -51 /\ 4503599627370496 <= Zpos m) \/ e = -50
  \/ (e = -49 /\ Zpos m <= 4503599627370496).
Proof.
  unfold PyFloat.leb, SFleb, PyFloat.c2, PyFloat.c8. cbn [SFcompare].
  destruct (Z.compare_spec (-51) e) as [E1|E1|E1],
    (Z.compare_spec e (-49)) as [E2|E2|E2]; try discriminate; intros Lo Hi.
  - exfalso. clear Lo Hi. lia.
  - apply compare_cont_le in Lo. left. split; [symmetry; exact E1|exact Lo].
  - apply compare_cont_le in Hi. right. right. split; [exact E2|exact Hi].
  - right. left. clear Lo Hi. lia.
Qed.

(** [int(hours)] of a binary64 budget within the bounds is between 2 and
    8. *)
Lemma whole_budget_bounds (h : float) (n : Z) :
  valid_binary PyFloat.prec PyFloat.emax h = true ->
  PyFloat.leb PyFloat.c2 h = true -> PyFloat.leb h PyFloat.c8 = true ->
  int_of_float h = Return n -> 2 <= n <= 8.
Proof.
  destruct h as [sg|sg| |sg m e].
  - intros _ Lo. destruct sg; discriminate Lo.
  - intros _ Lo Hi. destruct sg; discriminate.
  - intros _ Lo. discriminate Lo.
  - destruct sg; [intros _ Lo; discriminate Lo|].
    intros V Lo Hi.
    pose proof (mantissa_bounds m e Lo Hi) as R. clear Lo Hi.
    assert (D : Zdigits2 (Zpos m) = 53).
    { revert V. unfold valid_binary, bounded, canonical_mantissa, fexp, emin,
        PyFloat.prec, PyFloat.emax.
      intros V. apply andb_prop in V as [V _]. apply Z.eqb_eq in V.
      cbn [Zdigits2]. lia. }
    pose proof (RoundingFacts.Zdigits2_spec (Zpos m) eq_refl) as B.
    rewrite D in B. clear D V.
    change (2 ^ (53 - 1)) with 4503599627370496 in B.
    change (2 ^ 53) with 9007199254740992 in B.
    unfold int_of_float, PyFloat.trunc. cbn [cond_Zopp].
    destruct R as [[-> M]|[->|[-> M]]]; intros [= <-];
      rewrite Z.shiftr_div_pow2 by lia.
    + change (2 ^ 51) with 2251799813685248.
      split; [apply Z.div_le_lower_bound; lia|].
      apply Z.lt_succ_r, Z.div_lt_upper_bound; lia.
    + change (2 ^ 50) with 1125899906842624.
      split; [apply Z.div_le_lower_bound; lia|].
      apply Z.lt_succ_r, Z.div_lt_upper_bound; lia.
    + change (2 ^ 49) with 562949953421312.
      split; [apply Z.div_le_lower_bound; lia|].
      apply Z.lt_succ_r, Z.div_lt_upper_bound; lia.
Qed.

(** A float that differs from its own integer part equals no integer. *)
Lemma not_whole (h : float) (whole : Z) :
  int_of_float h = Return whole -> PyFloat.eqb_int h whole = false ->
  forall n, PyFloat.eqb_int h n = false.
Proof.
  unfold int_of_float, PyFloat.trunc, PyFloat.eqb_int.
  destruct h as [sg|sg| |sg m e]; try discriminate.
  - intros [= <-]. discriminate.
  - destruct e as [|p|p]; intros [= <-]; rewrite ?Z.eqb_refl; try discriminate.
    rewrite andb_true_r. intros ->. reflexivity.
Qed.

End BudgetFacts.

Section PipelineCoverage.
Import AssignmentGenerator.

Variable float_sum : list float -> float.
Variable World : Type.
Variable generate_json : request -> World -> result response * World.
Variable uuid4 : World -> string * World.
Variable now : World -> Z * World.

#[local] Existing Instance io_ret.
#[local] Existing Instance io_bind.

Local Abbreviation extract_context := (_extract_context World generate_json).
Local Abbreviation define_scope := (_define_scope World generate_json).
Local Abbreviation generate_rubric := (_generate_rubric float_sum World generate_json).
Local Abbreviation generate_time_breakdown := (_generate_time_breakdown World generate_json).
Local Abbreviation assemble := (_assemble_assignment World uuid4 now).
Local Abbreviation run := (generate float_sum World generate_json uuid4 now).
Local Abbreviation asked := (calls World).

(** Phase 1 returns the context of the answer, and only one that passes
    the context gate. *)
Lemma extract_context_returned (input_data : AssignmentInput.t) (s s1 : state World)
    (context : JobContext.t) :
  extract_context input_data s = (Return context, s1) ->
  ValidationResult.passed (QualityGate.validate_context_extraction context) = true
  /\ exists w,
       generate_json (context_request input_data) (world World s)
       = (Return (ContextJson context), w)
       /\ s1 = mk_state World w (asked s ++ [context_request input_data]).
Proof.
  unfold _extract_context, try_except, mbind, io_bind, client_generate_json, lift, raise.
  fold (context_request input_data).
  destruct (generate_json (context_request input_data) (world World s)) as [[r|e] w].
  - destruct r as [c| | | |raised];
      [destruct (ValidationResult.passed (QualityGate.validate_context_extraction c))
         eqn:P
      | | | |destruct raised]; cbn; try discriminate.
    intros [= <- <-]. split; [exact P|]. exists w. split; reflexivity.
  - destruct e; cbn; discriminate.
Qed.

(** Phase 2 returns the scope of the answer, and only one whose
    requirements have positive minutes. *)
Lemma define_scope_returned (context : JobContext.t) (input_data : AssignmentInput.t)
    (s s2 : state World) (scope : AssignmentScope.t) :
  define_scope context input_data s = (Return scope, s2) ->
  valid_minutes (AssignmentScope.must_have scope)
  /\ valid_minutes (AssignmentScope.nice_to_have scope)
  /\ exists w,
       generate_json (scope_request context input_data) (world World s)
       = (Return
            (ScopeJson (AssignmentScope.title scope)
               (AssignmentScope.business_context scope)
               (AssignmentScope.must_have scope)
               (AssignmentScope.nice_to_have scope)
               (AssignmentScope.constraints scope)), w)
       /\ s2 = mk_state World w (asked s ++ [scope_request context input_data]).
Proof.
  unfold _define_scope, try_except, mbind, io_bind, client_generate_json, lift, raise.
  fold (scope_request context input_data).
  destruct (generate_json (scope_request context input_data) (world World s))
    as [[r|e] w]; [|cbn; discriminate].
  destruct r as [|title business_context must nice constraints| | |raised];
    try (cbn; discriminate).
  destruct (map_result Requirement.validate must) as [must'|e1] eqn:M;
    [|cbn; discriminate].
  destruct (map_result Requirement.validate nice) as [nice'|e2] eqn:N;
    [|cbn; discriminate].
  apply ConversionFacts.requirements_converted in M as [-> VM].
  apply ConversionFacts.requirements_converted in N as [-> VN].
  cbn. intros [= <- <-]. cbn.
  split; [exact VM|]. split; [exact VN|]. exists w. split; reflexivity.
Qed.

(** Phase 4a on an answer of the rubric shape: the models refuse it, or
    the gate raises with the issues the models leave possible, or the guide
    of the answer is returned unchanged. *)
Lemma generate_rubric_on_answer (scope : AssignmentScope.t)
    (input_data : AssignmentInput.t) (s : state World) (guide : EvaluatorGuide.t)
    (w : World) :
  generate_json (rubric_request scope input_data) (world World s)
  = (Return (RubricJson guide), w) ->
  generate_rubric scope input_data s
  = (if schema_accepts float_sum (EvaluatorGuide.scoring_rubric guide)
     then
       match remaining_rubric_issues (EvaluatorGuide.scoring_rubric guide) with
       | [] => Return guide
       | issues => Raise (RubricGenerationError (ValidationFailed issues))
       end
     else Raise (RubricGenerationError (Failed GenerateRubric ValidationError)),
     mk_state World w (asked s ++ [rubric_request scope input_data])).
Proof.
  intros G.
  unfold _generate_rubric, try_except, mbind, io_bind, client_generate_json, lift, raise.
  fold (rubric_request scope input_data). rewrite G.
  rewrite ConversionFacts.rubric_items_checked.
  destruct guide as [rubric pitfalls red green notes].
  cbn [EvaluatorGuide.scoring_rubric EvaluatorGuide.common_pitfalls
       EvaluatorGuide.red_flags EvaluatorGuide.green_flags
       EvaluatorGuide.calibration_notes].
  destruct (schema_accepts float_sum rubric) eqn:A.
  - pose proof (ConversionFacts.accepted_rubric_issues float_sum rubric A) as I.
    rewrite ConversionFacts.schema_accepts_split in A.
    apply andb_prop in A as [-> A].
    cbn [result_bind]. rewrite ConversionFacts.guide_checked.
    cbn [EvaluatorGuide.scoring_rubric]. rewrite A.
    rewrite RubricFacts.validate_rubric_unfold.
    cbn [ValidationResult.passed ValidationResult.issues EvaluatorGuide.scoring_rubric].
    rewrite I. destruct (remaining_rubric_issues rubric); reflexivity.
  - rewrite ConversionFacts.schema_accepts_split in A.
    destruct (forallb RubricItem.weight_in_range rubric); [|reflexivity].
    cbn [result_bind]. rewrite ConversionFacts.guide_checked.
    cbn [EvaluatorGuide.scoring_rubric]. cbn [andb] in A. rewrite A. reflexivity.
Qed.


(** Phase 4a returns the guide of the answer, and only one that the
    models accept and the gate finds no issue in. *)
Lemma generate_rubric_returned (scope : AssignmentScope.t)
    (input_data : AssignmentInput.t) (s s4 : state World) (guide : EvaluatorGuide.t) :
  generate_rubric scope input_data s = (Return guide, s4) ->
  schema_accepts float_sum (EvaluatorGuide.scoring_rubric guide) = true
  /\ remaining_rubric_issues (EvaluatorGuide.scoring_rubric guide) = []
  /\ exists w,
       generate_json (rubric_request scope input_data) (world World s)
       = (Return (RubricJson guide), w)
       /\ s4 = mk_state World w (asked s ++ [rubric_request scope input_data]).
Proof.
  destruct (generate_json (rubric_request scope input_data) (world World s))
    as [[r|e] w] eqn:G.
  - destruct r as [| |answer| |raised];
      try (unfold _generate_rubric, try_except, mbind, io_bind, client_generate_json,
             lift, raise;
           fold (rubric_request scope input_data); rewrite G;
           try destruct raised; cbn; discriminate).
    rewrite (generate_rubric_on_answer scope input_data s answer w G).
    destruct (schema_accepts float_sum (EvaluatorGuide.scoring_rubric answer)) eqn:A;
      [|discriminate].
    destruct (remaining_rubric_issues (EvaluatorGuide.scoring_rubric answer)) eqn:I;
      [|discriminate].
    intros [= <- <-]. split; [exact A|]. split; [exact I|].
    exists w. split; reflexivity.
  - unfold _generate_rubric, try_except, mbind, io_bind, client_generate_json,
      lift, raise.
    fold (rubric_request scope input_data). rewrite G.
    destruct e; cbn; discriminate.
Qed.


Lemma generate_time_breakdown_returned (scope : AssignmentScope.t)
    (input_data : AssignmentInput.t) (s s5 : state World) (tb : TimeBreakdown.t) :
  generate_time_breakdown scope input_data s = (Return tb, s5) ->
  exists total_minutes raw w,
    generate_json (time_breakdown_request scope input_data total_minutes)
      (world World s)
    = (Return (TimeBreakdownJson raw), w)
    /\ TimeBreakdown.validate raw = Return tb
    /\ s5 = mk_state World w
              (asked s ++ [time_breakdown_request scope input_data total_minutes]).
Proof.
  unfold _generate_time_breakdown, try_except, mbind, io_bind, client_generate_json,
    lift, raise.
  destruct (int_of_float _) as [total|e0]; [|discriminate].
  fold (time_breakdown_request scope input_data total).
  destruct (generate_json (time_breakdown_request scope input_data total)
              (world World s)) as [[r|e1] w] eqn:G; [|discriminate].
  destruct r as [| | |raw|raised]; try discriminate.
  destruct (TimeBreakdown.validate raw) as [tb'|e2] eqn:V; [|discriminate].
  intros [= <- <-]. exists total, raw, w.
  split; [exact G|]. split; [exact V|reflexivity].
Qed.

Lemma estimate_difficulty_literal (scope : AssignmentScope.t)
    (input_data : AssignmentInput.t) :
  bool_decide
    (_estimate_difficulty scope input_data ∈ ["easy"; "medium"; "hard"]%string) = true.
Proof.
  unfold _estimate_difficulty.
  destruct (_ && _); [reflexivity|]. destruct (_ || _); reflexivity.
Qed.


(** What assembly returns, and the bounds it enforces on the way. *)
Lemma assemble_returned (context : JobContext.t) (scope : AssignmentScope.t)
    (rubric : EvaluatorGuide.t) (tb : TimeBreakdown.t) (validation : ScopeValidation.t)
    (input_data : AssignmentInput.t) (s s' : state World) (a : GeneratedAssignment.t) :
  assemble context scope rubric tb validation input_data s = (Return a, s') ->
  (3 <= length (AssignmentScope.must_have scope) <= 7)%nat
  /\ (100 <= String.length (AssignmentScope.business_context scope) <= 2000)%nat
  /\ exists time_estimate assignment_id generated_at,
       a = GeneratedAssignment.mk
             (CandidateBrief.mk (AssignmentScope.title scope)
                (AssignmentScope.business_context scope)
                (Requirements.mk (AssignmentScope.must_have scope)
                   (AssignmentScope.nice_to_have scope)
                   (AssignmentScope.constraints scope))
                (_build_submission_guidelines input_data)
                (map RubricItem.area (EvaluatorGuide.scoring_rubric rubric))
                time_estimate)
             rubric tb assignment_id generated_at
             (_estimate_difficulty scope input_data)
             (ScopeValidation.warnings validation).
Proof.
  unfold _assemble_assignment, mbind, io_bind, lift.
  unfold Requirements.validate at 1. cbn [Requirements.must_have].
  destruct (_ && _) eqn:R; [|discriminate].
  destruct (int_of_float _) as [whole|]; [|discriminate].
  unfold CandidateBrief.validate at 1. cbn [CandidateBrief.business_context].
  destruct ((100 <=? _)%nat && _) eqn:B; [|discriminate].
  destruct (uuid4 _) as [id w1]. destruct (now _) as [t w2].
  unfold GeneratedAssignment.validate. cbn [GeneratedAssignment.estimated_difficulty].
  rewrite estimate_difficulty_literal.
  intros [= <- <-].
  apply andb_prop in R as [R1 R2]. apply andb_prop in B as [B1 B2].
  apply Nat.leb_le in R1, R2, B1, B2.
  split; [lia|]. split; [lia|]. eauto.
Qed.

(** The time estimate of an assembled brief. *)
Lemma assemble_time_estimate (context : JobContext.t) (scope : AssignmentScope.t)
    (rubric : EvaluatorGuide.t) (tb : TimeBreakdown.t) (validation : ScopeValidation.t)
    (input_data : AssignmentInput.t) (s s' : state World) (a : GeneratedAssignment.t) :
  assemble context scope rubric tb validation input_data s = (Return a, s') ->
  exists whole,
    int_of_float (AssignmentInput.time_budget_hours input_data) = Return whole
    /\ CandidateBrief.time_estimate (GeneratedAssignment.candidate_brief a)
       = if PyFloat.eqb_int (AssignmentInput.time_budget_hours input_data) whole
         then WholeHours whole
         else OneDecimalHours (AssignmentInput.time_budget_hours input_data).
Proof.
  unfold _assemble_assignment, mbind, io_bind, lift.
  destruct (Requirements.validate _); [|discriminate].
  destruct (int_of_float _) as [whole|]; [|discriminate].
  unfold CandidateBrief.validate at 1. cbn [CandidateBrief.business_context].
  destruct ((100 <=? _)%nat && _); [|discriminate].
  destruct (uuid4 _) as [id w1]. destruct (now _) as [t w2].
  unfold GeneratedAssignment.validate. cbn [GeneratedAssignment.estimated_difficulty].
  rewrite estimate_difficulty_literal.
  intros [= <- <-]. exists whole. split; reflexivity.
Qed.

(** What assembly raises: [ValidationError] for a scope outside the bounds
    of the candidate brief, or what [int] raises on the budget. *)
Lemma assemble_raises (context : JobContext.t) (scope : AssignmentScope.t)
    (rubric : EvaluatorGuide.t) (tb : TimeBreakdown.t) (validation : ScopeValidation.t)
    (input_data : AssignmentInput.t) (s : state World) (e : exn) :
  fst (assemble context scope rubric tb validation input_data s) = Raise e ->
  (e = ValidationError
   /\ ((length (AssignmentScope.must_have scope) < 3)%nat
       \/ (7 < length (AssignmentScope.must_have scope))%nat
       \/ (String.length (AssignmentScope.business_context scope) < 100)%nat
       \/ (2000 < String.length (AssignmentScope.business_context scope))%nat))
  \/ int_of_float (AssignmentInput.time_budget_hours input_data) = Raise e.
Proof.
  unfold _assemble_assignment, mbind, io_bind, lift.
  unfold Requirements.validate at 1. cbn [Requirements.must_have].
  destruct (_ && _) eqn:R.
  - destruct (int_of_float _) as [whole|e0]; [|cbn; intros [= <-]; right; reflexivity].
    unfold CandidateBrief.validate at 1. cbn [CandidateBrief.business_context].
    destruct ((100 <=? _)%nat && _) eqn:B.
    + destruct (uuid4 _) as [id w1]. destruct (now _) as [t w2].
      unfold GeneratedAssignment.validate.
      cbn [GeneratedAssignment.estimated_difficulty].
      rewrite estimate_difficulty_literal. discriminate.
    + cbn. intros [= <-]. left. split; [reflexivity|].
      apply andb_false_iff in B as [B|B]; apply Nat.leb_gt in B; lia.
  - cbn. intros [= <-]. left. split; [reflexivity|].
    apply andb_false_iff in R as [R|R]; apply Nat.leb_gt in R; lia.
Qed.

(** A run that returns went through every phase, each of which
    returned. *)
Lemma generate_returned (input_data : AssignmentInput.t) (s s' : state World)
    (a : GeneratedAssignment.t) :
  run input_data s = (Return a, s') ->
  exists context scope v rubric tb s1 s2 s4 s5,
    extract_context input_data s = (Return context, s1)
    /\ define_scope context input_data s1 = (Return scope, s2)
    /\ _validate_scope scope input_data = Return v
    /\ ScopeValidation.passed v = true
    /\ generate_rubric scope input_data s2 = (Return rubric, s4)
    /\ generate_time_breakdown scope input_data s4 = (Return tb, s5)
    /\ assemble context scope rubric tb v input_data s5 = (Return a, s').
Proof.
  unfold generate. intros H.
  apply bind_returned in H as (context & s1 & H1 & H).
  apply bind_returned in H as (scope & s2 & H2 & H).
  apply bind_returned in H as (v & s3 & H3 & H).
  unfold lift in H3. injection H3 as H3 <-.
  destruct (ScopeValidation.passed v) eqn:P; [|discriminate]. cbn [negb] in H.
  apply bind_returned in H as (rubric & s4 & H4 & H).
  apply bind_returned in H as (tb & s5 & H5 & H).
  exists context, scope, v, rubric, tb, s1, s2, s4, s5. repeat split; assumption.
Qed.


(** X10. Phase 2 on a scope document. The phase checks the minutes of the
    requirements and nothing else: it returns the scope of the document,
    field by field, when every must-have and nice-to-have has positive
    minutes, whatever the title, the business context and the number of
    requirements are, and it raises the generic [GenerationError] around the
    [ValidationError] of [Requirement] otherwise. *)
Theorem scope_phase_outcomes
    (context : JobContext.t) (input_data : AssignmentInput.t) (s : state World)
    (title business_context : string) (must nice : list Requirement.t)
    (constraints : list string) (w : World) :
  generate_json (scope_request context input_data) (world World s)
  = (Return (ScopeJson title business_context must nice constraints), w) ->
  let positive := fun req => 0 <? Requirement.estimated_time_minutes req in
  define_scope context input_data s
  = (if forallb positive must && forallb positive nice
     then Return (AssignmentScope.mk title business_context must nice constraints)
     else Raise (GenerationError (Failed DefineScope ValidationError)),
     mk_state World w (asked s ++ [scope_request context input_data])).
Proof using Type.
  intros G positive.
  unfold _define_scope, try_except, mbind, io_bind, client_generate_json, lift, raise.
  fold (scope_request context input_data). rewrite G.
  rewrite !ConversionFacts.requirements_checked. fold positive.
  destruct (forallb positive must); [|reflexivity].
  cbn [result_bind andb].
  destruct (forallb positive nice); reflexivity.
Qed.

(** X11. Phase 4a on a rubric document. When [RubricItem] or
    [EvaluatorGuide] refuses the document, that is a weight outside
    [0.0, 1.0], fewer than 3 or more than 7 items, or weights that sum to
    more than 0.01 off 1.0, the phase raises [RubricGenerationError] around
    the [ValidationError], and the rubric gate is not reached. Otherwise the
    gate can only object to weights of zero and to blank scoring guides: the
    phase returns the guide of the document unchanged when there are none,
    and raises [RubricGenerationError] with exactly these issues when there
    are some. So no issue about the number of items or the sum of the
    weights is ever reported by the phase. *)
Theorem rubric_phase_outcomes
    (scope : AssignmentScope.t) (input_data : AssignmentInput.t) (s : state World)
    (guide : EvaluatorGuide.t) (w : World) :
  generate_json (rubric_request scope input_data) (world World s)
  = (Return (RubricJson guide), w) ->
  let rubric := EvaluatorGuide.scoring_rubric guide in
  let outcome := fst (generate_rubric scope input_data s) in
  (schema_accepts float_sum rubric = false ->
   outcome = Raise (RubricGenerationError (Failed GenerateRubric ValidationError)))
  /\ (schema_accepts float_sum rubric = true ->
      remaining_rubric_issues rubric = [] ->
      outcome = Return guide)
  /\ (schema_accepts float_sum rubric = true ->
      remaining_rubric_issues rubric <> [] ->
      outcome
      = Raise (RubricGenerationError (ValidationFailed (remaining_rubric_issues rubric))))
  /\ (forall issues,
        outcome = Raise (RubricGenerationError (ValidationFailed issues)) ->
        issues <> []
        /\ List.Forall (fun m => is_remaining_issue m = true) issues).
Proof using Type.
  intros G rubric outcome. unfold outcome.
  rewrite (generate_rubric_on_answer scope input_data s guide w G).
  cbn [fst]. fold rubric.
  split; [intros ->; reflexivity|].
  split; [intros -> ->; reflexivity|].
  split.
  - intros -> N. destruct (remaining_rubric_issues rubric); [congruence|reflexivity].
  - intros issues.
    destruct (schema_accepts float_sum rubric) eqn:A; [|discriminate].
    destruct (remaining_rubric_issues rubric) as [|m l] eqn:I; [discriminate|].
    intros [= <-]. split; [discriminate|].
    rewrite <- I. unfold remaining_rubric_issues.
    apply andb_prop in A as [A _]. apply andb_prop in A as [A _].
    apply andb_prop in A as [A _]. rewrite forallb_forall in A.
    apply List.Forall_app. split; apply List.Forall_forall; intros x Hx;
      apply in_map_iff in Hx as (item & <- & Hin);
      apply filter_In in Hin as [Hin T]; [|reflexivity].
    specialize (A item Hin). unfold RubricItem.weight_in_range in A.
    apply andb_prop in A as [A _]. unfold nonpositive in T.
    cbn [is_remaining_issue]. revert A T.
    destruct (RubricItem.weight item) as [sg|sg| |sg m' e'];
      try destruct sg; cbv; congruence.
Qed.

(** X12. Every assignment [generate] returns carries a brief within the
    bounds of the quality gate and of the models: 3 to 7 must-haves, a
    business context of 100 to 2000 characters, requirements of positive
    minutes, and a total within [0.75, 1.25] of the budget in minutes. Its
    evaluation criteria are the areas of its rubric in order, its difficulty
    is the estimate for its scope, and its scope warnings are the warnings
    of a validation of its scope that passed without issues. *)
Theorem generated_brief_invariants
    (input_data : AssignmentInput.t) (s s' : state World) (a : GeneratedAssignment.t) :
  run input_data s = (Return a, s') ->
  let brief := GeneratedAssignment.candidate_brief a in
  let scope := scope_of_brief brief in
  (3 <= length (AssignmentScope.must_have scope) <= 7)%nat
  /\ (100 <= String.length (AssignmentScope.business_context scope) <= 2000)%nat
  /\ valid_minutes (AssignmentScope.must_have scope)
  /\ valid_minutes (AssignmentScope.nice_to_have scope)
  /\ (exists ratio,
        QualityGate.time_ratio scope (AssignmentInput.time_budget_hours input_data)
        = Return ratio
        /\ PyFloat.leb PyFloat.c0_75 ratio = true
        /\ PyFloat.leb ratio PyFloat.c1_25 = true)
  /\ CandidateBrief.evaluation_criteria brief
     = map RubricItem.area
         (EvaluatorGuide.scoring_rubric (GeneratedAssignment.evaluator_guide a))
  /\ CandidateBrief.submission_guidelines brief
     = _build_submission_guidelines input_data
  /\ GeneratedAssignment.estimated_difficulty a = _estimate_difficulty scope input_data
  /\ exists v,
       _validate_scope scope input_data = Return v
       /\ ScopeValidation.passed v = true
       /\ ScopeValidation.issues v = []
       /\ GeneratedAssignment.scope_warnings a = ScopeValidation.warnings v.
Proof.
  intros H brief scope0.
  destruct (generate_returned _ _ _ _ H)
    as (context & scope & v & rubric & tb & s1 & s2 & s4 & s5
        & H1 & H2 & H3 & P & H4 & H5 & H6).
  destruct (define_scope_returned _ _ _ _ _ H2) as (VM & VN & _).
  destruct (assemble_returned _ _ _ _ _ _ _ _ _ H6) as (C & L & te & id & t & ->).
  assert (E : scope0 = scope) by (destruct scope; reflexivity).
  unfold brief. cbn [GeneratedAssignment.candidate_brief
                     GeneratedAssignment.evaluator_guide
                     GeneratedAssignment.estimated_difficulty
                     GeneratedAssignment.scope_warnings
                     CandidateBrief.evaluation_criteria
                     CandidateBrief.submission_guidelines].
  rewrite E. clear E scope0 brief.
  destruct (ScopeWarningFacts.validate_scope_phase _ _ _ H3)
    as (r & hw & V & G & Ev).
  destruct (GateFacts.validate_scope_ratio _ _ _ V) as [ratio R].
  assert (Pr : ValidationResult.passed r = true) by (subst v; exact P).
  assert (I : ValidationResult.issues r = [])
    by (apply (GateFacts.validate_scope_passed _ _ _ V), Pr).
  split; [exact C|]. split; [exact L|]. split; [exact VM|]. split; [exact VN|].
  split.
  { exists ratio. split; [exact R|].
    destruct (GateFacts.validate_scope_unfold _ _ _ R) as [ws U].
    rewrite U in V. apply (f_equal (fun m => match m with
                                             | Return x => ValidationResult.issues x
                                             | Raise _ => []
                                             end)) in V.
    cbn [ValidationResult.issues] in V. rewrite I in V.
    unfold scope_issues in V.
    apply GateFacts.append_if_nil in V as [_ V].
    apply GateFacts.append_if_nil in V as [_ V].
    apply GateFacts.append_if_nil in V as [V _].
    apply negb_false_iff, andb_prop in V. exact V. }
  split; [reflexivity|]. split; [reflexivity|]. split; [reflexivity|].
  exists v. split; [exact H3|]. split; [exact P|].
  split; [subst v; exact I|reflexivity].
Qed.

(** X13. Every assignment [generate] returns carries an evaluator guide the
    models and the rubric gate accept: 3 to 7 items, weights greater than 0
    and at most 1.0 whose sum is within 0.01 of 1.0, and no blank scoring
    guide; and a time breakdown whose total and core implementation minutes
    are positive, whose other categories are not negative and whose flag
    tells whether the categories sum to the total within 5 minutes. *)
Theorem generated_guide_invariants
    (input_data : AssignmentInput.t) (s s' : state World) (a : GeneratedAssignment.t) :
  run input_data s = (Return a, s') ->
  let rubric := EvaluatorGuide.scoring_rubric (GeneratedAssignment.evaluator_guide a) in
  let tb := GeneratedAssignment.time_breakdown a in
  (3 <= length rubric <= 7)%nat
  /\ QualityGate.off_by_more_than_tolerance (QualityGate.weight_sum_of float_sum rubric)
     = false
  /\ List.Forall
       (fun item =>
          PyFloat.ltb PyFloat.c0 (RubricItem.weight item) = true
          /\ PyFloat.leb (RubricItem.weight item) PyFloat.c1 = true
          /\ PyStr.blank (RubricItem.scoring_guide item) = false)
       rubric
  /\ ValidationResult.passed (QualityGate.validate_rubric float_sum rubric) = true
  /\ 0 < TimeBreakdown.total_minutes tb
  /\ 0 <= TimeBreakdown.setup_minutes tb
  /\ 0 < TimeBreakdown.core_implementation_minutes tb
  /\ 0 <= TimeBreakdown.testing_minutes tb
  /\ 0 <= TimeBreakdown.documentation_minutes tb
  /\ 0 <= TimeBreakdown.buffer_minutes tb
  /\ TimeBreakdown.breakdown_valid tb
     = (Z.abs (TimeBreakdown.total_minutes tb - TimeBreakdown.category_sum tb) <? 5).
Proof.
  intros H rubric0 tb0.
  destruct (generate_returned _ _ _ _ H)
    as (context & scope & v & rubric & tb & s1 & s2 & s4 & s5
        & H1 & H2 & H3 & P & H4 & H5 & H6).
  destruct (assemble_returned _ _ _ _ _ _ _ _ _ H6) as (_ & _ & te & id & t & ->).
  unfold rubric0, tb0.
  cbn [GeneratedAssignment.evaluator_guide GeneratedAssignment.time_breakdown].
  clear rubric0 tb0.
  destruct (generate_rubric_returned _ _ _ _ _ H4) as (A & I & _).
  destruct (generate_time_breakdown_returned _ _ _ _ _ H5) as (total & raw & w & _ & V & _).
  pose proof (ConversionFacts.accepted_rubric_issues float_sum _ A) as RI.
  rewrite I in RI.
  unfold schema_accepts in A.
  apply andb_prop in A as [A Sum]. apply andb_prop in A as [A Hi].
  apply andb_prop in A as [Range Lo].
  apply Nat.leb_le in Lo, Hi. apply negb_true_iff in Sum.
  rewrite forallb_forall in Range.
  unfold remaining_rubric_issues in I. apply app_nil in I as [IW IG].
  apply RubricFacts.map_filter_nil_iff in IW, IG.
  rewrite List.Forall_forall in IW, IG.
  split; [lia|]. split; [exact Sum|]. split.
  { apply List.Forall_forall. intros item Hin.
    specialize (Range item Hin). specialize (IW item Hin). specialize (IG item Hin).
    unfold RubricItem.weight_in_range in Range. apply andb_prop in Range as [R0 R1].
    split; [|split; [exact R1|exact IG]].
    rewrite (FloatFacts.positive_iff_not_nonpositive _ (FloatFacts.leb_not_nan _ _ R0)).
    unfold nonpositive in IW. rewrite IW. reflexivity. }
  split.
  { rewrite RubricFacts.validate_rubric_unfold. cbn [ValidationResult.passed].
    rewrite RI. reflexivity. }
  destruct (TimeBreakdownFacts.validate_accepted raw tb V)
    as (-> & B1 & B2 & B3 & B4 & B5 & B6).
  unfold TimeBreakdown.category_sum. cbn. repeat split; assumption.
Qed.


(** Where a run that raises raised. *)
Lemma generate_raised (input_data : AssignmentInput.t) (s : state World) (e : exn) :
  fst (run input_data s) = Raise e ->
  class_of e = ClsContextExtractionError
  \/ (exists cause, e = GenerationError (Failed DefineScope cause))
  \/ (exists scope,
        valid_minutes (AssignmentScope.must_have scope)
        /\ valid_minutes (AssignmentScope.nice_to_have scope)
        /\ _validate_scope scope input_data = Raise e)
  \/ (exists issues, e = ScopeValidationError (ValidationFailed issues) /\ issues <> [])
  \/ class_of e = ClsRubricGenerationError
  \/ (exists cause, e = GenerationError (Failed GenerateTimeBreakdown cause))
  \/ (exists scope,
        e = ValidationError
        /\ ((7 < length (AssignmentScope.must_have scope))%nat
            \/ (2000 < String.length (AssignmentScope.business_context scope))%nat))
  \/ int_of_float (AssignmentInput.time_budget_hours input_data) = Raise e.
Proof.
  unfold generate, mbind, io_bind.
  destruct (extract_context_spec World generate_json input_data s) as (w1 & _ & R1).
  destruct (extract_context input_data s) as [[context|e1] s1].
  2:{ cbn [fst]. intros [= <-]. left. apply R1. reflexivity. }
  clear R1.
  destruct (define_scope_spec World generate_json context input_data s1)
    as (w2 & _ & R2).
  destruct (define_scope context input_data s1) as [[scope|e2] s2] eqn:H2.
  2:{ cbn [fst]. intros [= <-]. right. left. apply R2. reflexivity. }
  clear R2. destruct (define_scope_returned _ _ _ _ _ H2) as (VM & VN & _).
  unfold lift.
  destruct (_validate_scope scope input_data) as [v|e3] eqn:H3.
  2:{ cbn [fst]. intros [= <-]. right. right. left. exists scope. auto. }
  destruct (ScopeWarningFacts.validate_scope_phase _ _ _ H3)
    as (r & hw & V & _ & Ev).
  destruct (ScopeValidation.passed v) eqn:P; cbn [negb].
  2:{ unfold raise. cbn [fst]. intros [= <-]. right. right. right. left.
      eexists. split; [reflexivity|].
      subst v. cbn [ScopeValidation.passed ScopeValidation.issues] in *.
      intros I. apply (GateFacts.validate_scope_passed _ _ _ V) in I. congruence. }
  pose proof (generate_rubric_spec float_sum World generate_json scope input_data s2)
    as R4.
  destruct (generate_rubric scope input_data s2) as [[rubric|e4] s4].
  2:{ cbn [fst]. intros [= <-]. do 4 right. left. apply R4. reflexivity. }
  clear R4.
  destruct (generate_time_breakdown_spec World generate_json scope input_data s4)
    as [R5 _].
  destruct (generate_time_breakdown scope input_data s4) as [[tb|e5] s5].
  2:{ cbn [fst]. intros [= <-]. do 5 right. left. apply R5. reflexivity. }
  clear R5. intros H6.
  apply assemble_raises in H6 as [[-> B]|H6]; [|do 7 right; exact H6].
  do 6 right. left. exists scope. split; [reflexivity|].
  assert (I : ValidationResult.issues r = []).
  { apply (GateFacts.validate_scope_passed _ _ _ V). subst v. exact P. }
  destruct (GateFacts.validate_scope_ratio _ _ _ V) as [q Q].
  destruct (GateFacts.validate_scope_unfold _ _ _ Q) as [ws U].
  rewrite U in V.
  apply (f_equal (fun m => match m with
                           | Return x => ValidationResult.issues x
                           | Raise _ => []
                           end)) in V.
  cbn [ValidationResult.issues] in V. rewrite I in V. unfold scope_issues in V.
  apply GateFacts.append_if_nil in V as [C V].
  apply GateFacts.append_if_nil in V as [L _].
  apply Nat.ltb_ge in C, L. lia.
Qed.

(** No error of the client and no bare [KeyError] or [TypeError] leaves
    [generate]. *)
Lemma generate_raised_class (input_data : AssignmentInput.t) (s : state World)
    (e : exn) :
  fst (run input_data s) = Raise e ->
  ~ In (class_of e) [ClsRateLimitError; ClsGeminiAPIError; ClsKeyError; ClsTypeError].
Proof.
  intros H. apply generate_raised in H.
  destruct H as [H|[[c ->]|[(scope & _ & _ & H)|[(i & -> & _)|[H|[[c ->]|[(sc & -> & _)|H]]]]]]];
    cbn [class_of In]; try (rewrite H; cbn [In]); try (intuition discriminate).
  - revert H. unfold _validate_scope.
    destruct (QualityGate.validate_scope scope _) as [r|e'] eqn:V.
    + cbn [mbind result_bind].
      unfold QualityGate.generate_scope_warnings.
      destruct (0 <? _); [|discriminate].
      unfold int_truediv. destruct (_ =? 0); [intros [= <-]; intuition discriminate|].
      destruct (PyFloat.is_infinity _); [intros [= <-]; intuition discriminate|].
      cbn [mbind result_bind]. discriminate.
    + cbn [mbind result_bind]. intros [= <-]. revert V.
      unfold QualityGate.validate_scope, int_truediv_float.
      destruct (PyFloat.of_int _); [|intros [= <-]; intuition discriminate].
      destruct (PyFloat.is_zero _); [intros [= <-]; intuition discriminate|].
      discriminate.
  - revert H. unfold int_of_float. destruct (PyFloat.trunc _); [discriminate|].
    destruct (PyFloat.is_nan _); intros [= <-]; intuition discriminate.
Qed.


(** X16. The scope gate lets through what assembly refuses. When a scope
    with more than 7 must-haves, or with a business context of more than
    2000 characters, passes Phase 3, which only warns about either, and
    Phase 4 succeeds, then [generate] raises a bare [ValidationError] from
    the construction of the candidate brief, after all four calls to the
    capability have been made. *)
Theorem oversized_scope_fails_at_assembly
    (input_data : AssignmentInput.t) (s s1 s2 s4 s5 : state World)
    (context : JobContext.t) (scope : AssignmentScope.t) (v : ScopeValidation.t)
    (rubric : EvaluatorGuide.t) (tb : TimeBreakdown.t) :
  AssignmentInput.validate input_data = Return input_data ->
  extract_context input_data s = (Return context, s1) ->
  define_scope context input_data s1 = (Return scope, s2) ->
  _validate_scope scope input_data = Return v ->
  ScopeValidation.passed v = true ->
  (7 < length (AssignmentScope.must_have scope))%nat
  \/ (2000 < String.length (AssignmentScope.business_context scope))%nat ->
  generate_rubric scope input_data s2 = (Return rubric, s4) ->
  generate_time_breakdown scope input_data s4 = (Return tb, s5) ->
  run input_data s = (Raise ValidationError, s5)
  /\ (exists total_minutes,
        asked s5
        = asked s
          ++ [context_request input_data; scope_request context input_data;
              rubric_request scope input_data;
              time_breakdown_request scope input_data total_minutes])
  /\ (In (ManyMustHave (length (AssignmentScope.must_have scope)))
        (ScopeValidation.warnings v)
      \/ In (BusinessContextQuiteLong
               (String.length (AssignmentScope.business_context scope)))
           (ScopeValidation.warnings v)).
Proof.
  intros Valid H1 H2 H3 P Big H4 H5.
  destruct (BudgetFacts.valid_budget _ Valid) as [Lo Hi].
  destruct (BudgetFacts.int_of_budget _ Lo Hi) as [whole W].
  split; [|split].
  - unfold generate.
    rewrite (bind_returns World _ _ _ _ _ H1).
    rewrite (bind_returns World _ _ _ _ _ H2).
    rewrite H3. unfold mbind at 1, io_bind at 1, lift at 1. rewrite P. cbn [negb].
    rewrite (bind_returns World _ _ _ _ _ H4).
    rewrite (bind_returns World _ _ _ _ _ H5).
    unfold _assemble_assignment, mbind, io_bind, lift.
    unfold Requirements.validate at 1. cbn [Requirements.must_have].
    destruct ((3 <=? _)%nat && (_ <=? 7)%nat) eqn:R; [|reflexivity].
    rewrite W.
    unfold CandidateBrief.validate at 1. cbn [CandidateBrief.business_context].
    destruct ((100 <=? _)%nat && (_ <=? 2000)%nat) eqn:B; [|reflexivity].
    exfalso. apply andb_prop in R as [_ R]. apply andb_prop in B as [_ B].
    apply Nat.leb_le in R, B. lia.
  - destruct (extract_context_returned _ _ _ _ H1) as (_ & w1 & _ & ->).
    destruct (define_scope_returned _ _ _ _ _ H2) as (_ & _ & w2 & _ & ->).
    destruct (generate_rubric_returned _ _ _ _ _ H4) as (_ & _ & w4 & _ & ->).
    destruct (generate_time_breakdown_returned _ _ _ _ _ H5)
      as (total & raw & w5 & _ & _ & ->).
    exists total. cbn [calls]. rewrite <- !app_assoc. reflexivity.
  - destruct (ScopeWarningFacts.validate_scope_phase _ _ _ H3)
      as (r & hw & V & _ & ->).
    cbn [ScopeValidation.warnings].
    rewrite (ScopeGateFacts.validate_scope_warnings _ _ _ V).
    rewrite !in_app_iff, !ScopeGateFacts.in_structural.
    destruct Big as [Big|Big]; [left|right]; left; left; tauto.
Qed.

(** X17. No assignment [generate] returns carries the gate's warning about
    many must-haves or about a long business context, since assembly has
    refused every scope that earns one; the heuristic's warning about many
    must-haves is carried exactly by the assignments with 7 must-haves. *)
Theorem generated_warnings_never_oversized
    (input_data : AssignmentInput.t) (s s' : state World) (a : GeneratedAssignment.t) :
  run input_data s = (Return a, s') ->
  let warnings := GeneratedAssignment.scope_warnings a in
  let count :=
    length (Requirements.must_have
              (CandidateBrief.requirements (GeneratedAssignment.candidate_brief a))) in
  (forall n, ~ In (ManyMustHave n) warnings)
  /\ (forall n, ~ In (BusinessContextQuiteLong n) warnings)
  /\ (forall n, In (ManyMustHaveForBudget n) warnings <-> n = 7%nat /\ count = 7%nat).
Proof.
  intros H warnings count.
  destruct (generate_returned _ _ _ _ H)
    as (context & scope & v & rubric & tb & s1 & s2 & s4 & s5
        & H1 & H2 & H3 & P & H4 & H5 & H6).
  destruct (assemble_returned _ _ _ _ _ _ _ _ _ H6) as (C & L & te & id & t & ->).
  unfold warnings, count.
  cbn [GeneratedAssignment.scope_warnings GeneratedAssignment.candidate_brief
       CandidateBrief.requirements Requirements.must_have].
  clear warnings count.
  destruct (ScopeWarningFacts.validate_scope_phase _ _ _ H3)
    as (r & hw & V & G & ->).
  cbn [ScopeValidation.warnings].
  rewrite (ScopeGateFacts.validate_scope_warnings _ _ _ V).
  destruct (ScopeWarningFacts.generate_scope_warnings_result _ _ _ _ G)
    as (share & -> & S).
  assert (NS : forall m, is_share_warning m = false -> ~ In m share).
  { intros m E Hin. rewrite List.Forall_forall in S. specialize (S m Hin). congruence. }
  assert (NG : forall m, is_generic_warning m = false ->
               ~ In m (generic_warning scope)).
  { intros m E Hin. apply ScopeGateFacts.in_generic in Hin as [term ->]. discriminate. }
  split; [|split]; intros n;
    rewrite !in_app_iff, !ScopeGateFacts.in_structural, !ScopeWarningFacts.in_balance.
  - pose proof (NS (ManyMustHave n) eq_refl). pose proof (NG (ManyMustHave n) eq_refl).
    intros [[[[E _]|[[E Hc]|[E _]]]|F]|[[[E _]|[[E _]|[E _]]]|F]];
      try discriminate; try contradiction. lia.
  - pose proof (NS (BusinessContextQuiteLong n) eq_refl).
    pose proof (NG (BusinessContextQuiteLong n) eq_refl).
    intros [[[[E Hc]|[[E _]|[E _]]]|F]|[[[E _]|[[E _]|[E _]]]|F]];
      try discriminate; try contradiction. lia.
  - pose proof (NS (ManyMustHaveForBudget n) eq_refl).
    pose proof (NG (ManyMustHaveForBudget n) eq_refl).
    split.
    + intros [[[[E _]|[[E _]|[E _]]]|F]|[[[E _]|[[E Hc]|[E _]]]|F]];
        try discriminate; try contradiction.
      injection E as ->. lia.
    + intros [-> Hc]. right. left. right. left. rewrite Hc. split; [reflexivity|lia].
Qed.

(** X18. The time estimate of a generated brief. For an input within the
    bounds of [AssignmentInput] whose budget is a binary64 number, every
    assignment [generate] returns states its time either as a whole number
    of hours, which is then between 2 and 8 and equal to the budget, or, when
    the budget equals no integer, as the budget itself, to be shown with one
    decimal. *)
Theorem generated_time_estimate
    (input_data : AssignmentInput.t) (s s' : state World) (a : GeneratedAssignment.t) :
  AssignmentInput.validate input_data = Return input_data ->
  valid_binary PyFloat.prec PyFloat.emax (AssignmentInput.time_budget_hours input_data)
  = true ->
  run input_data s = (Return a, s') ->
  let hours := AssignmentInput.time_budget_hours input_data in
  let estimate :=
    CandidateBrief.time_estimate (GeneratedAssignment.candidate_brief a) in
  (exists n,
     estimate = WholeHours n /\ 2 <= n <= 8 /\ PyFloat.eqb_int hours n = true)
  \/ (estimate = OneDecimalHours hours /\ forall n, PyFloat.eqb_int hours n = false).
Proof.
  intros Valid Binary H hours estimate.
  destruct (BudgetFacts.valid_budget _ Valid) as [Lo Hi].
  destruct (generate_returned _ _ _ _ H)
    as (context & scope & v & rubric & tb & s1 & s2 & s4 & s5
        & _ & _ & _ & _ & _ & _ & H6).
  destruct (assemble_time_estimate _ _ _ _ _ _ _ _ _ H6) as (whole & W & E).
  unfold estimate. rewrite E. fold hours in W |- *.
  destruct (PyFloat.eqb_int hours whole) eqn:Q.
  - left. exists whole. split; [reflexivity|].
    split; [exact (BudgetFacts.whole_budget_bounds _ _ Binary Lo Hi W)|exact Q].
  - right. split; [reflexivity|]. exact (BudgetFacts.not_whole _ _ W Q).
Qed.

(** ** The two routes *)

Local Abbreviation generate_route :=
  (Routes.generate_assignment float_sum World generate_json uuid4 now).
Local Abbreviation validate_route :=
  (Routes.validate_assignment_input World generate_json).

(** X19. The answers of [POST /assignments/generate]. The route answers
    201 with the assignment exactly when [generate] returns it, and 400 or
    500 otherwise; the 503 branch for [GeminiAPIError] is never taken, since
    [generate] wraps every error of the client. A call for the context that
    raises, whatever it raises, is answered 400 "insufficient_context"; once
    the context is there, a call for the scope that raises is answered 500
    "internal_error", which names [GenerationError]. *)
Theorem generate_route_answers (input_data : AssignmentInput.t) (s : state World) :
  let answer := fst (generate_route input_data s) in
  In (Routes.status_of answer) [201; 400; 500]
  /\ (forall a, answer = Routes.Respond 201 a <-> fst (run input_data s) = Return a)
  /\ (forall cause w,
        generate_json (context_request input_data) (world World s) = (Raise cause, w) ->
        exists d,
          answer = Routes.Raises (Routes.mk_HTTPException 400 d)
          /\ Routes.error d = "insufficient_context"%string
          /\ (is_ContextExtractionError cause = false ->
              Routes.technical_detail d
              = Some (ContextExtractionError (Failed ExtractContext cause))))
  /\ (forall context s1 cause w,
        extract_context input_data s = (Return context, s1) ->
        generate_json (scope_request context input_data) (world World s1)
        = (Raise cause, w) ->
        exists d,
          answer = Routes.Raises (Routes.mk_HTTPException 500 d)
          /\ Routes.error d = "internal_error"%string
          /\ Routes.message d = Routes.UnexpectedError ClsGenerationError
          /\ Routes.technical_detail d
             = Some (GenerationError (Failed DefineScope cause))).
Proof.
  intros answer. unfold answer, Routes.generate_assignment.
  split; [|split; [|split]].
  - pose proof (generate_raised_class input_data s) as N.
    destruct (run input_data s) as [[a|e] s']; cbn [fst Routes.status_of] in *.
    + left. reflexivity.
    + specialize (N e eq_refl).
      destruct e; cbn [Routes.generate_assignment_handler Routes.status_code];
        cbn [class_of In] in N; cbn [In]; tauto.
  - intros a. destruct (run input_data s) as [[a'|e] s']; cbn [fst].
    + split; intros [= ->]; reflexivity.
    + split; discriminate.
  - intros cause w G.
    assert (E : fst (run input_data s)
                = Raise (if is_ContextExtractionError cause then cause
                         else ContextExtractionError (Failed ExtractContext cause))).
    { unfold generate, mbind at 1, io_bind at 1.
      unfold _extract_context, try_except, mbind, io_bind, client_generate_json,
        lift, raise.
      fold (context_request input_data). rewrite G. destruct cause; reflexivity. }
    destruct (run input_data s) as [[a|e] s']; cbn [fst] in *; [discriminate|].
    injection E as ->.
    destruct cause; cbn [is_ContextExtractionError Routes.generate_assignment_handler];
      eexists; (split; [reflexivity|]); (split; [reflexivity|]);
      intros F; first [discriminate F|reflexivity].
  - intros context s1 cause w H1 G.
    assert (E : fst (run input_data s)
                = Raise (GenerationError (Failed DefineScope cause))).
    { unfold generate. rewrite (bind_returns World _ _ _ _ _ H1).
      unfold mbind at 1, io_bind at 1.
      rewrite (define_scope_failures World generate_json context input_data s1
                 cause w (or_introl G)).
      reflexivity. }
    destruct (run input_data s) as [[a|e] s']; cbn [fst] in *; [discriminate|].
    injection E as ->. eexists. cbn [Routes.generate_assignment_handler].
    split; [reflexivity|]. repeat split.
Qed.

(** What [POST /assignments/validate] runs. *)
Lemma validate_route_unfold (input_data : AssignmentInput.t) (s : state World) :
  validate_route input_data s
  = match extract_context input_data s with
    | (Return context, s1) =>
        match define_scope context input_data s1 with
        | (Return scope, s2) =>
            match _validate_scope scope input_data with
            | Return v =>
                (Routes.Respond 200
                   (ValidationResult.mk (ScopeValidation.passed v)
                      (ScopeValidation.issues v) (ScopeValidation.warnings v)), s2)
            | Raise e => (Routes.Raises (Routes.validate_assignment_input_handler e), s2)
            end
        | (Raise e, s2) => (Routes.Raises (Routes.validate_assignment_input_handler e), s2)
        end
    | (Raise e, s1) => (Routes.Raises (Routes.validate_assignment_input_handler e), s1)
    end.
Proof.
  unfold Routes.validate_assignment_input, mbind, io_bind, mret, io_ret, lift.
  destruct (extract_context input_data s) as [[context|e1] s1]; [|reflexivity].
  destruct (define_scope context input_data s1) as [[scope|e2] s2]; [|reflexivity].
  destruct (_validate_scope scope input_data) as [v|e3]; reflexivity.
Qed.


(** X21. The validation route predicts the generation route. From the same
    state, and so with the same answers of the capability, a verdict of
    failure from [POST /assignments/validate] means that
    [POST /assignments/generate] answers 400 "scope_mismatch" after the same
    two calls, with the issues the validation reported; and a verdict of
    success means that generation goes on to the rubric, so that it does not
    answer "scope_mismatch" or "insufficient_context". *)
Theorem validate_route_predicts_generate_route
    (input_data : AssignmentInput.t) (s s2 : state World) (r : ValidationResult.t) :
  validate_route input_data s = (Routes.Respond 200 r, s2) ->
  (ValidationResult.passed r = false ->
   exists d,
     generate_route input_data s
     = (Routes.Raises (Routes.mk_HTTPException 400 d), s2)
     /\ Routes.error d = "scope_mismatch"%string
     /\ Routes.technical_detail d
        = Some (ScopeValidationError (ValidationFailed (ValidationResult.issues r))))
  /\ (ValidationResult.passed r = true ->
      forall d s',
        generate_route input_data s
        = (Routes.Raises (Routes.mk_HTTPException 400 d), s') ->
        False).
Proof.
  rewrite validate_route_unfold.
  destruct (extract_context input_data s) as [[context|e1] s1] eqn:H1; [|discriminate].
  destruct (define_scope context input_data s1) as [[scope|e2] s2'] eqn:H2;
    [|discriminate].
  destruct (_validate_scope scope input_data) as [v|e3] eqn:H3; [|discriminate].
  intros [= <- <-]. cbn [ValidationResult.passed ValidationResult.issues].
  assert (E : run input_data s
              = (if negb (ScopeValidation.passed v)
                 then raise World
                        (ScopeValidationError
                           (ValidationFailed (ScopeValidation.issues v)))
                 else
                   rubric ← generate_rubric scope input_data;
                   time_breakdown ← generate_time_breakdown scope input_data;
                   assemble context scope rubric time_breakdown v input_data) s2').
  { unfold generate.
    rewrite (bind_returns World _ _ _ _ _ H1).
    rewrite (bind_returns World _ _ _ _ _ H2).
    rewrite H3. reflexivity. }
  unfold Routes.generate_assignment. rewrite E. clear E.
  split.
  - intros ->. cbn [negb]. unfold raise. eexists.
    cbn [Routes.generate_assignment_handler]. split; [reflexivity|]. split; reflexivity.
  - intros -> d s'. cbn [negb]. unfold mbind at 1, io_bind at 1.
    pose proof (generate_rubric_spec float_sum World generate_json scope
                  input_data s2') as R4.
    destruct (generate_rubric scope input_data s2') as [[rubric|e4] s4].
    2:{ specialize (R4 e4 eq_refl). destruct e4; try discriminate R4.
        cbn [Routes.generate_assignment_handler]. discriminate. }
    clear R4. unfold mbind at 1, io_bind at 1.
    destruct (generate_time_breakdown_spec World generate_json scope input_data s4)
      as [R5 _].
    destruct (generate_time_breakdown scope input_data s4) as [[tb|e5] s5].
    2:{ destruct (R5 e5 eq_refl) as [cause ->].
        cbn [Routes.generate_assignment_handler]. discriminate. }
    clear R5.
    pose proof (assemble_raises context scope rubric tb v input_data s5) as R6.
    destruct (assemble context scope rubric tb v input_data s5) as [[a|e6] s6];
      [discriminate|].
    destruct (R6 e6 eq_refl) as [[-> _]|R].
    + cbn [Routes.generate_assignment_handler]. discriminate.
    + revert R. unfold int_of_float. destruct (PyFloat.trunc _); [discriminate|].
      destruct (PyFloat.is_nan _); intros [= <-];
        cbn [Routes.generate_assignment_handler]; discriminate.
Qed.

End PipelineCoverage.

(** ** The Gemini client *)

Module SliceFacts.
Import PyStr GeminiClient.

Lemma app_cons (c : ascii) (a b : string) :
  (String c a ++ b)%string = String c (a ++ b).
Proof. reflexivity. Qed.

Lemma app_empty (b : string) : (EmptyString ++ b)%string = b.
Proof. reflexivity. Qed.

Lemma length_app (a b : string) :
  String.length (a ++ b) = (String.length a + String.length b)%nat.
Proof.
  induction a as [|c a IH]; [reflexivity|].
  rewrite app_cons. cbn [String.length]. rewrite IH. reflexivity.
Qed.

Lemma app_assoc (a b c : string) : ((a ++ b) ++ c = a ++ b ++ c)%string.
Proof.
  induction a as [|x a IH]; [reflexivity|].
  rewrite !app_cons, IH. reflexivity.
Qed.

Lemma drop_app (a b : string) : drop (String.length a) (a ++ b) = b.
Proof.
  induction a as [|c a IH]; [reflexivity|].
  rewrite app_cons. cbn [String.length drop]. exact IH.
Qed.

Lemma take_app (a b : string) : take (String.length a) (a ++ b) = a.
Proof.
  induction a as [|c a IH]; [destruct b; reflexivity|].
  rewrite app_cons. cbn [String.length take]. rewrite IH. reflexivity.
Qed.

(** [(a + p).endswith(p)] and [(a + p)[:-len(p)] == a] *)
Lemma ends_with_app (a p : string) : ends_with p (a ++ p) = true.
Proof.
  unfold ends_with. rewrite length_app.
  rewrite (proj2 (Nat.leb_le _ _)) by lia.
  replace (String.length a + String.length p - String.length p)%nat
    with (String.length a) by lia.
  rewrite drop_app. apply String.eqb_refl.
Qed.

Lemma drop_end_app (a p : string) : drop_end (String.length p) (a ++ p) = a.
Proof.
  unfold drop_end. rewrite length_app.
  replace (String.length a + String.length p - String.length p)%nat
    with (String.length a) by lia.
  apply take_app.
Qed.

Lemma lstrip_app_whitespace (ws s : string) :
  all_whitespace ws = true -> lstrip (ws ++ s) = lstrip s.
Proof.
  induction ws as [|c ws IH]; [reflexivity|].
  rewrite app_cons. cbn [lstrip all_whitespace].
  destruct (is_whitespace c); [exact IH|discriminate].
Qed.

Lemma rstrip_all_whitespace (ws : string) :
  all_whitespace ws = true -> rstrip ws = EmptyString.
Proof.
  induction ws as [|c ws IH]; simpl; [reflexivity|].
  destruct (is_whitespace c); [|discriminate].
  intros H. rewrite (IH H). reflexivity.
Qed.

Lemma rstrip_app_whitespace (s ws : string) :
  all_whitespace ws = true -> rstrip (s ++ ws) = rstrip s.
Proof.
  intros H. induction s as [|c s IH].
  - apply rstrip_all_whitespace, H.
  - rewrite app_cons. cbn [rstrip]. rewrite IH. reflexivity.
Qed.

(** A text that ends in a character that is no whitespace keeps
    everything before it. *)
Lemma rstrip_app_kept (s t : string) :
  truthy (rstrip t) = true -> rstrip (s ++ t) = (s ++ rstrip t)%string.
Proof.
  intros H. induction s as [|c s IH]; [reflexivity|].
  rewrite !app_cons. cbn [rstrip]. rewrite IH.
  destruct (s ++ rstrip t)%string eqn:E; [|reflexivity].
  exfalso. destruct s; [|discriminate].
  rewrite app_empty in E. rewrite E in H. discriminate.
Qed.

Lemma rstrip_idempotent (s : string) : rstrip (rstrip s) = rstrip s.
Proof.
  induction s as [|c s IH]; [reflexivity|].
  cbn [rstrip]. destruct (rstrip s) as [|d r] eqn:E.
  - destruct (is_whitespace c) eqn:W; [reflexivity|].
    cbn [rstrip]. rewrite W. reflexivity.
  - cbn [rstrip] in *. rewrite IH. reflexivity.
Qed.

(** [s.strip()] has nothing left to strip. *)
Lemma strip_idempotent (s : string) : strip (strip s) = strip s.
Proof.
  unfold strip.
  destruct (all_whitespace s) eqn:A.
  - rewrite (StrFacts.lstrip_all_whitespace s A). reflexivity.
  - destruct (StrFacts.lstrip_head s A) as (c & r & -> & W).
    assert (H : exists r', rstrip (String c r) = String c r').
    { cbn [rstrip]. destruct (rstrip r); rewrite ?W; eauto. }
    destruct H as [r' H].
    assert (L : lstrip (rstrip (String c r)) = rstrip (String c r)).
    { rewrite H. cbn [lstrip]. rewrite W. reflexivity. }
    rewrite L. apply rstrip_idempotent.
Qed.

(** Stripping a text that is fenced, with whitespace around it, leaves
    the fenced part. *)
Lemma strip_fenced (ws1 inner ws2 : string) :
  all_whitespace ws1 = true -> all_whitespace ws2 = true ->
  strip (ws1 ++ fence ++ inner ++ fence ++ ws2) = (fence ++ inner ++ fence)%string.
Proof.
  intros W1 W2. unfold strip.
  rewrite (lstrip_app_whitespace _ _ W1).
  assert (L : forall rest, lstrip (fence ++ rest) = (fence ++ rest)%string)
    by reflexivity.
  rewrite L, <- !app_assoc, (rstrip_app_whitespace _ _ W2).
  rewrite (rstrip_app_kept (fence ++ inner) fence) by reflexivity.
  apply app_assoc.
Qed.

End SliceFacts.

Module ClientFacts.
Import PyStr GeminiClient.

Lemma json_fence_split (rest : string) :
  (json_fence ++ rest)%string = (fence ++ "json" ++ rest)%string.
Proof. reflexivity. Qed.

(** A text that does not start with the fence does not start with the
    longer one. *)
Lemma starts_with_json_fence (s : string) :
  starts_with fence s = false -> starts_with json_fence s = false.
Proof.
  destruct s as [|a [|b [|c s]]]; unfold fence, json_fence; cbn [starts_with];
    repeat match goal with
           | |- context [Ascii.eqb ?x ?y] => is_var y; destruct (Ascii.eqb x y)
           end;
    cbn [andb]; intros; try reflexivity; discriminate.
Qed.

(** The closing fence cannot complete the word after the opening one. *)
Lemma not_json_before_fence (body : string) :
  starts_with "json" body = false -> starts_with "json" (body ++ fence) = false.
Proof.
  destruct body as [|a [|b [|c [|d r]]]];
    rewrite ?SliceFacts.app_cons, ?SliceFacts.app_empty; unfold fence;
    cbn [starts_with];
    repeat match goal with
           | |- context [Ascii.eqb ?x ?y] => is_var y; destruct (Ascii.eqb x y)
           end;
    cbn; intros; try reflexivity; try discriminate; assumption.
Qed.

(** What is left of a fenced text after the opening fence is removed. *)
Lemma closing_fence_removed (body : string) :
  (if ends_with fence (body ++ fence) then drop_end 3 (body ++ fence)
   else (body ++ fence)%string) = body.
Proof.
  rewrite SliceFacts.ends_with_app.
  exact (SliceFacts.drop_end_app body fence).
Qed.

End ClientFacts.

(** X22. What [generate_json] parses. A reply that is a block fenced with
    three backquotes, opened with or without the word json and with any
    whitespace around it, is parsed as the content of the block, stripped.
    A reply that neither starts nor ends with a fence is parsed as it is,
    stripped. In every case the text handed to the parser has no whitespace
    left to strip. *)
Theorem response_text_fences (ws1 body ws2 : string) :
  PyStr.all_whitespace ws1 = true -> PyStr.all_whitespace ws2 = true ->
  GeminiClient.response_text (ws1 ++ "```json" ++ body ++ "```" ++ ws2)
  = PyStr.strip body
  /\ (PyStr.starts_with "json" body = false ->
      GeminiClient.response_text (ws1 ++ "```" ++ body ++ "```" ++ ws2)
      = PyStr.strip body)
  /\ (forall text,
        PyStr.starts_with GeminiClient.fence (PyStr.strip text) = false ->
        GeminiClient.ends_with GeminiClient.fence (PyStr.strip text) = false ->
        GeminiClient.response_text text = PyStr.strip text)
  /\ (forall text,
        PyStr.strip (GeminiClient.response_text text)
        = GeminiClient.response_text text).
Proof.
  intros W1 W2. split; [|split; [|split]].
  - unfold GeminiClient.response_text.
    change "```json"%string with GeminiClient.json_fence.
    change "```"%string with GeminiClient.fence.
    rewrite ClientFacts.json_fence_split.
    rewrite <- (SliceFacts.app_assoc "json" body (GeminiClient.fence ++ ws2)).
    rewrite (SliceFacts.strip_fenced ws1 ("json" ++ body) ws2 W1 W2).
    rewrite (SliceFacts.app_assoc "json" body GeminiClient.fence).
    rewrite <- ClientFacts.json_fence_split.
    rewrite SubstringFacts.starts_with_app.
    change 7%nat with (String.length GeminiClient.json_fence).
    rewrite SliceFacts.drop_app, ClientFacts.closing_fence_removed. reflexivity.
  - intros N. unfold GeminiClient.response_text.
    change "```"%string with GeminiClient.fence.
    rewrite (SliceFacts.strip_fenced ws1 body ws2 W1 W2).
    assert (J : PyStr.starts_with GeminiClient.json_fence
                  (GeminiClient.fence ++ body ++ GeminiClient.fence) = false).
    { apply ClientFacts.not_json_before_fence in N. exact N. }
    rewrite J, SubstringFacts.starts_with_app.
    change 3%nat with (String.length GeminiClient.fence) at 1.
    rewrite SliceFacts.drop_app, ClientFacts.closing_fence_removed. reflexivity.
  - intros text S E. unfold GeminiClient.response_text.
    rewrite (ClientFacts.starts_with_json_fence _ S), S, E.
    apply SliceFacts.strip_idempotent.
  - intros text. unfold GeminiClient.response_text.
    apply SliceFacts.strip_idempotent.
Qed.

Lemma response_text_fences_demo :
  let newline := String (ascii_of_nat 10) EmptyString in
  GeminiClient.response_text
    (newline ++ "```json" ++ (newline ++ "{}" ++ newline) ++ "```" ++ newline)
  = "{}"%string.
Proof.
  intros newline.
  apply (proj1 (response_text_fences newline (newline ++ "{}" ++ newline) newline
                  eq_refl eq_refl)).
Defined.

(** X23. What counts as a rate limit. The handler of [generate_json] and
    [generate_text] looks at the text of the exception only: a text that
    holds 429 anywhere, or quota or rate limit in any letter case, makes the
    failure a [RateLimitError], also when it is part of a longer number or
    word; every other text makes it a [GeminiAPIError]. *)
Theorem classify_by_substring (p q : string) :
  GeminiClient.classify (p ++ "429" ++ q)
  = GeminiClient.RateLimitError (p ++ "429" ++ q)
  /\ (forall t,
        PyStr.lower t = "quota"%string \/ PyStr.lower t = "rate limit"%string ->
        GeminiClient.classify (p ++ t ++ q)
        = GeminiClient.RateLimitError (p ++ t ++ q))
  /\ (forall e,
        PyStr.contains "429" e = false ->
        PyStr.contains "quota" (PyStr.lower e) = false ->
        PyStr.contains "rate limit" (PyStr.lower e) = false ->
        GeminiClient.classify e
        = GeminiClient.GeminiAPIError (GeminiClient.CallFailed e)).
Proof.
  split; [|split].
  - unfold GeminiClient.classify.
    rewrite SubstringFacts.contains_app. reflexivity.
  - intros t H. unfold GeminiClient.classify.
    rewrite !SubstringFacts.lower_app.
    destruct H as [-> | ->]; rewrite SubstringFacts.contains_app;
      rewrite ?orb_true_r; reflexivity.
  - intros e A B C. unfold GeminiClient.classify. rewrite A, B, C. reflexivity.
Qed.

Lemma classify_by_substring_inside_a_number :
  GeminiClient.classify "Request payload is 14290 bytes, the limit is 8192"
  = GeminiClient.RateLimitError "Request payload is 14290 bytes, the limit is 8192".
Proof.
  exact (proj1 (classify_by_substring "Request payload is 1"
                  "0 bytes, the limit is 8192")).
Defined.

Section ClientCoverage.
Import GeminiClient.

Variable World : Type.
Variable Json : Type.
Variable generate_content : string -> World -> (string + string) * World.
Variable json_loads : string -> Json + string.

Local Abbreviation sent := (prompts World).
Local Abbreviation json_attempt := (generate_json_attempt World Json generate_content json_loads).
Local Abbreviation text_attempt := (generate_text_attempt World generate_content).

(** An attempt that does not end in a rate limit is the whole call. *)
Lemma retry_first {A : Type} (n : nat)
    (attempt : state World -> (A + error) * state World) (s : state World) :
  (forall e, fst (attempt s) <> inr (RateLimitError e)) ->
  retry World n attempt s = attempt s.
Proof.
  intros H. destruct n; cbn [retry];
    destruct (attempt s) as [[a|[e|f|e]] s'] eqn:E; try reflexivity;
    exfalso; apply (H e); reflexivity.
Qed.

(** A call makes between one and [n + 1] attempts, never ends in the
    rate-limit error of an attempt, and ends in [RetryError] only after the
    last attempt allowed. *)
Lemma retry_attempts {A : Type} (n : nat)
    (attempt : state World -> (A + error) * state World) (prompt : string) :
  (forall s, sent (snd (attempt s)) = sent s ++ [prompt]) ->
  (forall s e, fst (attempt s) <> inr (RetryError e)) ->
  forall s,
    (forall e, fst (retry World n attempt s) <> inr (RateLimitError e))
    /\ exists k,
         (1 <= k <= S n)%nat
         /\ sent (snd (retry World n attempt s)) = sent s ++ List.repeat prompt k
         /\ (forall e, fst (retry World n attempt s) = inr (RetryError e) -> k = S n).
Proof.
  intros One NoRetry. induction n as [|n IH]; intros s; cbn [retry];
    pose proof (One s) as O; pose proof (NoRetry s) as N;
    destruct (attempt s) as [[a|[e|f|e]] s'] eqn:E; cbn [fst snd] in *.
  - split; [discriminate|]. exists 1%nat. split; [lia|]. split; [exact O|discriminate].
  - split; [discriminate|]. exists 1%nat. split; [lia|].
    split; [exact O|reflexivity].
  - split; [discriminate|]. exists 1%nat. split; [lia|]. split; [exact O|discriminate].
  - destruct (N e eq_refl).
  - split; [discriminate|]. exists 1%nat. split; [lia|]. split; [exact O|discriminate].
  - destruct (IH s') as (R & k & Hk & P & X). split; [exact R|].
    exists (S k). split; [lia|]. split.
    + rewrite P, O, <- app_assoc. reflexivity.
    + intros e' H. rewrite (X e' H). reflexivity.
  - split; [discriminate|]. exists 1%nat. split; [lia|]. split; [exact O|discriminate].
  - destruct (N e eq_refl).
Qed.

Lemma classify_not_retry (e e' : string) : classify e <> RetryError e'.
Proof. unfold classify. destruct (_ || _); discriminate. Qed.



Lemma text_attempt_sends (prompt : string) (s : state World) :
  sent (snd (text_attempt prompt s)) = sent s ++ [prompt].
Proof.
  unfold generate_text_attempt, model_generate_content.
  destruct (generate_content _ (world World s)) as [[text|e] w]; reflexivity.
Qed.

Lemma text_attempt_no_retry_error (prompt : string) (s : state World) (e : string) :
  fst (text_attempt prompt s) <> inr (RetryError e).
Proof.
  unfold generate_text_attempt, model_generate_content.
  destruct (generate_content _ (world World s)) as [[text|e0] w]; [discriminate|].
  intros H. injection H as H. exact (classify_not_retry e0 e H).
Qed.


(** X25. [health_check] never raises. It sends the prompt Hello at least
    once and at most three times, and it answers true exactly when
    [generate_text] returned a text that is not empty: an empty reply, a
    failure of the model and a rate limit that outlasts the retries all
    answer false. *)
Theorem health_check_answers (s : state World) :
  let check := health_check World generate_content s in
  (exists k,
     (1 <= k <= 3)%nat
     /\ sent (snd check) = sent s ++ List.repeat "Hello"%string k)
  /\ (fst check = true <->
      exists text s',
        generate_text World generate_content "Hello" s = (inl text, s')
        /\ text <> EmptyString)
  /\ (forall text w,
        generate_content "Hello" (world World s) = (inl text, w) ->
        check = ((0 <? String.length text)%nat,
                 mk_state World w (sent s ++ ["Hello"%string]))).
Proof.
  intros check. unfold check, health_check, generate_text.
  destruct (retry_attempts 2 (text_attempt "Hello") "Hello"
              (text_attempt_sends "Hello") (text_attempt_no_retry_error "Hello") s)
    as (_ & k & Hk & P & _).
  split; [|split].
  - exists k. split; [lia|].
    destruct (retry World 2 (text_attempt "Hello") s) as [[text|e] s']; exact P.
  - destruct (retry World 2 (text_attempt "Hello") s) as [[text|e] s']; cbn [fst].
    + split.
      * intros H. exists text, s'. split; [reflexivity|].
        intros ->. discriminate H.
      * intros (t & s'' & [= <- <-] & N). destruct text; [congruence|reflexivity].
    + split; [discriminate|]. intros (t & s'' & [=] & _).
  - intros text w G.
    assert (E : text_attempt "Hello" s
                = (inl text, mk_state World w (sent s ++ ["Hello"%string]))).
    { unfold generate_text_attempt, model_generate_content. rewrite G. reflexivity. }
    rewrite retry_first; rewrite E; [reflexivity|discriminate].
Qed.

End ClientCoverage.

(** ** Submission guidelines *)

Module GuidelineFacts.
Import AssignmentGenerator.

(** The bound of [AssignmentInput] on the submission format. *)
Lemma valid_format (input_data : AssignmentInput.t) :
  AssignmentInput.validate input_data = Return input_data ->
  In (AssignmentInput.submission_format input_data)
    ["github"; "zip"; "codesandbox"]%string.
Proof.
  unfold AssignmentInput.validate.
  destruct (bool_decide (AssignmentInput.submission_format input_data
                         ∈ ["github"; "zip"; "codesandbox"]%string)) eqn:F;
    [|rewrite !andb_false_r; discriminate].
  intros _. apply bool_decide_eq_true in F.
  apply list_elem_of_In. exact F.
Qed.

Lemma append_longer (a b : string) : b <> EmptyString -> (a ++ b)%string <> a.
Proof.
  intros N E. apply (f_equal String.length) in E.
  rewrite SliceFacts.length_app in E. destruct b; [congruence|]. simpl in E. lia.
Qed.

End GuidelineFacts.

(** X26. The submission guidelines of an input within the bounds of
    [AssignmentInput] begin with the text of the chosen format, which is
    always found in the table, so that the fallback to the GitHub text is
    never used. They are that text alone exactly when no library is allowed,
    which an empty list and a missing one both mean; otherwise a blank line
    and the list of the allowed libraries, joined by commas, follow. *)
Theorem submission_guidelines_of_valid_input (input_data : AssignmentInput.t) :
  AssignmentInput.validate input_data = Return input_data ->
  exists base,
    AssignmentGenerator.format_map !! AssignmentInput.submission_format input_data
    = Some base
    /\ (AssignmentGenerator._build_submission_guidelines input_data = base
        <-> AssignmentInput.candidate_can_use input_data = None
            \/ AssignmentInput.candidate_can_use input_data = Some [])
    /\ (forall lib libs,
          AssignmentInput.candidate_can_use input_data = Some (lib :: libs) ->
          AssignmentGenerator._build_submission_guidelines input_data
          = (base ++ AssignmentGenerator.newline ++ AssignmentGenerator.newline
             ++ "You may use the following libraries/frameworks: "
             ++ AssignmentGenerator.join ", " (lib :: libs))%string).
Proof.
  intros Valid. apply GuidelineFacts.valid_format in Valid.
  unfold AssignmentGenerator._build_submission_guidelines.
  assert (F : exists base,
             AssignmentGenerator.format_map
             !! AssignmentInput.submission_format input_data = Some base).
  { cbn [In] in Valid. destruct Valid as [<-|[<-|[<-|[]]]]; eexists;
      vm_compute; reflexivity. }
  destruct F as [base F]. exists base. rewrite F. cbn [default].
  split; [reflexivity|]. split.
  - destruct (AssignmentInput.candidate_can_use input_data) as [[|lib libs]|].
    + split; [auto|reflexivity].
    + split.
      * intros E. exfalso. revert E. apply GuidelineFacts.append_longer. discriminate.
      * intros [E|E]; discriminate E.
    + split; [auto|reflexivity].
  - intros lib libs ->. reflexivity.
Qed.

Lemma submission_guidelines_of_valid_input_demo :
  AssignmentInput.validate Demo.input_data = Return Demo.input_data
  /\ exists base,
       AssignmentGenerator.format_map !! "github"%string = Some base
       /\ AssignmentGenerator._build_submission_guidelines Demo.input_data = base.
Proof.
  assert (V : AssignmentInput.validate Demo.input_data = Return Demo.input_data)
    by (vm_compute; reflexivity).
  split; [exact V|].
  destruct (submission_guidelines_of_valid_input Demo.input_data V)
    as (base & F & E & _).
  exists base. split; [exact F|]. apply E. left. reflexivity.
Defined.

(** ** The added properties on runs of the pipeline, the routes and the client *)


Lemma scope_phase_outcomes_demo :
  fst (AssignmentGenerator._define_scope nat
         (Demo.capability
            (Return
               (AssignmentGenerator.ScopeJson EmptyString EmptyString
                  [Fixtures.req 0] [] []))
            (Return (AssignmentGenerator.TimeBreakdownJson Demo.off_by_five)))
         Demo.context Demo.input_data Demo.start)
  = Raise (GenerationError (Failed DefineScope ValidationError)).
Proof.
  exact (f_equal fst
           (scope_phase_outcomes nat
              (Demo.capability
                 (Return
                    (AssignmentGenerator.ScopeJson EmptyString EmptyString
                       [Fixtures.req 0] [] []))
                 (Return (AssignmentGenerator.TimeBreakdownJson Demo.off_by_five)))
              Demo.context Demo.input_data Demo.start EmptyString EmptyString
              [Fixtures.req 0] [] [] 1%nat eq_refl)).
Defined.

Lemma rubric_phase_outcomes_demo :
  fst (AssignmentGenerator._generate_rubric sum_float_left nat
         (Demo.capability (Return (Demo.scope_json [80; 60; 70]))
            (Return (AssignmentGenerator.TimeBreakdownJson Demo.off_by_five)))
         (Fixtures.scope_of [80; 60; 70] [30] []) Demo.input_data Demo.start)
  = Return
      (EvaluatorGuide.mk (Fixtures.rubric_with_guide "1-5 scale")
         ["Over-engineering"]%string ["No tests"]%string ["Clear README"]%string
         "Score the reasoning, not the choices.").
Proof.
  apply (proj1 (proj2
           (rubric_phase_outcomes sum_float_left nat
              (Demo.capability (Return (Demo.scope_json [80; 60; 70]))
                 (Return (AssignmentGenerator.TimeBreakdownJson Demo.off_by_five)))
              (Fixtures.scope_of [80; 60; 70] [30] []) Demo.input_data Demo.start
              (EvaluatorGuide.mk (Fixtures.rubric_with_guide "1-5 scale")
                 ["Over-engineering"]%string ["No tests"]%string
                 ["Clear README"]%string "Score the reasoning, not the choices.")
              1%nat eq_refl))).
  - vm_compute. reflexivity.
  - vm_compute. reflexivity.
Defined.

Lemma generated_brief_invariants_demo :
  exists a s',
    AssignmentGenerator.generate sum_float_left nat
      (Demo.capability (Return (Demo.scope_json [80; 60; 70]))
         (Return (AssignmentGenerator.TimeBreakdownJson Demo.off_by_five)))
      Demo.uuid4 Demo.now Demo.input_data Demo.start
    = (Return a, s')
    /\ (3 <= length (Requirements.must_have
                       (CandidateBrief.requirements
                          (GeneratedAssignment.candidate_brief a))) <= 7)%nat.
Proof.
  assert (E : exists a s',
             AssignmentGenerator.generate sum_float_left nat
               (Demo.capability (Return (Demo.scope_json [80; 60; 70]))
                  (Return (AssignmentGenerator.TimeBreakdownJson Demo.off_by_five)))
               Demo.uuid4 Demo.now Demo.input_data Demo.start
             = (Return a, s'))
    by (eexists; eexists; vm_compute; reflexivity).
  destruct E as (a & s' & E). exists a, s'. split; [exact E|].
  exact (proj1 (generated_brief_invariants _ _ _ _ _ _ _ _ _ E)).
Defined.

Lemma generated_guide_invariants_demo :
  exists a s',
    AssignmentGenerator.generate sum_float_left nat
      (Demo.capability (Return (Demo.scope_json [80; 60; 70]))
         (Return (AssignmentGenerator.TimeBreakdownJson Demo.off_by_five)))
      Demo.uuid4 Demo.now Demo.input_data Demo.start
    = (Return a, s')
    /\ (3 <= length (EvaluatorGuide.scoring_rubric
                       (GeneratedAssignment.evaluator_guide a)) <= 7)%nat.
Proof.
  assert (E : exists a s',
             AssignmentGenerator.generate sum_float_left nat
               (Demo.capability (Return (Demo.scope_json [80; 60; 70]))
                  (Return (AssignmentGenerator.TimeBreakdownJson Demo.off_by_five)))
               Demo.uuid4 Demo.now Demo.input_data Demo.start
             = (Return a, s'))
    by (eexists; eexists; vm_compute; reflexivity).
  destruct E as (a & s' & E). exists a, s'. split; [exact E|].
  exact (proj1 (generated_guide_invariants _ _ _ _ _ _ _ _ _ E)).
Defined.



Lemma oversized_scope_fails_at_assembly_demo :
  exists s5,
    AssignmentGenerator.generate sum_float_left nat
      (Demo.capability (Return (Demo.scope_json [30; 30; 30; 30; 30; 30; 30; 30]))
         (Return (AssignmentGenerator.TimeBreakdownJson Demo.off_by_five)))
      Demo.uuid4 Demo.now Demo.input_data Demo.start
    = (Raise ValidationError, s5)
    /\ length (AssignmentGenerator.calls nat s5) = 4%nat.
Proof.
  edestruct (oversized_scope_fails_at_assembly sum_float_left nat
               (Demo.capability
                  (Return (Demo.scope_json [30; 30; 30; 30; 30; 30; 30; 30]))
                  (Return (AssignmentGenerator.TimeBreakdownJson Demo.off_by_five)))
               Demo.uuid4 Demo.now Demo.input_data Demo.start)
    as (R & (total & C) & _).
  - vm_compute. reflexivity.
  - vm_compute. reflexivity.
  - vm_compute. reflexivity.
  - vm_compute. reflexivity.
  - reflexivity.
  - left. vm_compute. lia.
  - vm_compute. reflexivity.
  - vm_compute. reflexivity.
  - eexists. split; [exact R|]. rewrite C. reflexivity.
Defined.

Lemma generated_warnings_never_oversized_demo :
  exists a s',
    AssignmentGenerator.generate sum_float_left nat
      (Demo.capability (Return (Demo.scope_json [80; 60; 70]))
         (Return (AssignmentGenerator.TimeBreakdownJson Demo.off_by_five)))
      Demo.uuid4 Demo.now Demo.input_data Demo.start
    = (Return a, s')
    /\ ~ In (ManyMustHave 8) (GeneratedAssignment.scope_warnings a).
Proof.
  assert (E : exists a s',
             AssignmentGenerator.generate sum_float_left nat
               (Demo.capability (Return (Demo.scope_json [80; 60; 70]))
                  (Return (AssignmentGenerator.TimeBreakdownJson Demo.off_by_five)))
               Demo.uuid4 Demo.now Demo.input_data Demo.start
             = (Return a, s'))
    by (eexists; eexists; vm_compute; reflexivity).
  destruct E as (a & s' & E). exists a, s'. split; [exact E|].
  exact (proj1 (generated_warnings_never_oversized _ _ _ _ _ _ _ _ _ E) 8%nat).
Defined.

Lemma generated_time_estimate_demo :
  exists a s',
    AssignmentGenerator.generate sum_float_left nat
      (Demo.capability (Return (Demo.scope_json [80; 60; 70]))
         (Return (AssignmentGenerator.TimeBreakdownJson Demo.off_by_five)))
      Demo.uuid4 Demo.now Demo.input_data Demo.start
    = (Return a, s')
    /\ ((exists n,
           CandidateBrief.time_estimate (GeneratedAssignment.candidate_brief a)
           = WholeHours n
           /\ 2 <= n <= 8
           /\ PyFloat.eqb_int (AssignmentInput.time_budget_hours Demo.input_data) n
              = true)
        \/ (CandidateBrief.time_estimate (GeneratedAssignment.candidate_brief a)
            = OneDecimalHours (AssignmentInput.time_budget_hours Demo.input_data)
            /\ forall n,
                 PyFloat.eqb_int (AssignmentInput.time_budget_hours Demo.input_data) n
                 = false)).
Proof.
  assert (E : exists a s',
             AssignmentGenerator.generate sum_float_left nat
               (Demo.capability (Return (Demo.scope_json [80; 60; 70]))
                  (Return (AssignmentGenerator.TimeBreakdownJson Demo.off_by_five)))
               Demo.uuid4 Demo.now Demo.input_data Demo.start
             = (Return a, s'))
    by (eexists; eexists; vm_compute; reflexivity).
  destruct E as (a & s' & E). exists a, s'. split; [exact E|].
  apply (generated_time_estimate sum_float_left nat _ _ _ Demo.input_data _ _ _
           ltac:(vm_compute; reflexivity) eq_refl E).
Defined.

Lemma generate_route_answers_outage :
  exists d,
    fst (Routes.generate_assignment sum_float_left nat (unavailable RateLimitError)
           Demo.uuid4 Demo.now Demo.input_data Demo.start)
    = Routes.Raises (Routes.mk_HTTPException 400 d)
    /\ Routes.error d = "insufficient_context"%string.
Proof.
  destruct (proj1 (proj2 (proj2
              (generate_route_answers sum_float_left nat (unavailable RateLimitError)
                 Demo.uuid4 Demo.now Demo.input_data Demo.start)))
              RateLimitError 1%nat eq_refl)
    as (d & A & E & _).
  exists d. split; [exact A|exact E].
Defined.


Lemma validate_route_predicts_generate_route_demo :
  exists d s2,
    Routes.generate_assignment sum_float_left nat
      (Demo.capability (Return (Demo.scope_json [60]))
         (Return (AssignmentGenerator.TimeBreakdownJson Demo.off_by_five)))
      Demo.uuid4 Demo.now Demo.input_data Demo.start
    = (Routes.Raises (Routes.mk_HTTPException 400 d), s2)
    /\ Routes.error d = "scope_mismatch"%string.
Proof.
  assert (V : exists r s2,
             Routes.validate_assignment_input nat
               (Demo.capability (Return (Demo.scope_json [60]))
                  (Return (AssignmentGenerator.TimeBreakdownJson Demo.off_by_five)))
               Demo.input_data Demo.start
             = (Routes.Respond 200 r, s2)
             /\ ValidationResult.passed r = false)
    by (eexists; eexists; split; vm_compute; reflexivity).
  destruct V as (r & s2 & V & P).
  destruct (proj1 (validate_route_predicts_generate_route sum_float_left nat
                     (Demo.capability (Return (Demo.scope_json [60]))
                        (Return (AssignmentGenerator.TimeBreakdownJson Demo.off_by_five)))
                     Demo.uuid4 Demo.now Demo.input_data Demo.start s2 r V) P)
    as (d & G & E & _).
  exists d, s2. split; [exact G|exact E].
Defined.


Lemma health_check_answers_demo :
  GeminiClient.health_check nat (ClientDemo.generate_content 0) ClientDemo.start
  = (true, GeminiClient.mk_state nat 1%nat ["Hello"%string]).
Proof.
  exact (proj2 (proj2
           (health_check_answers nat (ClientDemo.generate_content 0) ClientDemo.start))
           ClientDemo.reply 1%nat eq_refl).
Defined.

(** Three rate limits in a row end the call with tenacity's [RetryError]
    after three prompts; two are survived. *)
Example generate_json_rate_limited :
  fst (GeminiClient.generate_json nat unit (ClientDemo.generate_content 3)
         ClientDemo.json_loads "Extract the context." ClientDemo.start)
  = inr (GeminiClient.RetryError "429 Resource has been exhausted")
  /\ length (GeminiClient.prompts nat
               (snd (GeminiClient.generate_json nat unit
                       (ClientDemo.generate_content 3) ClientDemo.json_loads
                       "Extract the context." ClientDemo.start))) = 3%nat
  /\ fst (GeminiClient.generate_json nat unit (ClientDemo.generate_content 2)
            ClientDemo.json_loads "Extract the context." ClientDemo.start)
     = inl tt.
Proof. split; [|split]; vm_compute; reflexivity. Qed.

(** ** Runs that return *)

Section PipelineCompletion.
Import AssignmentGenerator.

Variable float_sum : list float -> float.
Variable World : Type.
Variable generate_json : request -> World -> result response * World.
Variable uuid4 : World -> string * World.
Variable now : World -> Z * World.

#[local] Existing Instance io_ret.
#[local] Existing Instance io_bind.

Local Abbreviation extract_context := (_extract_context World generate_json).
Local Abbreviation define_scope := (_define_scope World generate_json).
Local Abbreviation generate_rubric := (_generate_rubric float_sum World generate_json).
Local Abbreviation generate_time_breakdown := (_generate_time_breakdown World generate_json).
Local Abbreviation assemble := (_assemble_assignment World uuid4 now).
Local Abbreviation run := (generate float_sum World generate_json uuid4 now).
Local Abbreviation asked := (calls World).

(** Phase 1 on a context the gate passes. *)
Lemma extract_context_accepts (input_data : AssignmentInput.t) (s : state World)
    (context : JobContext.t) (w : World) :
  generate_json (context_request input_data) (world World s)
  = (Return (ContextJson context), w) ->
  ValidationResult.passed (QualityGate.validate_context_extraction context) = true ->
  extract_context input_data s
  = (Return context, mk_state World w (asked s ++ [context_request input_data])).
Proof using Type.
  intros G P.
  unfold _extract_context, try_except, mbind, io_bind, client_generate_json, lift, raise.
  fold (context_request input_data). rewrite G, P. reflexivity.
Qed.

Lemma valid_minutes_checked (l : list Requirement.t) :
  valid_minutes l ->
  forallb (fun req => 0 <? Requirement.estimated_time_minutes req) l = true.
Proof.
  intros V. apply forallb_forall. intros req Hin.
  apply Z.ltb_lt. exact (proj1 (List.Forall_forall _ _) V req Hin).
Qed.

(** Phase 2 on a scope whose requirements have positive minutes. *)
Lemma define_scope_accepts (context : JobContext.t) (input_data : AssignmentInput.t)
    (s : state World) (scope : AssignmentScope.t) (w : World) :
  generate_json (scope_request context input_data) (world World s)
  = (Return
       (ScopeJson (AssignmentScope.title scope)
          (AssignmentScope.business_context scope)
          (AssignmentScope.must_have scope)
          (AssignmentScope.nice_to_have scope)
          (AssignmentScope.constraints scope)), w) ->
  valid_minutes (AssignmentScope.must_have scope) ->
  valid_minutes (AssignmentScope.nice_to_have scope) ->
  define_scope context input_data s
  = (Return scope, mk_state World w (asked s ++ [scope_request context input_data])).
Proof using Type.
  intros G M N.
  unfold _define_scope, try_except, mbind, io_bind, client_generate_json, lift, raise.
  fold (scope_request context input_data). rewrite G.
  rewrite !ConversionFacts.requirements_checked.
  rewrite (valid_minutes_checked _ M), (valid_minutes_checked _ N).
  destruct scope; reflexivity.
Qed.

(** Phase 3 on a scope within the bounds of the gate. *)
Lemma validate_scope_accepts (scope : AssignmentScope.t)
    (input_data : AssignmentInput.t) (ratio : float) :
  valid_minutes (AssignmentScope.must_have scope) ->
  valid_minutes (AssignmentScope.nice_to_have scope) ->
  QualityGate.time_ratio scope (AssignmentInput.time_budget_hours input_data)
  = Return ratio ->
  PyFloat.leb PyFloat.c0_75 ratio = true ->
  PyFloat.leb ratio PyFloat.c1_25 = true ->
  (100 <= String.length (AssignmentScope.business_context scope))%nat ->
  (3 <= length (AssignmentScope.must_have scope))%nat ->
  exists heuristic,
    QualityGate.generate_scope_warnings scope
      (AssignmentInput.seniority_level input_data)
      (AssignmentInput.time_budget_hours input_data) = Return heuristic
    /\ _validate_scope scope input_data
       = Return (ScopeValidation.mk true []
                   ((structural_warnings scope ++ generic_warning scope)
                    ++ heuristic)).
Proof.
  intros M N R Lo Hi B C.
  destruct (RoundingFacts.generate_scope_warnings_returns scope
              (AssignmentInput.seniority_level input_data)
              (AssignmentInput.time_budget_hours input_data) M N) as [ws W].
  exists ws. split; [exact W|].
  unfold _validate_scope.
  rewrite (ScopeGateFacts.validate_scope_result _ _ _ R), W.
  cbn [mbind result_bind ValidationResult.passed ValidationResult.issues
       ValidationResult.warnings].
  assert (I : scope_issues scope (AssignmentInput.time_budget_hours input_data) ratio
              = []).
  { unfold scope_issues. rewrite Lo, Hi.
    apply Nat.ltb_ge in B, C. rewrite B, C. reflexivity. }
  rewrite I. reflexivity.
Qed.

(** Phase 4b on a breakdown the model accepts. *)
Lemma generate_time_breakdown_accepts (scope : AssignmentScope.t)
    (input_data : AssignmentInput.t) (s : state World) (total_minutes : Z)
    (raw tb : TimeBreakdown.t) (w : World) :
  int_of_float (PyFloat.mul (AssignmentInput.time_budget_hours input_data) PyFloat.c60)
  = Return total_minutes ->
  generate_json (time_breakdown_request scope input_data total_minutes) (world World s)
  = (Return (TimeBreakdownJson raw), w) ->
  TimeBreakdown.validate raw = Return tb ->
  generate_time_breakdown scope input_data s
  = (Return tb,
     mk_state World w
       (asked s ++ [time_breakdown_request scope input_data total_minutes])).
Proof using Type.
  intros T G V.
  unfold _generate_time_breakdown, try_except, mbind, io_bind, client_generate_json,
    lift, raise.
  rewrite T. fold (time_breakdown_request scope input_data total_minutes).
  rewrite G, V. reflexivity.
Qed.

(** Assembly of a scope within the bounds of the brief. *)
Lemma assemble_accepts (context : JobContext.t) (scope : AssignmentScope.t)
    (rubric : EvaluatorGuide.t) (tb : TimeBreakdown.t) (validation : ScopeValidation.t)
    (input_data : AssignmentInput.t) (s : state World) (whole : Z) :
  (3 <= length (AssignmentScope.must_have scope) <= 7)%nat ->
  (100 <= String.length (AssignmentScope.business_context scope) <= 2000)%nat ->
  int_of_float (AssignmentInput.time_budget_hours input_data) = Return whole ->
  assemble context scope rubric tb validation input_data s
  = (Return
       (GeneratedAssignment.mk
          (CandidateBrief.mk (AssignmentScope.title scope)
             (AssignmentScope.business_context scope)
             (Requirements.mk (AssignmentScope.must_have scope)
                (AssignmentScope.nice_to_have scope)
                (AssignmentScope.constraints scope))
             (_build_submission_guidelines input_data)
             (map RubricItem.area (EvaluatorGuide.scoring_rubric rubric))
             (if PyFloat.eqb_int (AssignmentInput.time_budget_hours input_data) whole
              then WholeHours whole
              else OneDecimalHours (AssignmentInput.time_budget_hours input_data)))
          rubric tb (fst (uuid4 (world World s)))
          (fst (now (snd (uuid4 (world World s)))))
          (_estimate_difficulty scope input_data)
          (ScopeValidation.warnings validation)),
     mk_state World (snd (now (snd (uuid4 (world World s))))) (asked s)).
Proof using Type.
  intros [C1 C2] [B1 B2] W.
  unfold _assemble_assignment, mbind, io_bind, lift.
  unfold Requirements.validate at 1. cbn [Requirements.must_have].
  apply Nat.leb_le in C1, C2, B1, B2. rewrite C1, C2. cbn [andb].
  rewrite W.
  unfold CandidateBrief.validate at 1. cbn [CandidateBrief.business_context].
  rewrite B1, B2. cbn [andb].
  destruct (uuid4 (world World s)) as [id w1]. cbn [fst snd world calls].
  destruct (now w1) as [t w2]. cbn [fst snd].
  unfold GeneratedAssignment.validate. cbn [GeneratedAssignment.estimated_difficulty].
  rewrite estimate_difficulty_literal. reflexivity.
Qed.


(** A ratio of at least 0.75 is the quotient by a finite number of minutes,
    so the budget and its minutes both have an integer part. *)
Lemma ratio_finite_budget (scope : AssignmentScope.t) (h ratio : float) :
  QualityGate.time_ratio scope h = Return ratio ->
  PyFloat.leb PyFloat.c0_75 ratio = true ->
  (exists whole, int_of_float h = Return whole)
  /\ exists total, int_of_float (PyFloat.mul h PyFloat.c60) = Return total.
Proof.
  unfold QualityGate.time_ratio, int_truediv_float.
  destruct (PyFloat.of_int _) as [x|] eqn:X; [|discriminate].
  assert (Q : forall y,
            PyFloat.leb PyFloat.c0_75 (PyFloat.div x y) = true ->
            PyFloat.is_zero y = false ->
            exists total, int_of_float y = Return total).
  { intros y L Z. destruct y as [sy|sy| |sy my ey].
    - discriminate Z.
    - exfalso. revert X L. unfold PyFloat.of_int.
      destruct (binary_normalize _ _ _ _ _) as [sx|sx| |sx mx ex];
        cbn; try discriminate; intros [= <-]; cbn; discriminate.
    - exfalso. destruct x; cbn in L; discriminate L.
    - unfold int_of_float. cbn [PyFloat.trunc]. eauto. }
  destruct (PyFloat.is_zero (PyFloat.mul h PyFloat.c60)) eqn:Z; [discriminate|].
  intros [= <-] L. split; [|exact (Q _ L Z)].
  destruct h as [sh|sh| |sh mh eh].
  - unfold int_of_float. cbn [PyFloat.trunc]. eauto.
  - exfalso. destruct (Q _ L Z) as [total T]. destruct sh; discriminate T.
  - exfalso. destruct (Q _ L Z) as [total T]. discriminate T.
  - unfold int_of_float. cbn [PyFloat.trunc]. eauto.
Qed.

(** X27. A run returns whenever the capability answers with four documents
    that pass: a context with at least three responsibilities, a business
    domain that is not blank and a daily technology; a scope of 3 to 7
    must-haves, a business context of 100 to 2000 characters, positive
    minutes and a total within [0.75, 1.25] of the budget; a rubric the
    models accept, without a zero weight or a blank scoring guide; and a
    time breakdown the model accepts. The assignment returned carries that
    scope, that guide and that breakdown with its flag recomputed, the
    identifier and the time it drew, and the four requests are on the
    log. *)
Theorem generate_succeeds
    (input_data : AssignmentInput.t) (s : state World) (context : JobContext.t)
    (scope : AssignmentScope.t) (guide : EvaluatorGuide.t) (raw tb : TimeBreakdown.t)
    (ratio : float) (total_minutes : Z) (w1 w2 w3 w4 : World) :
  let hours := AssignmentInput.time_budget_hours input_data in
  (* the four answers *)
  generate_json (context_request input_data) (world World s)
  = (Return (ContextJson context), w1) ->
  generate_json (scope_request context input_data) w1
  = (Return
       (ScopeJson (AssignmentScope.title scope)
          (AssignmentScope.business_context scope)
          (AssignmentScope.must_have scope)
          (AssignmentScope.nice_to_have scope)
          (AssignmentScope.constraints scope)), w2) ->
  generate_json (rubric_request scope input_data) w2 = (Return (RubricJson guide), w3) ->
  int_of_float (PyFloat.mul hours PyFloat.c60) = Return total_minutes ->
  generate_json (time_breakdown_request scope input_data total_minutes) w3
  = (Return (TimeBreakdownJson raw), w4) ->
  (* the context *)
  (3 <= length (JobContext.responsibilities context))%nat ->
  PyStr.all_whitespace (JobContext.business_domain context) = false ->
  JobContext.daily_technologies context <> [] ->
  (* the scope *)
  (3 <= length (AssignmentScope.must_have scope) <= 7)%nat ->
  (100 <= String.length (AssignmentScope.business_context scope) <= 2000)%nat ->
  valid_minutes (AssignmentScope.must_have scope) ->
  valid_minutes (AssignmentScope.nice_to_have scope) ->
  QualityGate.time_ratio scope hours = Return ratio ->
  PyFloat.leb PyFloat.c0_75 ratio = true ->
  PyFloat.leb ratio PyFloat.c1_25 = true ->
  (* the rubric and the time breakdown *)
  schema_accepts float_sum (EvaluatorGuide.scoring_rubric guide) = true ->
  remaining_rubric_issues (EvaluatorGuide.scoring_rubric guide) = [] ->
  TimeBreakdown.validate raw = Return tb ->
  exists a,
    run input_data s
    = (Return a,
       mk_state World (snd (now (snd (uuid4 w4))))
         (asked s
          ++ [context_request input_data; scope_request context input_data;
              rubric_request scope input_data;
              time_breakdown_request scope input_data total_minutes]))
    /\ scope_of_brief (GeneratedAssignment.candidate_brief a) = scope
    /\ GeneratedAssignment.evaluator_guide a = guide
    /\ GeneratedAssignment.time_breakdown a = tb
    /\ GeneratedAssignment.assignment_id a = fst (uuid4 w4)
    /\ GeneratedAssignment.generated_at a = fst (now (snd (uuid4 w4))).
Proof using Type.
  intros hours G1 G2 G3 T G4 C1 C2 C3 M B VM VN R Lo Hi A I V.
  destruct (ratio_finite_budget scope hours ratio R Lo) as [[whole W] _].
  destruct (validate_scope_accepts scope input_data ratio VM VN R Lo Hi
              (proj1 B) (proj1 M)) as (heuristic & _ & V3).
  assert (P : ValidationResult.passed (QualityGate.validate_context_extraction context)
              = true).
  { apply ContextGateFacts.passes_iff. split; [exact C1|]. split; [exact C2|exact C3]. }
  set (s1 := mk_state World w1 (asked s ++ [context_request input_data])).
  set (s2 := mk_state World w2 (asked s1 ++ [scope_request context input_data])).
  set (s3 := mk_state World w3 (asked s2 ++ [rubric_request scope input_data])).
  set (s4 := mk_state World w4
               (asked s3 ++ [time_breakdown_request scope input_data total_minutes])).
  eexists. split.
  - unfold generate.
    unfold mbind at 1, io_bind at 1.
    rewrite (extract_context_accepts input_data s context w1 G1 P). fold s1.
    unfold mbind at 1, io_bind at 1.
    rewrite (define_scope_accepts context input_data s1 scope w2 G2 VM VN). fold s2.
    unfold mbind at 1, io_bind at 1. unfold lift at 1. rewrite V3.
    cbn [ScopeValidation.passed negb].
    unfold mbind at 1, io_bind at 1.
    rewrite (generate_rubric_on_answer float_sum World generate_json scope input_data
               s2 guide w3 G3).
    rewrite A, I. fold s3.
    unfold mbind at 1, io_bind at 1.
    rewrite (generate_time_breakdown_accepts scope input_data s3 total_minutes raw tb
               w4 T G4 V). fold s4.
    rewrite (assemble_accepts context scope guide tb _ input_data s4 whole M B W).
    unfold s4, s3, s2, s1. cbn [world calls]. rewrite <- !app_assoc. reflexivity.
  - cbn. destruct scope; repeat split; reflexivity.
Qed.

End PipelineCompletion.

Lemma generate_succeeds_demo :
  exists a,
    AssignmentGenerator.generate sum_float_left nat
      (Demo.capability (Return (Demo.scope_json [80; 60; 70]))
         (Return (AssignmentGenerator.TimeBreakdownJson Demo.off_by_five)))
      Demo.uuid4 Demo.now Demo.input_data Demo.start
    = (Return a,
       AssignmentGenerator.mk_state nat 4%nat
         [context_request Demo.input_data;
          scope_request Demo.context Demo.input_data;
          rubric_request
            (AssignmentScope.mk "Payment Processing API" (PyStr.repeat "A" 250)
               (map Fixtures.req [80; 60; 70]) [Fixtures.req 30]
               ["Rate limit: 100 req/min"; "Max payload: 1MB"]%string)
            Demo.input_data;
          time_breakdown_request
            (AssignmentScope.mk "Payment Processing API" (PyStr.repeat "A" 250)
               (map Fixtures.req [80; 60; 70]) [Fixtures.req 30]
               ["Rate limit: 100 req/min"; "Max payload: 1MB"]%string)
            Demo.input_data 240])
    /\ TimeBreakdown.breakdown_valid (GeneratedAssignment.time_breakdown a) = false.
Proof.
  set (scope :=
         AssignmentScope.mk "Payment Processing API" (PyStr.repeat "A" 250)
           (map Fixtures.req [80; 60; 70]) [Fixtures.req 30]
           ["Rate limit: 100 req/min"; "Max payload: 1MB"]%string).
  destruct (generate_succeeds sum_float_left nat
              (Demo.capability (Return (Demo.scope_json [80; 60; 70]))
                 (Return (AssignmentGenerator.TimeBreakdownJson Demo.off_by_five)))
              Demo.uuid4 Demo.now Demo.input_data Demo.start Demo.context scope
              (EvaluatorGuide.mk (Fixtures.rubric_with_guide "1-5 scale")
                 ["Over-engineering"]%string ["No tests"]%string
                 ["Clear README"]%string "Score the reasoning, not the choices.")
              Demo.off_by_five
              (TimeBreakdown.mk 240 20 150 40 20 5 false)
              PyFloat.c1 240 1%nat 2%nat 3%nat 4%nat)
    as (a & E & _ & _ & Tb & _).
  - reflexivity.
  - reflexivity.
  - reflexivity.
  - vm_compute; reflexivity.
  - reflexivity.
  - vm_compute; lia.
  - vm_compute; reflexivity.
  - discriminate.
  - vm_compute; lia.
  - vm_compute; lia.
  - repeat constructor.
  - repeat constructor.
  - vm_compute; reflexivity.
  - reflexivity.
  - reflexivity.
  - vm_compute; reflexivity.
  - vm_compute; reflexivity.
  - vm_compute; reflexivity.
  - exists a. split; [exact E|]. rewrite Tb. reflexivity.
Defined.

(** ** The tolerance of the scope gate in minutes *)

Module ToleranceFacts.
Import PyFloat RoundingFacts.

Lemma in_int_range (first : Z) (count : nat) (z : Z) :
  first <= z < first + Z.of_nat count -> In z (int_range first count).
Proof.
  intros H. unfold int_range. apply in_map_iff.
  exists (Z.to_nat (z - first)). split; [lia|]. apply in_seq. lia.
Qed.

(** Rounding a mantissa of at least 53 digits in the normal range: the
    result has 53 digits, at the exponent of the value or the next one. *)
Lemma binary_round_aux_normal (mx ex : Z) (lx : location) :
  0 < mx -> 53 <= Zdigits2 mx -> -1074 <= Zdigits2 mx + ex - 53 ->
  Zdigits2 mx + ex <= 1023 ->
  exists m e,
    binary_round_aux prec emax false mx ex lx = S754_finite false m e
    /\ Zdigits2 (Zpos m) = 53
    /\ Zdigits2 mx + ex - 53 <= e <= Zdigits2 mx + ex - 52.
Proof.
  intros Hm Hd Lo Hi. unfold binary_round_aux.
  pose proof (shr_fexp_spec mx ex lx ltac:(lia)) as S1.
  destruct (shr_fexp prec emax mx ex lx) as [mrs1 e1]. cbn [fst snd] in S1.
  destruct S1 as (N1 & A1 & B1).
  assert (X1 : e1 = Zdigits2 mx + ex - 53 /\ Zdigits2 (shr_m mrs1) = 53).
  { unfold fexp, emin, prec, emax in *.
    destruct (Z_le_gt_dec (Z.max (Zdigits2 mx + ex - 53) (3 - 1024 - 53) - ex) 0).
    - destruct (A1 l) as [-> ->]. lia.
    - destruct (B1 ltac:(lia)) as [-> ->]. lia. }
  destruct X1 as [-> D1]. clear A1 B1.
  pose proof (round_nearest_even_spec (shr_m mrs1) (loc_of_shr_record mrs1) N1)
    as [N2 D2].
  set (m2 := round_nearest_even (shr_m mrs1) (loc_of_shr_record mrs1)) in *.
  rewrite D1 in D2.
  pose proof (shr_fexp_spec m2 (Zdigits2 mx + ex - 53) loc_Exact N2) as S2.
  destruct (shr_fexp prec emax m2 (Zdigits2 mx + ex - 53) loc_Exact) as [mrs2 e2].
  cbn [fst snd] in S2. destruct S2 as (N3 & A2 & B2).
  assert (X2 : Zdigits2 mx + ex - 53 <= e2 <= Zdigits2 mx + ex - 52
               /\ Zdigits2 (shr_m mrs2) = 53).
  { unfold fexp, emin, prec, emax in *.
    destruct (Z_le_gt_dec
                (Z.max (Zdigits2 m2 + (Zdigits2 mx + ex - 53) - 53) (3 - 1024 - 53)
                 - (Zdigits2 mx + ex - 53)) 0).
    - destruct (A2 l) as [-> ->]. lia.
    - destruct (B2 ltac:(lia)) as [-> ->]. lia. }
  destruct X2 as [E2 D3]. clear A2 B2.
  destruct (shr_m mrs2) as [|p|p]; [discriminate D3| |lia].
  assert (L : (e2 <=? emax - prec) = true)
    by (apply Z.leb_le; unfold emax, prec; lia).
  rewrite L. exists p, e2. split; [reflexivity|]. split; [exact D3|exact E2].
Qed.

(** Aligning gives the rounding at least 53 digits. *)
Lemma shl_align_enough (m : positive) (e : Z) :
  -1074 <= Zdigits2 (Zpos m) + e - 53 ->
  53 <= Zdigits2 (Zpos (fst (shl_align m e (fexp prec emax (Zdigits2 (Zpos m) + e))))).
Proof.
  intros Lo. unfold shl_align, fexp, emin, prec, emax.
  destruct (Z.max (Zdigits2 (Zpos m) + e - 53) (3 - 1024 - 53) - e) as [|d|d] eqn:E;
    cbn [fst].
  - lia.
  - lia.
  - pose proof (iter_xO_digits m d) as I. cbn [Zdigits2] in *. lia.
Qed.

(** [float(n)] of an int of at least 11 binary digits. *)
Lemma of_int_large (n : Z) :
  1024 <= n < 2 ^ 1023 ->
  exists m e,
    of_int n = Some (S754_finite false m e)
    /\ Zdigits2 (Zpos m) = 53 /\ -42 <= e <= 971.
Proof.
  intros [Lo Hi]. destruct n as [|p|p]; try lia.
  unfold of_int, binary_normalize, binary_round.
  assert (D1 : 11 <= Zdigits2 (Zpos p))
    by (apply (Zdigits2_le 1024 (Zpos p)); lia).
  assert (D2 : Zdigits2 (Zpos p) <= 1023)
    by (apply Zdigits2_lt_pow; [split; [lia|exact Hi]|lia]).
  pose proof (shl_align_spec p 0 (fexp prec emax (Zpos (digits2_pos p) + 0)))
    as [Le Dg].
  pose proof (shl_align_enough p 0 ltac:(lia)) as En.
  change (Zdigits2 (Zpos p)) with (Zpos (digits2_pos p)) in En.
  destruct (shl_align p 0 (fexp prec emax (Zpos (digits2_pos p) + 0))) as [mz ez].
  cbn [fst snd] in Le, Dg, En.
  destruct (binary_round_aux_normal (Zpos mz) ez loc_Exact ltac:(lia) En
              ltac:(lia) ltac:(lia)) as (m & e & -> & Dm & He).
  exists m, e. split; [reflexivity|]. split; [exact Dm|lia].
Qed.

(** The quotient of a float of at least 1024 by minutes below 512 is at
    least 2.0. *)
Lemma quotient_exponent (mx my : positive) (ex ey : Z) :
  Zdigits2 (Zpos mx) = 53 -> Zdigits2 (Zpos my) = 53 ->
  -42 <= ex <= 971 -> -46 <= ey <= -44 ->
  exists m e,
    div (S754_finite false mx ex) (S754_finite false my ey) = S754_finite false m e
    /\ -51 <= e.
Proof.
  intros Dx Dy Hx Hy. unfold div, SFdiv, SFdiv_core_binary.
  rewrite Dx, Dy.
  assert (E : Z.min (fexp prec emax (53 + ex - (53 + ey))) (ex - ey) = ex - ey - 53)
    by (unfold fexp, emin, prec, emax; lia).
  rewrite E.
  replace (ex - ey - (ex - ey - 53)) with 53 by lia.
  cbv beta iota zeta.
  rewrite Z.shiftl_mul_pow2 by lia.
  change (IntDef.Z.div_eucl (Zpos mx * 2 ^ 53) (Zpos my))
    with (Z.div_eucl (Zpos mx * 2 ^ 53) (Zpos my)).
  pose proof (Zdigits2_spec (Zpos mx) eq_refl) as Bx.
  pose proof (Zdigits2_spec (Zpos my) eq_refl) as By.
  rewrite Dx in Bx. rewrite Dy in By.
  change (2 ^ (53 - 1)) with 4503599627370496 in Bx, By.
  change (2 ^ 53) with 9007199254740992 in Bx, By |- *.
  assert (Q : 4503599627370496 <= Zpos mx * 9007199254740992 / Zpos my
              < 18014398509481984).
  { split.
    - apply Z.div_le_lower_bound; lia.
    - apply Z.div_lt_upper_bound; lia. }
  unfold Z.div in Q.
  destruct (Z.div_eucl (Zpos mx * 9007199254740992) (Zpos my)) as [q r].
  assert (D1 : 53 <= Zdigits2 q)
    by (apply (Zdigits2_le 4503599627370496 q); lia).
  assert (D2 : Zdigits2 q <= 54)
    by (apply Zdigits2_lt_pow; [split; [lia|]|lia];
        change (2 ^ 54) with 18014398509481984; lia).
  cbn [xorb].
  destruct (binary_round_aux_normal q (ex - ey - 53) (new_location (Zpos my) r)
              ltac:(lia) D1 ltac:(lia) ltac:(lia)) as (m & e & -> & _ & He).
  exists m, e. split; [reflexivity|lia].
Qed.

(** A total of 1024 minutes or more is more than 1.25 times a budget of
    less than 512 minutes. *)
Lemma large_total_over (total_time : Z) (my : positive) (ey : Z) :
  1024 <= total_time < 2 ^ 1023 ->
  Zdigits2 (Zpos my) = 53 -> -46 <= ey <= -44 ->
  exists r,
    int_truediv_float total_time (S754_finite false my ey) = Return r
    /\ leb r c1_25 = false.
Proof.
  intros Ht Dy Hy. unfold int_truediv_float.
  destruct (of_int_large total_time Ht) as (mx & ex & -> & Dx & Hx).
  cbn [is_zero].
  destruct (quotient_exponent mx my ex ey Dx Dy Hx Hy) as (m & e & -> & He).
  eexists. split; [reflexivity|].
  unfold leb, SFleb, c1_25. cbn [SFcompare].
  destruct (Z.compare_spec e (-52)) as [C|C|C]; [lia|lia|reflexivity].
Qed.

(** The totals below 1024 minutes, one by one. *)
Lemma small_totals :
  forallb (fun k => forallb (tolerance_holds k) (int_range 0 1024)) (int_range 4 13)
  = true.
Proof. vm_compute. reflexivity. Qed.

Lemma budget_minutes_table : forallb budget_minutes_normal (int_range 4 13) = true.
Proof. vm_compute. reflexivity. Qed.

(** The test of the gate on a whole number of half hours, in minutes. *)
Lemma ratio_within_bounds_iff (total_time k : Z) :
  4 <= k <= 16 -> 0 <= total_time < 2 ^ 1023 ->
  (exists r,
     int_truediv_float total_time (mul (half_hours k) c60) = Return r)
  /\ (ratio_within_bounds total_time (half_hours k) = true
      <-> 45 * k <= 2 * total_time <= 75 * k).
Proof.
  intros Hk Ht.
  assert (Ik : In k (int_range 4 13)) by (apply in_int_range; lia).
  pose proof (proj1 (forallb_forall _ _) budget_minutes_table k Ik) as N.
  unfold budget_minutes_normal in N.
  destruct (mul (half_hours k) c60) as [s|s| |s m e] eqn:M; try discriminate N.
  destruct s; [discriminate N|].
  apply andb_prop in N as [N Hi]. apply andb_prop in N as [Dm Lo].
  apply Z.eqb_eq in Dm. apply Z.leb_le in Lo, Hi.
  destruct (Z_lt_ge_dec total_time 1024) as [Small|Large].
  - assert (It : In total_time (int_range 0 1024))
      by (apply in_int_range; clear - Ht Small; lia).
    pose proof (proj1 (forallb_forall _ _)
                  (proj1 (forallb_forall _ _) small_totals k Ik) total_time It) as T.
    unfold tolerance_holds in T. apply Bool.eqb_prop in T. split.
    + unfold int_truediv_float.
      destruct (of_int_returns total_time) as [x ->].
      { clear - Ht. lia. }
      cbn [is_zero]. eauto.
    + rewrite T, andb_true_iff, !Z.leb_le. tauto.
  - destruct (large_total_over total_time m e) as (r & R & Over).
    { clear - Ht Large. lia. }
    { exact Dm. }
    { clear - Lo Hi. lia. }
    split; [exists r; exact R|].
    unfold ratio_within_bounds. rewrite M, R, Over, andb_false_r.
    split; [discriminate|clear - Hk Large; lia].
Qed.

End ToleranceFacts.

(** X28. For a budget of a whole number of half hours, from 2.0 to 8.0
    hours, the tolerance of the scope gate is exact in minutes: the gate
    reports no time mismatch exactly when the total is at least 45 and at
    most 75 minutes per budgeted hour, both bounds included. The roundings
    of the product and of the quotient move neither bound, for any total
    from 0 to below [2^1023]. *)
Theorem half_hour_budget_tolerance (scope : AssignmentScope.t) (k : Z) :
  let total_time := total_minutes_of (AssignmentScope.all_requirements scope) in
  4 <= k <= 16 ->
  0 <= total_time < 2 ^ 1023 ->
  exists v,
    QualityGate.validate_scope scope (half_hours k) = Return v
    /\ (List.Forall (fun m => is_time_mismatch m = false) (ValidationResult.issues v)
        <-> 45 * k <= 2 * total_time <= 75 * k).
Proof.
  intros total_time Hk Ht.
  destruct (ToleranceFacts.ratio_within_bounds_iff total_time k Hk Ht) as [[r R] W].
  exists (ValidationResult.mk
            (length (scope_issues scope (half_hours k) r) =? 0)%nat
            (scope_issues scope (half_hours k) r)
            (structural_warnings scope ++ generic_warning scope)).
  split; [apply ScopeGateFacts.validate_scope_result; exact R|].
  cbn [ValidationResult.issues]. rewrite <- W.
  unfold ratio_within_bounds. fold total_time in R. rewrite R.
  unfold scope_issues.
  destruct (PyFloat.leb PyFloat.c0_75 r && PyFloat.leb r PyFloat.c1_25).
  - split; [reflexivity|]. intros _.
    apply List.Forall_forall. intros m Hm.
    apply GateFacts.in_append_if in Hm as [Hm|[_ ->]]; [|reflexivity].
    apply GateFacts.in_append_if in Hm as [Hm|[_ ->]]; [|reflexivity].
    destruct Hm.
  - split; [|discriminate]. intros F. exfalso.
    rewrite List.Forall_forall in F.
    specialize (F (TimeMismatch total_time
                      (PyFloat.mul (half_hours k) PyFloat.c60) r)).
    cbn [is_time_mismatch] in F.
    assert (Hin : In (TimeMismatch total_time
                        (PyFloat.mul (half_hours k) PyFloat.c60) r)
                    (append_if (length (AssignmentScope.must_have scope) <? 3)%nat
                       (TooFewMustHave (length (AssignmentScope.must_have scope)))
                       (append_if
                          (String.length (AssignmentScope.business_context scope)
                           <? 100)%nat
                          (BusinessContextTooBrief
                             (String.length (AssignmentScope.business_context scope)))
                          (append_if (negb false)
                             (TimeMismatch total_time
                                (PyFloat.mul (half_hours k) PyFloat.c60) r) [])))).
    { apply GateFacts.in_append_if. left. apply GateFacts.in_append_if. left.
      simpl. left. reflexivity. }
    specialize (F Hin). discriminate F.
Qed.

Lemma half_hour_budget_tolerance_at_two_and_a_half :
  let scope := Fixtures.scope_of [60; 30; 22] [] [] in
  total_minutes_of (AssignmentScope.all_requirements scope) = 112
  /\ exists v,
       QualityGate.validate_scope scope (half_hours 5) = Return v
       /\ ~ List.Forall (fun m => is_time_mismatch m = false)
              (ValidationResult.issues v).
Proof.
  intros scope.
  assert (N : total_minutes_of (AssignmentScope.all_requirements scope) = 112)
    by reflexivity.
  split; [exact N|].
  destruct (half_hour_budget_tolerance scope 5) as (v & E & T).
  - lia.
  - rewrite N. split; [lia|reflexivity].
  - exists v. split; [exact E|]. intros F. apply T in F. rewrite N in F. lia.
Defined.

(** ** The share of the must-haves in minutes *)

Module ShareExactFacts.
Import PyFloat RoundingFacts.

(** One step to the right halves the mantissa. *)
Lemma shr_1_value (s : shr_record) : 0 <= shr_m s -> shr_m (shr_1 s) = shr_m s / 2.
Proof.
  destruct s as [[|[p|p|]|p] r t]; cbn [shr_1 shr_m]; intros H; try lia.
  - reflexivity.
  - rewrite Pos2Z.inj_xI. apply (Z.div_unique _ 2 _ 1); lia.
  - rewrite Pos2Z.inj_xO. apply (Z.div_unique _ 2 _ 0); lia.
  - reflexivity.
Qed.

Lemma iter_shr_1_value (p : positive) (s : shr_record) :
  0 <= shr_m s ->
  shr_m (SpecFloat.iter_pos shr_1 p s) = shr_m s / 2 ^ Zpos p.
Proof.
  revert s. induction p as [p IH|p IH|]; intros s H; simpl SpecFloat.iter_pos.
  - pose proof (shr_1_nonneg s H) as H1.
    pose proof (proj1 (iter_shr_1 p (shr_1 s)) H1) as H2.
    rewrite (IH _ H2), (IH _ H1), shr_1_value by exact H.
    rewrite !Z.div_div by lia. f_equal.
    rewrite (Pos2Z.inj_xI p), Z.pow_add_r, Z.pow_mul_r by lia.
    change (2 ^ 2) with 4. change (2 ^ 1) with 2.
    replace (4 ^ Zpos p) with (2 ^ Zpos p * 2 ^ Zpos p); [lia|].
    rewrite <- Z.pow_mul_l. reflexivity.
  - pose proof (proj1 (iter_shr_1 p s) H) as H2.
    rewrite (IH _ H2), (IH _ H).
    rewrite !Z.div_div by lia. f_equal.
    rewrite (Pos2Z.inj_xO p), Z.pow_mul_r by lia.
    change (2 ^ 2) with 4.
    replace (4 ^ Zpos p) with (2 ^ Zpos p * 2 ^ Zpos p); [lia|].
    rewrite <- Z.pow_mul_l. reflexivity.
  - rewrite shr_1_value by exact H. reflexivity.
Qed.

(** The mantissa after an alignment to the right. *)
Lemma shr_fexp_value (m e : Z) (l : location) :
  0 <= m ->
  let n := fexp prec emax (Zdigits2 m + e) - e in
  0 < n -> shr_m (fst (shr_fexp prec emax m e l)) = m / 2 ^ n.
Proof.
  intros Hm n Hn. unfold shr_fexp, shr. fold n.
  destruct n as [|p|p]; try lia. cbn [fst].
  rewrite iter_shr_1_value; rewrite shr_record_of_loc_m; [reflexivity|exact Hm].
Qed.

Lemma round_nearest_even_le (m : Z) (l : location) : round_nearest_even m l <= m + 1.
Proof.
  unfold round_nearest_even. destruct l as [|[]]; try destruct (Z.even m); lia.
Qed.

(** Rounding a mantissa whose leading 53 digits are not all ones stays at
    the exponent of the value. *)
Lemma binary_round_aux_no_carry (mx ex : Z) (lx : location) :
  0 < mx -> 53 <= Zdigits2 mx -> -1074 <= Zdigits2 mx + ex - 53 ->
  Zdigits2 mx + ex <= 1023 ->
  mx / 2 ^ (Zdigits2 mx - 53) <= 9007199254740990 ->
  exists m,
    binary_round_aux prec emax false mx ex lx
    = S754_finite false m (Zdigits2 mx + ex - 53).
Proof.
  intros Hm Hd Lo Hi Top. unfold binary_round_aux.
  pose proof (shr_fexp_spec mx ex lx ltac:(lia)) as S1.
  pose proof (shr_fexp_value mx ex lx ltac:(lia)) as V1.
  destruct (shr_fexp prec emax mx ex lx) as [mrs1 e1]. cbn [fst snd] in S1, V1.
  destruct S1 as (N1 & A1 & B1).
  assert (X1 : e1 = Zdigits2 mx + ex - 53 /\ Zdigits2 (shr_m mrs1) = 53
               /\ shr_m mrs1 <= 9007199254740990).
  { unfold fexp, emin, prec, emax in *.
    destruct (Z_le_gt_dec (Z.max (Zdigits2 mx + ex - 53) (3 - 1024 - 53) - ex) 0).
    - destruct (A1 l) as [-> ->].
      replace (Zdigits2 mx - 53) with 0 in Top by lia.
      rewrite Z.pow_0_r, Z.div_1_r in Top. lia.
    - destruct (B1 ltac:(lia)) as [-> D]. rewrite (V1 ltac:(lia)).
      replace (Z.max (Zdigits2 mx + ex - 53) (3 - 1024 - 53) - ex)
        with (Zdigits2 mx - 53) in * by lia.
      rewrite <- (V1 ltac:(lia)). split; [lia|]. split; [lia|].
      rewrite (V1 ltac:(lia)). exact Top. }
  destruct X1 as (-> & D1 & T1). clear A1 B1 V1.
  pose proof (round_nearest_even_spec (shr_m mrs1) (loc_of_shr_record mrs1) N1)
    as [N2 D2].
  pose proof (round_nearest_even_le (shr_m mrs1) (loc_of_shr_record mrs1)) as T2.
  set (m2 := round_nearest_even (shr_m mrs1) (loc_of_shr_record mrs1)) in *.
  rewrite D1 in D2.
  assert (D2' : Zdigits2 m2 = 53).
  { assert (Zdigits2 m2 <= 53); [|lia].
    apply Zdigits2_lt_pow; [|lia]. change (2 ^ 53) with 9007199254740992. lia. }
  pose proof (shr_fexp_spec m2 (Zdigits2 mx + ex - 53) loc_Exact N2) as S2.
  destruct (shr_fexp prec emax m2 (Zdigits2 mx + ex - 53) loc_Exact) as [mrs2 e2].
  cbn [fst snd] in S2. destruct S2 as (N3 & A2 & _).
  destruct A2 as [-> E3].
  { unfold fexp, emin, prec, emax. rewrite D2'. lia. }
  rewrite E3.
  destruct m2 as [|p|p]; [discriminate D2'| |lia].
  assert (L : (Zdigits2 mx + ex - 53 <=? emax - prec) = true)
    by (apply Z.leb_le; unfold emax, prec; lia).
  rewrite L. exists p. reflexivity.
Qed.

(** The core of [a / b] for [0 < a <= b < 2^53]: the exponent is minus the
    shift [s], and the quotient of [a * 2^s] by [b] has at least 53
    digits. *)
Lemma div_core_small (a b : positive) :
  Zpos a <= Zpos b -> Zpos b < 2 ^ 53 ->
  exists s q l,
    SFdiv_core_binary prec emax (Zpos a) 0 (Zpos b) 0 = (q, - s, l)
    /\ 53 <= s <= 105
    /\ q = Zpos a * 2 ^ s / Zpos b
    /\ 53 <= Zdigits2 q <= s + 1.
Proof.
  intros Hab Hb.
  pose proof (Zdigits2_spec (Zpos a) eq_refl) as Ba.
  pose proof (Zdigits2_spec (Zpos b) eq_refl) as Bb.
  pose proof (Zdigits2_pos (Zpos a) eq_refl) as Pa.
  pose proof (Zdigits2_le (Zpos a) (Zpos b) ltac:(lia)) as Dab.
  assert (Db : Zdigits2 (Zpos b) <= 53)
    by (apply Zdigits2_lt_pow; [split; [lia|exact Hb]|lia]).
  set (da := Zdigits2 (Zpos a)) in *. set (db := Zdigits2 (Zpos b)) in *.
  set (s := 53 + db - da).
  unfold SFdiv_core_binary. fold da db.
  assert (E : Z.min (fexp prec emax (da + 0 - (db + 0))) (0 - 0) = - s)
    by (unfold fexp, emin, prec, emax, s; lia).
  rewrite E. replace (0 - 0 - - s) with s by lia.
  assert (Hs : 53 <= s <= 105) by (unfold s; lia).
  assert (M : match s with
              | 0 => Zpos a
              | Zpos _ => Z.shiftl (Zpos a) s
              | Zneg _ => 0
              end = Zpos a * 2 ^ s).
  { destruct s as [|p|p] eqn:Es; try lia. apply Z.shiftl_mul_pow2. lia. }
  rewrite M.
  change (IntDef.Z.div_eucl (Zpos a * 2 ^ s) (Zpos b))
    with (Z.div_eucl (Zpos a * 2 ^ s) (Zpos b)).
  assert (P1 : 2 ^ (da - 1) * 2 ^ s = 2 ^ 52 * 2 ^ db)
    by (rewrite <- !Z.pow_add_r by lia; f_equal; unfold s; lia).
  assert (Q1 : 2 ^ 52 <= Zpos a * 2 ^ s / Zpos b).
  { apply Z.div_le_lower_bound; [lia|].
    pose proof (Z.pow_pos_nonneg 2 s ltac:(lia) ltac:(lia)).
    change (2 ^ 52) with 4503599627370496 in *. nia. }
  assert (Q2 : Zpos a * 2 ^ s / Zpos b < 2 ^ (s + 1)).
  { apply Z.div_lt_upper_bound; [lia|].
    rewrite Z.pow_add_r by lia. change (2 ^ 1) with 2.
    pose proof (Z.pow_pos_nonneg 2 s ltac:(lia) ltac:(lia)). nia. }
  unfold Z.div in Q1, Q2 |- *.
  destruct (Z.div_eucl (Zpos a * 2 ^ s) (Zpos b)) as [q r] eqn:D.
  exists s, q, (new_location (Zpos b) r). split; [reflexivity|].
  split; [exact Hs|]. split; [unfold Z.div; rewrite D; reflexivity|]. split.
  - apply (Zdigits2_le (2 ^ 52) q). split; [lia|exact Q1].
  - apply Zdigits2_lt_pow; [split; [|exact Q2]|]; lia.
Qed.

Lemma compare_cont_ge (a b : positive) :
  Zpos b <= Zpos a ->
  match PosDef.Pos.compare_cont Eq a b with Lt => true | _ => false end = false.
Proof.
  change (PosDef.Pos.compare_cont Eq a b) with (Pos.compare a b).
  destruct (Pos.compare_spec a b); [reflexivity|lia|reflexivity].
Qed.

(** [a / b < 0.5] is [2 * a < b] for ints below [2^53]: the rounding of the
    quotient does not reach 0.5 from below. *)
Lemma div_int_below_half (a b : Z) :
  0 < a -> a <= b -> b < 2 ^ 53 ->
  ltb (div_int a b) c0_5 = (2 * a <? b).
Proof.
  intros Ha Hab Hb. destruct a as [|a|a]; try lia. destruct b as [|b|b]; try lia.
  unfold div_int. change (Z.abs (Zpos a)) with (Zpos a).
  change (Z.abs (Zpos b)) with (Zpos b).
  change (xorb (Zpos a <? 0) (Zpos b <? 0)) with false.
  destruct (div_core_small a b Hab Hb) as (s & q & l & -> & Hs & Hdiv & Dq).
  pose proof (Z.pow_pos_nonneg 2 (s - 1) ltac:(lia) ltac:(lia)) as Pp.
  assert (Ps : 2 ^ s = 2 * 2 ^ (s - 1)).
  { replace s with (1 + (s - 1)) at 1 by lia. rewrite Z.pow_add_r by lia.
    reflexivity. }
  assert (Hq : 0 < q).
  { destruct q as [|q|q]; [cbn [Zdigits2] in Dq; lia|lia|].
    exfalso. assert (0 <= Zpos a * 2 ^ s / Zpos b); [|lia].
    apply Z.div_pos; lia. }
  destruct (Z.ltb_spec (2 * Zpos a) (Zpos b)) as [Lt|Ge].
  - (* below one half *)
    assert (Q : q < 2 ^ (s - 1)).
    { rewrite Hdiv. apply Z.div_lt_upper_bound; [lia|]. rewrite Ps. nia. }
    assert (D : Zdigits2 q <= s - 1)
      by (apply Zdigits2_lt_pow; [split; [lia|exact Q]|lia]).
    destruct (Z.eq_dec (Zdigits2 q) (s - 1)) as [Top|Low].
    + assert (K : q / 2 ^ (Zdigits2 q - 53) <= 9007199254740990).
      { pose proof (Z.pow_pos_nonneg 2 (Zdigits2 q - 53) ltac:(lia) ltac:(lia))
          as Pk.
        assert (Pd : 2 ^ (s - 1) = 9007199254740992 * 2 ^ (Zdigits2 q - 53)).
        { replace (s - 1) with (53 + (Zdigits2 q - 53)) at 1 by lia.
          rewrite Z.pow_add_r by lia. reflexivity. }
        change (2 ^ 53) with 9007199254740992 in Hb.
        assert (q < 9007199254740991 * 2 ^ (Zdigits2 q - 53)).
        { rewrite Hdiv at 1. apply Z.div_lt_upper_bound; [lia|].
          rewrite Ps, Pd. nia. }
        apply Z.lt_succ_r. apply Z.div_lt_upper_bound; [lia|]. lia. }
      destruct (binary_round_aux_no_carry q (- s) l Hq ltac:(lia) ltac:(lia)
                  ltac:(lia) K) as [m ->].
      unfold ltb, SFltb, c0_5. cbn [SFcompare].
      destruct (Z.compare_spec (Zdigits2 q + - s - 53) (-53)) as [C|C|C];
        [lia|reflexivity|lia].
    + destruct (ToleranceFacts.binary_round_aux_normal q (- s) l Hq ltac:(lia) ltac:(lia)
                  ltac:(lia)) as (m & e & -> & _ & He).
      unfold ltb, SFltb, c0_5. cbn [SFcompare].
      destruct (Z.compare_spec e (-53)) as [C|C|C]; [lia|reflexivity|lia].
  - (* one half or more *)
    assert (Q : 2 ^ (s - 1) <= q).
    { rewrite Hdiv. apply Z.div_le_lower_bound; [lia|]. rewrite Ps. nia. }
    assert (D : s <= Zdigits2 q).
    { pose proof (Zdigits2_spec q Hq) as [_ U].
      assert (L : 2 ^ (s - 1) < 2 ^ Zdigits2 q) by lia.
      apply Z.pow_lt_mono_r_iff in L; lia. }
    destruct (ToleranceFacts.binary_round_aux_normal q (- s) l Hq ltac:(lia) ltac:(lia)
                ltac:(lia)) as (m & e & -> & Dm & He).
    pose proof (Zdigits2_spec (Zpos m) eq_refl) as [Bm _]. rewrite Dm in Bm.
    change (2 ^ (53 - 1)) with 4503599627370496 in Bm.
    unfold ltb, SFltb, c0_5. cbn [SFcompare].
    destruct (Z.compare_spec e (-53)) as [C|C|C]; [|lia|reflexivity].
    apply compare_cont_ge. exact Bm.
Qed.

End ShareExactFacts.

(** X29. The warning about the share of the must-haves is exact in
    minutes: for requirements of positive minutes that total less than
    [2^53], the heuristics warn exactly when the must-haves take less than
    half of the total, and a share of exactly one half is not warned
    about. The rounding of the quotient never moves a share below one half
    up to 0.5, nor one of a half or more below it. The other warnings are
    those of the counts and of the seniority level, unchanged. *)
Theorem share_warning_exact
    (scope : AssignmentScope.t) (seniority_level : string) (time_budget_hours : float) :
  let must_have_time := total_minutes_of (AssignmentScope.must_have scope) in
  let total_time := total_minutes_of (AssignmentScope.all_requirements scope) in
  valid_minutes (AssignmentScope.must_have scope) ->
  valid_minutes (AssignmentScope.nice_to_have scope) ->
  total_time < 2 ^ 53 ->
  QualityGate.generate_scope_warnings scope seniority_level time_budget_hours
  = Return
      (append_if (2 * must_have_time <? total_time)
         (MustHaveShareLow (PyFloat.div_int must_have_time total_time))
         (balance_warnings scope seniority_level))
  /\ ((exists ratio,
         In (MustHaveShareLow ratio)
           (append_if (2 * must_have_time <? total_time)
              (MustHaveShareLow (PyFloat.div_int must_have_time total_time))
              (balance_warnings scope seniority_level)))
      <-> 2 * must_have_time < total_time).
Proof.
  intros must_have_time total_time M N Small.
  pose proof (RoundingFacts.total_minutes_nonneg _ M) as M0.
  pose proof (RoundingFacts.total_minutes_nonneg _ N) as N0.
  assert (T : total_time
              = must_have_time + total_minutes_of (AssignmentScope.nice_to_have scope)).
  { unfold total_time, AssignmentScope.all_requirements.
    apply RoundingFacts.total_minutes_app. }
  fold must_have_time in M0. split.
  - unfold QualityGate.generate_scope_warnings, balance_warnings.
    fold must_have_time total_time.
    destruct (Z.ltb_spec 0 total_time) as [Pos|Zero].
    + rewrite RoundingFacts.int_truediv_returns by lia.
      cbn [mbind result_bind]. do 2 f_equal.
      destruct (Z.eq_dec must_have_time 0) as [E|E].
      * rewrite E. destruct total_time; try lia. reflexivity.
      * apply ShareExactFacts.div_int_below_half; lia.
    + assert (E : (2 * must_have_time <? total_time) = false)
        by (apply Z.ltb_ge; lia).
      rewrite E. reflexivity.
  - rewrite <- Z.ltb_lt.
    destruct (2 * must_have_time <? total_time); cbn [append_if].
    + split; [reflexivity|]. intros _. eexists. apply in_app_iff. right.
      left. reflexivity.
    + split; [|discriminate]. intros [ratio H].
      apply ScopeWarningFacts.in_balance in H.
      destruct H as [[E _]|[[E _]|[E _]]]; discriminate E.
Qed.

Lemma share_warning_exact_at_one_half :
  QualityGate.generate_scope_warnings
    (Fixtures.scope_of [80; 60; 40] [180] []) "senior" Fixtures.four_hours
  = Return (balance_warnings (Fixtures.scope_of [80; 60; 40] [180] []) "senior")
  /\ QualityGate.generate_scope_warnings
       (Fixtures.scope_of [80; 60; 40] [181] []) "senior" Fixtures.four_hours
     = Return
         (balance_warnings (Fixtures.scope_of [80; 60; 40] [181] []) "senior"
          ++ [MustHaveShareLow (PyFloat.div_int 180 361)]).
Proof.
  split.
  - apply (share_warning_exact (Fixtures.scope_of [80; 60; 40] [180] []) "senior"
             Fixtures.four_hours).
    + repeat constructor.
    + repeat constructor.
    + reflexivity.
  - apply (share_warning_exact (Fixtures.scope_of [80; 60; 40] [181] []) "senior"
             Fixtures.four_hours).
    + repeat constructor.
    + repeat constructor.
    + reflexivity.
Defined.
